(** * MCQ generator client: scoring, grading, export and API wrappers

    A shallow embedding of the client-side logic of the quiz application:
    - [MCQAssessmentScreen.js]: building the question records, shuffling the
      options, recording answers and computing the score on submission;
    - [MCQResultScreen.js] and [utils/pdfGenerator.js]: percentage and grade,
      and the two export functions;
    - [MCQScreen]: [formatMCQsForDownload];
    - [services/apiService.js]: [generateMCQsFromAPI] and
      [processFileWithWebSocket].

    JavaScript numbers are IEEE 754 binary64 values; they are modelled with
    the Standard Library's [SpecFloat].  Counts and array lengths are integers
    far below 2^53, which binary64 holds exactly, so they are kept in [Z] and
    [nat] and converted at the point where the source divides. *)

From Stdlib Require Import ZArith List String Ascii Bool Lia Permutation.
From Stdlib Require Import Floats.SpecFloat.
From stdpp Require Import gmap strings list pretty.

Local Open Scope Z_scope.

(** ** JavaScript numbers *)

Module JSNumber.

Definition prec : Z := 53.
Definition emax : Z := 1024.

Definition number : Type := spec_float.

(** The Number nearest to an integer (exact below 2^53). *)
Definition of_Z (n : Z) : number := binary_normalize prec emax n 0 false.

(** [x / y] and [x * y]. *)
Definition div (x y : number) : number := SFdiv prec emax x y.
Definition mul (x y : number) : number := SFmul prec emax x y.
Definition sub (x y : number) : number := SFsub prec emax x y.

(** [x > y] and [x >= y]: false as soon as one side is NaN. *)
Definition gt (x y : number) : bool :=
  match SFcompare x y with Some Gt => true | _ => false end.
Definition ge (x y : number) : bool :=
  match SFcompare x y with Some (Gt | Eq) => true | _ => false end.

(** [Math.round]: the integral Number closest to [x], ties towards
    +infinity; NaN, the infinities and the zeros are returned unchanged,
    and a result of zero keeps the sign of [x]. *)
Definition Math_round (x : number) : number :=
  match x with
  | S754_finite s m e =>
      if 0 <=? e then x
      else
        let k := - e in
        let n := if s then Z.neg m else Z.pos m in
        let r := (2 * n + 2 ^ k) / 2 ^ (k + 1) in
        if r =? 0 then S754_zero s else of_Z r
  | _ => x
  end.

(** The integer a Number stands for, when it is one. *)
Definition to_Z (x : number) : option Z :=
  match x with
  | S754_zero _ => Some 0
  | S754_finite s m e =>
      let n := if s then Z.neg m else Z.pos m in
      if 0 <=? e then Some (n * 2 ^ e)
      else if n mod 2 ^ (- e) =? 0 then Some (n / 2 ^ (- e))
      else None
  | _ => None
  end.

(** [0.5] *)
Definition half : number := S754_finite false (2 ^ 52) (-53).

End JSNumber.

(** ** Rounding of an exact quotient *)

Module RoundingSpec.

(** Where the exact value [N / D] lies between the integers [m] and [m + 1],
    as the rounding of [SpecFloat] records it: exactly on [m], or below, on
    or above the middle. *)
Definition loc_of (N D m : Z) : location :=
  let R := N - m * D in
  if R =? 0 then loc_Exact else loc_Inexact (2 * R ?= D).

(** The record a right shift works on holds the integer part of [N / D]
    and the place of [N / D] above it. *)
Definition located (N D : Z) (mrs : shr_record) : Prop :=
  0 <= shr_m mrs /\
  0 <= N - shr_m mrs * D < D /\
  loc_of_shr_record mrs = loc_of N D (shr_m mrs).
End RoundingSpec.

(** ** MCQResultScreen.js: percentage and grade *)

Module MCQResultScreen.
Import JSNumber.

(** [total > 0 ? Math.round((score / total) * 100) : 0] *)
Definition percentage (score total : number) : number :=
  if gt total (of_Z 0)
  then Math_round (mul (div score total) (of_Z 100))
  else of_Z 0.

(** The [if] / [else if] chain over [percentage]. *)
Definition grade_of (percentage : number) : string :=
  if ge percentage (of_Z 90) then "A"
  else if ge percentage (of_Z 80) then "B"
  else if ge percentage (of_Z 70) then "C"
  else if ge percentage (of_Z 60) then "D"
  else "F".

Definition grade (score total : number) : string :=
  grade_of (percentage score total).

End MCQResultScreen.

(** ** Arrays: the methods the screens use *)

Module JSArray.
Import JSNumber.

Section Reduce.
Context {A B : Type} (callback : B -> A -> nat -> B).

(** [arr.reduce(callback, init)]: the accumulator, the element and its
    index are passed to the callback, left to right. *)
Fixpoint reduce_from (index : nat) (acc : B) (arr : list A) : B :=
  match arr with
  | [] => acc
  | x :: rest => reduce_from (S index) (callback acc x index) rest
  end.

Definition reduce (arr : list A) (init : B) : B := reduce_from 0%nat init arr.
End Reduce.

Section Sort.
Context {A St : Type} (comparefn : A -> A -> St -> number * St).

(** [Array.prototype.sort] is the engine's, not the application's, and with
    a comparator that answers at random the order it leaves is the engine's
    own choice.  It is modelled as an insertion sort: each element is moved
    left past every [tmp] with [comparefn(tmp, element) > 0].  Another
    engine calls the comparator on other pairs and leaves another order;
    what is proved of [sort] is what every engine guarantees, that the
    result is a permutation.  The comparator is called with the state it
    reads its randomness from.  The sorted prefix is held right to left. *)
Fixpoint insert_element (rprefix : list A) (element : A) (st : St)
  : list A * St :=
  match rprefix with
  | [] => ([element], st)
  | tmp :: rest =>
      let '(order, st1) := comparefn tmp element st in
      if gt order (of_Z 0) then
        let '(r, st2) := insert_element rest element st1 in
        (tmp :: r, st2)
      else (element :: tmp :: rest, st1)
  end.

Fixpoint sort_from (rprefix : list A) (arr : list A) (st : St)
  : list A * St :=
  match arr with
  | [] => (rev rprefix, st)
  | element :: rest =>
      let '(rp, st1) := insert_element rprefix element st in
      sort_from rp rest st1
  end.

Definition sort (arr : list A) (st : St) : list A * St :=
  sort_from [] arr st.
End Sort.

End JSArray.

(** ** Record shapes *)

(** A generated question as the backend returns it. *)
Module Generated.
Record t := mk { question : string; answer : string; distractors : list string }.
End Generated.

(** A question as the assessment screen and the exporter hold it. *)
Module Question.
Record t := mk { question : string; options : list string; correctAnswer : string }.
End Question.

(** An assessment result: the question record spread, plus [userAnswer]
    ([None] is [undefined]). *)
Module Result.
Record t := mk {
  question : string;
  options : list string;
  correctAnswer : string;
  userAnswer : option string
}.
End Result.

(** A question as [MCQScreen] receives it. *)
Module Preview.
Record t := mk { question : string; options : list string; correct_answer : string }.
End Preview.

(** ** MCQAssessmentScreen.js *)

Module MCQAssessmentScreen.
Import JSNumber.

(** [Math.random()]: the n-th draw of the run is [draws n]; the state is
    the number of draws made so far. *)
Section Shuffle.
Variable draws : nat -> number.

Definition Math_random (n : nat) : number * nat := (draws n, S n).

(** [() => 0.5 - Math.random()] *)
Definition comparefn (_ _ : string) (n : nat) : number * nat :=
  let '(r, n1) := Math_random n in (sub half r, n1).

(** [mcq => ({ question, options: [mcq.answer, ...mcq.distractors],
    correctAnswer: mcq.answer })] *)
Definition formatMcq (mcq : Generated.t) : Question.t :=
  Question.mk (Generated.question mcq)
              (Generated.answer mcq :: Generated.distractors mcq)
              (Generated.answer mcq).

(** [mcq => ({ ...mcq, options: [...mcq.options].sort(...) })] *)
Definition shuffle (mcq : Question.t) (n : nat) : Question.t * nat :=
  let '(shuffledOptions, n1) := JSArray.sort comparefn (Question.options mcq) n in
  (Question.mk (Question.question mcq) shuffledOptions (Question.correctAnswer mcq), n1).

(** [formattedMcqs.map(shuffle)], threading the draws. *)
Fixpoint shuffle_all (formattedMcqs : list Question.t) (n : nat)
  : list Question.t * nat :=
  match formattedMcqs with
  | [] => ([], n)
  | mcq :: rest =>
      let '(m, n1) := shuffle mcq n in
      let '(ms, n2) := shuffle_all rest n1 in
      (m :: ms, n2)
  end.

(** The effect: the [mcqs] state is replaced only when [generatedMCQs] is
    a non-empty array ([None] is [null]). *)
Definition useEffect (generatedMCQs : option (list Generated.t))
           (mcqs : list Question.t) (n : nat) : list Question.t * nat :=
  match generatedMCQs with
  | Some ((_ :: _) as l) => shuffle_all (map formatMcq l) n
  | _ => (mcqs, n)
  end.
End Shuffle.

(** [selectedAnswers]: an object keyed by question index. *)
Definition handleAnswer (selectedAnswers : gmap nat string)
           (questionIndex : nat) (selectedOption : string) : gmap nat string :=
  <[questionIndex := selectedOption]> selectedAnswers.

(** [selectedAnswers[index] === mcq.correctAnswer] *)
Definition strict_eq (x : option string) (y : string) : bool :=
  bool_decide (x = Some y).

(** The reducer's body. *)
Definition add_if_correct (selectedAnswers : gmap nat string)
           (acc : Z) (mcq : Question.t) (index : nat) : Z :=
  acc + (if strict_eq (selectedAnswers !! index) (Question.correctAnswer mcq)
         then 1 else 0).

Definition with_userAnswer (selectedAnswers : gmap nat string)
           (index : nat) (mcq : Question.t) : Result.t :=
  Result.mk (Question.question mcq) (Question.options mcq)
            (Question.correctAnswer mcq) (selectedAnswers !! index).

Inductive outcome :=
| Alert_Incomplete
| navigate_MCQResult (score : Z) (total : nat) (results : list Result.t).

Definition handleSubmit (mcqs : list Question.t)
           (selectedAnswers : gmap nat string) : outcome :=
  if (size selectedAnswers <? length mcqs)%nat then Alert_Incomplete
  else
    let score := JSArray.reduce (add_if_correct selectedAnswers) mcqs 0 in
    navigate_MCQResult score (length mcqs)
                       (imap (with_userAnswer selectedAnswers) mcqs).

End MCQAssessmentScreen.

(** ** MCQScreen *)

Module MCQScreen.

(** [mcqs.map(mcq => ({ question, answer: mcq.correct_answer,
    distractors: mcq.options.filter(option => option !== mcq.correct_answer) }))] *)
Definition formatMCQ (mcq : Preview.t) : Generated.t :=
  Generated.mk (Preview.question mcq)
               (Preview.correct_answer mcq)
               (List.filter (fun option => negb (String.eqb option (Preview.correct_answer mcq)))
                            (Preview.options mcq)).

Definition formatMCQsForDownload (mcqs : list Preview.t) : list Generated.t :=
  map formatMCQ mcqs.

End MCQScreen.

(** ** Effects: a trace of platform calls, and exceptions *)

Module Effect.

Inductive completion (A : Type) :=
| Normal (value : A)
| Throw (message : string).
Arguments Normal {A} value.
Arguments Throw {A} message.

Section WithEvent.
Context {event : Type}.

(** A computation appends the calls it makes to the trace and completes
    normally or throws. *)
Definition M (A : Type) : Type := list event -> completion A * list event.

Definition ret {A} (a : A) : M A := fun tr => (Normal a, tr).

Definition throw {A} (message : string) : M A := fun tr => (Throw message, tr).

Definition bind {A B} (c : M A) (k : A -> M B) : M B :=
  fun tr =>
    match c tr with
    | (Normal a, tr1) => k a tr1
    | (Throw message, tr1) => (Throw message, tr1)
    end.

Definition emit (e : event) : M unit := fun tr => (Normal tt, tr ++ [e]).

(** [try { body } catch (error) { handler(error.message) }] *)
Definition try_catch {A} (body : M A) (handler : string -> M A) : M A :=
  fun tr =>
    match body tr with
    | (Normal a, tr1) => (Normal a, tr1)
    | (Throw message, tr1) => handler message tr1
    end.

Definition run {A} (c : M A) : completion A * list event := c [].

End WithEvent.

Module Notations.
Notation "x <- c ;; k" := (bind c (fun x => k))
  (at level 100, c at next level, right associativity).
Notation "c ;; k" := (bind c (fun _ => k))
  (at level 100, right associativity).
End Notations.

End Effect.

(** ** utils/pdfGenerator.js *)

Module PdfGenerator.
Import JSNumber Effect Effect.Notations.

(** [toUpperCase] on ASCII text: the letters a to z are mapped, every other
    character is kept.  JavaScript maps letters outside ASCII as well; the
    formats passed are "pdf" and "txt", and a title with such letters is
    outside this model. *)
Definition upper_ascii (c : ascii) : ascii :=
  let n := nat_of_ascii c in
  if ((97 <=? n) && (n <=? 122))%nat then ascii_of_nat (n - 32) else c.

Fixpoint toUpperCase (s : string) : string :=
  match s with
  | EmptyString => EmptyString
  | String c rest => String (upper_ascii c) (toUpperCase rest)
  end.

(** The exported documents are template strings.  A document is modelled as
    the values interpolated into its template, in order; the fixed text and
    markup of the template is left out. *)

(** One [Question n: ...] block with its lettered options; a letter is
    [String.fromCharCode(65 + optIndex)], held as its character code. *)
Record question_block := {
  block_number : nat;
  block_question : string;
  block_options : list (nat * string)
}.

Record mcq_document := {
  header_title : option string;   (* only the HTML template prints the title *)
  blocks : list question_block;
  answer_key : list (nat * string)
}.

Record result_block := {
  result_number : nat;
  result_question : string;
  result_userAnswer : option string;
  result_is_correct : bool;
  result_correctAnswer : option string   (* printed only for a wrong answer *)
}.

Record report_document := {
  report_grade : string;
  report_score : number;
  report_total : number;
  report_percentage : number;
  report_good_score : option bool;   (* the HTML template's [percentage >= 70] class *)
  report_results : list result_block
}.

Inductive document :=
| MCQs (d : mcq_document)
| Report (d : report_document).

Record share_options := {
  mimeType : string;
  dialogTitle : string;
  UTI : string
}.

Inductive event :=
| Alert_alert (title message : string)
| console_error (label : string)
| Print_printToFileAsync (html : document)
| FileSystem_writeAsStringAsync (fileUri : string) (content : document)
| Sharing_isAvailableAsync
| Sharing_shareAsync (fileUri : string) (options : option share_options).

(** What the device answers to the calls of one export. *)
Record platform := {
  Date_getTime : Z;
  Date_toISOString_date : string;          (* [toISOString().split('T')[0]] *)
  FileSystem_documentDirectory : string;
  printToFileAsync_uri : option string;    (* [None]: the call rejects *)
  writeAsStringAsync_ok : bool;
  isAvailableAsync_result : option bool;   (* [None]: the call rejects *)
  shareAsync_ok : bool
}.

Local Abbreviation M := (@Effect.M event).

Section WithPlatform.
Variable p : platform.

Definition printToFileAsync (html : document) : M string :=
  emit (Print_printToFileAsync html) ;;
  match printToFileAsync_uri p with
  | Some uri => ret uri
  | None => throw "printToFileAsync failed"
  end.

Definition writeAsStringAsync (fileUri : string) (content : document) : M unit :=
  emit (FileSystem_writeAsStringAsync fileUri content) ;;
  if writeAsStringAsync_ok p then ret tt else throw "writeAsStringAsync failed".

Definition isAvailableAsync : M bool :=
  emit Sharing_isAvailableAsync ;;
  match isAvailableAsync_result p with
  | Some b => ret b
  | None => throw "isAvailableAsync failed"
  end.

Definition shareAsync (fileUri : string) (options : option share_options) : M unit :=
  emit (Sharing_shareAsync fileUri options) ;;
  if shareAsync_ok p then ret tt else throw "shareAsync failed".

(** [mcq => ({ question, options: [mcq.answer, ...mcq.distractors],
    correctAnswer: mcq.answer })] *)
Definition formatMcq (mcq : Generated.t) : Question.t :=
  Question.mk (Generated.question mcq)
              (Generated.answer mcq :: Generated.distractors mcq)
              (Generated.answer mcq).

Definition question_block_of (index : nat) (mcq : Question.t) : question_block :=
  {| block_number := index + 1;
     block_question := Question.question mcq;
     block_options := imap (fun optIndex option => ((65 + optIndex)%nat, option))
                           (Question.options mcq) |}.

Definition answer_key_of (index : nat) (mcq : Question.t) : nat * string :=
  ((index + 1)%nat, Question.correctAnswer mcq).

Definition mcq_html (title : string) (formattedMcqs : list Question.t) : document :=
  MCQs {| header_title := Some (toUpperCase title);
          blocks := imap question_block_of formattedMcqs;
          answer_key := imap answer_key_of formattedMcqs |}.

Definition mcq_text (formattedMcqs : list Question.t) : document :=
  MCQs {| header_title := None;
          blocks := imap question_block_of formattedMcqs;
          answer_key := imap answer_key_of formattedMcqs |}.

(** [generateMCQFile(mcqs, format = 'pdf', title = "Generated MCQs")];
    [None] is a missing ([undefined] or [null]) list. *)
Definition generateMCQFile (mcqs : option (list Generated.t))
           (format title : string) : M bool :=
  try_catch
    (match mcqs with
     | None | Some [] =>
         emit (Alert_alert "Error" "No MCQs to download") ;;
         ret false
     | Some mcqs =>
         let timestamp := Date_getTime p in
         let formattedMcqs := map formatMcq mcqs in
         fileUri <-
           (if String.eqb format "pdf" then
              printToFileAsync (mcq_html title formattedMcqs)
            else
              let fileUri :=
                FileSystem_documentDirectory p +:+ "mcq_" +:+ pretty timestamp +:+ ".txt" in
              writeAsStringAsync fileUri (mcq_text formattedMcqs) ;;
              ret fileUri) ;;
         isAvailable <- isAvailableAsync ;;
         if isAvailable : bool then
           shareAsync fileUri
             (Some {| mimeType := if String.eqb format "pdf"
                                  then "application/pdf" else "text/plain";
                      dialogTitle := "Download MCQ Questions (" +:+ toUpperCase format +:+ ")";
                      UTI := if String.eqb format "pdf"
                             then "com.adobe.pdf" else "public.text" |}) ;;
           ret true
         else
           emit (Alert_alert "Error" "Sharing is not available on this device") ;;
           ret false
     end)
    (fun error =>
       emit (console_error "Error generating file:") ;;
       emit (Alert_alert "Error" "Failed to generate file. Please try again.") ;;
       ret false).

(** [total > 0 ? Math.round((score / total) * 100) : 0], as written a second
    time in [generateResultReport]. *)
Definition percentage (score total : number) : number :=
  if gt total (of_Z 0)
  then Math_round (mul (div score total) (of_Z 100))
  else of_Z 0.

Definition grade_of (percentage : number) : string :=
  if ge percentage (of_Z 90) then "A"
  else if ge percentage (of_Z 80) then "B"
  else if ge percentage (of_Z 70) then "C"
  else if ge percentage (of_Z 60) then "D"
  else "F".

Definition grade (score total : number) : string := grade_of (percentage score total).

Definition result_block_of (index : nat) (result : Result.t) : result_block :=
  let correct := bool_decide (Result.userAnswer result = Some (Result.correctAnswer result)) in
  {| result_number := index + 1;
     result_question := Result.question result;
     result_userAnswer := Result.userAnswer result;
     result_is_correct := correct;
     result_correctAnswer := if correct then None else Some (Result.correctAnswer result) |}.

(** [results.map(...)] inside the template: a missing [results] throws a
    TypeError while the template is evaluated. *)
Definition results_map (results : option (list Result.t)) : M (list result_block) :=
  match results with
  | Some results => ret (imap result_block_of results)
  | None => throw "TypeError: Cannot read property 'map' of undefined"
  end.

(** [generateResultReport(results, score, total, format = 'pdf')] *)
Definition generateResultReport (results : option (list Result.t))
           (score total : number) (format : string) : M unit :=
  try_catch
    (let percentage := percentage score total in
     let grade := grade_of percentage in
     fileUri <-
       (if String.eqb format "pdf" then
          rs <- results_map results ;;
          printToFileAsync
            (Report {| report_grade := grade; report_score := score;
                       report_total := total; report_percentage := percentage;
                       report_good_score := Some (ge percentage (of_Z 70));
                       report_results := rs |})
        else
          rs <- results_map results ;;
          let fileName :=
            "MCQ_Assessment_Results_" +:+ Date_toISOString_date p +:+ ".txt" in
          let fileUri := FileSystem_documentDirectory p +:+ fileName in
          writeAsStringAsync fileUri
            (Report {| report_grade := grade; report_score := score;
                       report_total := total; report_percentage := percentage;
                       report_good_score := None;
                       report_results := rs |}) ;;
          ret fileUri) ;;
     isAvailable <- isAvailableAsync ;;
     if isAvailable : bool then shareAsync fileUri None
     else
       emit (Alert_alert "Sharing not available"
                         "Sharing is not available on your device"))
    (fun error =>
       emit (console_error "Error generating assessment report:") ;;
       emit (Alert_alert "Error" "Failed to generate assessment report")).

End WithPlatform.

(** A file is generated by a print call or a write call. *)
Definition generates_file (e : event) : bool :=
  match e with
  | Print_printToFileAsync _ | FileSystem_writeAsStringAsync _ _ => true
  | _ => false
  end.

Definition is_alert (e : event) : bool :=
  match e with Alert_alert _ _ => true | _ => false end.

End PdfGenerator.

(** ** services/apiService.js *)

Module ApiService.
Import Effect Effect.Notations.

Definition getBaseUrl : string := "http://192.168.1.16:8000".

(** [s.includes(sub)] *)
Fixpoint includes (s sub : string) : bool :=
  String.prefix sub s ||
  match s with
  | EmptyString => false
  | String _ rest => includes rest sub
  end.

(** [a || b] on strings: the empty string is falsy. *)
Definition or_else (a b : string) : string := if String.eqb a "" then b else a.

(** *** generateMCQsFromAPI *)

(** What [response.text()] and [response.json()] settle to. *)
Inductive text_result :=
| text_resolves (errorText : string)
| text_rejects (message : string).

(** A parsed body is an object whose [mcqs] field may be missing. *)
Inductive json_result :=
| json_resolves (mcqs : option (list Generated.t))
| json_rejects (message : string).

Record response := {
  ok : bool;
  status : nat;
  text : text_result;
  json : json_result
}.

(** What [Promise.race([fetchPromise, timeout])] settles to. *)
Inductive race_outcome :=
| timeout_first                       (* the 60 s timer rejects first *)
| fetch_rejects (message : string)    (* the request itself fails *)
| fetch_resolves (r : response).

(** The network as one call meets it. *)
Inductive world :=
| offline                             (* [networkState.isConnected] is false *)
| online (o : race_outcome).

Inductive event :=
| NetInfo_fetch
| fetch_POST (url text : string) (num_questions : Z)
| console_error (label : string).

Local Abbreviation M := (@Effect.M event).

Definition timeout_ms : Z := 60000.

Section WithWorld.
Variable w : world.

Definition NetInfo_isConnected : M bool :=
  emit NetInfo_fetch ;;
  ret (match w with offline => false | online _ => true end).

(** The request is sent, then raced against the timer. *)
Definition fetch_race (url text : string) (num_questions : Z) : M response :=
  emit (fetch_POST url text num_questions) ;;
  match w with
  | online (fetch_resolves r) => ret r
  | online (fetch_rejects message) => throw message
  | online timeout_first => throw "Request timeout after 60 seconds"
  | offline => throw "Network request failed"
  end.

Definition response_text (r : response) : M string :=
  match text r with
  | text_resolves errorText => ret errorText
  | text_rejects message => throw message
  end.

Definition response_json (r : response) : M (option (list Generated.t)) :=
  match json r with
  | json_resolves mcqs => ret mcqs
  | json_rejects message => throw message
  end.

(** The [catch] block of [generateMCQsFromAPI]. *)
Definition on_error (message : string) : M (list Generated.t) :=
  emit (console_error "Network or API error:") ;;
  if includes message "timeout" then
    throw "The server took too long to respond. Try with a shorter text or fewer questions."
  else if includes message "Network request failed" then
    throw "Cannot connect to server. Please check if the server is running and try again."
  else throw ("Connection error: " +:+ message).

Definition generateMCQsFromAPI (content : string) (numQuestions : Z)
  : M (list Generated.t) :=
  isConnected <- NetInfo_isConnected ;;
  if negb isConnected then
    throw "No internet connection. Please check your network and try again."
  else
    try_catch
      (r <- fetch_race (getBaseUrl +:+ "/generate-mcqs") content numQuestions ;;
       if negb (ok r) then
         errorText <- response_text r ;;
         emit (console_error "API Error:") ;;
         throw ("Server error (" +:+ pretty (status r) +:+ "): "
                +:+ or_else errorText "Unknown error")
       else
         mcqs <- response_json r ;;
         ret (match mcqs with Some l => l | None => [] end))
      on_error.

End WithWorld.

Definition is_fetch (e : event) : bool :=
  match e with fetch_POST _ _ _ => true | _ => false end.

(** The number of requests a trace holds. *)
Definition fetch_attempts (tr : list event) : nat := length (List.filter is_fetch tr).

(** The failures of a request: a non-ok HTTP status, the timeout, a network
    error. *)
Definition is_failure (o : race_outcome) : bool :=
  match o with
  | timeout_first => true
  | fetch_rejects _ => true
  | fetch_resolves r => negb (ok r)
  end.

End ApiService.

(** *** processFileWithWebSocket *)

Module ProgressSocket.

Inductive readyState := CONNECTING | OPEN | CLOSING | CLOSED.

(** A parsed server message: [data.status], [data.message] and the rest. *)
Record data := {
  status : option string;
  message : option string;
  body : string
}.

Inductive promise :=
| Pending
| Resolved (d : data)
| Rejected (error : string).

Record command := {
  command_name : string;
  file_content : string;
  file_name : string;
  file_type : string;
  document_type : string
}.

(** [ws] is [wsService.ws]: [None] is [null], otherwise the socket with its
    [readyState].  The promise is the one [processFileWithWebSocket]
    returns; [timer] tells whether the 60 s timer is still to fire. *)
Record state := {
  ws : option readyState;
  settled : promise;
  sent : list command;
  timer : bool
}.

Definition timeout_ms : Z := 60000.

(** A promise settles once: later calls of [resolve] and [reject] do nothing. *)
Definition resolve (d : data) (st : state) : state :=
  match settled st with
  | Pending => {| ws := ws st; settled := Resolved d; sent := sent st; timer := timer st |}
  | _ => st
  end.

Definition reject (error : string) (st : state) : state :=
  match settled st with
  | Pending => {| ws := ws st; settled := Rejected error; sent := sent st; timer := timer st |}
  | _ => st
  end.

(** [if (this.ws && this.ws.readyState === WebSocket.OPEN) this.ws.close()];
    [close()] moves an open socket to CLOSING. *)
Definition disconnect (st : state) : state :=
  match ws st with
  | Some OPEN => {| ws := Some CLOSING; settled := settled st; sent := sent st; timer := timer st |}
  | _ => st
  end.

Definition sendMessage (c : command) (st : state) : state :=
  match ws st with
  | Some OPEN => {| ws := ws st; settled := settled st; sent := sent st ++ [c]; timer := timer st |}
  | _ => st
  end.

Definition or_else (a : option string) (b : string) : string :=
  match a with
  | Some s => if String.eqb s "" then b else s
  | None => b
  end.

Section Callbacks.
Variables (base64Data fileName fileType documentType : string).

Definition onOpen (st : state) : state :=
  sendMessage {| command_name := "process_file"; file_content := base64Data;
                 file_name := fileName; file_type := fileType;
                 document_type := documentType |} st.

Definition onMessage (d : data) (st : state) : state :=
  if bool_decide (status d = Some "complete") then resolve d (disconnect st)
  else if bool_decide (status d = Some "error") then
    reject (or_else (message d) "Error processing file") (disconnect st)
  else st.

Definition onError (st : state) : state :=
  disconnect (reject "WebSocket error: Connection failed" st).

Definition onClose (code : Z) (reason : option string) (st : state) : state :=
  if negb (code =? 1000)
  then reject ("WebSocket closed unexpectedly: " +:+ or_else reason "Unknown reason") st
  else st.

(** The [setTimeout] callback. *)
Definition onTimeout (st : state) : state :=
  match ws st with
  | Some OPEN => reject "File processing timed out after 60 seconds" (disconnect st)
  | _ => st
  end.

(** What the socket and the timer deliver.  [socket_message None] is a frame
    that [JSON.parse] rejects (the service catches it).  An error event
    comes with the socket already closed by the engine, except that an
    established connection may still be open when its error is reported. *)
Inductive event :=
| socket_open
| socket_message (d : option data)
| socket_error (closed_by_engine : bool)
| socket_close (code : Z) (reason : option string)
| timer_fires.

Definition set_readyState (rs : readyState) (st : state) : state :=
  {| ws := match ws st with Some _ => Some rs | None => None end;
     settled := settled st; sent := sent st; timer := timer st |}.

(** The handlers [WebSocketService.connect] installs, run on an event. *)
Definition step (st : state) (ev : event) : state :=
  match ev with
  | socket_open => onOpen (set_readyState OPEN st)
  | socket_message (Some d) => onMessage d st
  | socket_message None => st
  | socket_error closed =>
      onError (if closed then set_readyState CLOSED st else st)
  | socket_close code reason =>
      let st1 := onClose code reason (set_readyState CLOSED st) in
      {| ws := None; settled := settled st1; sent := sent st1; timer := timer st1 |}
  | timer_fires =>
      let st1 := onTimeout st in
      {| ws := ws st1; settled := settled st1; sent := sent st1; timer := false |}
  end.

(** When an event can be delivered: open only to a connecting socket,
    messages only to an open one, errors and close to a socket that is
    still attached, the timer once. *)
Definition enabled (st : state) (ev : event) : bool :=
  match ev, ws st with
  | socket_open, Some CONNECTING => true
  | socket_message _, Some OPEN => true
  | socket_error true, Some (CONNECTING | OPEN | CLOSING) => true
  | socket_error false, Some OPEN => true
  | socket_close _ _, Some _ => true
  | timer_fires, _ => timer st
  | _, _ => false
  end.

End Callbacks.

(** The state when the executor has run: the file was read ([inl]) and the
    socket is connecting with the timer armed, or reading threw ([inr]) and
    the promise is rejected with no socket. *)
Definition start (read : string + string) : state :=
  match read with
  | inl _ => {| ws := Some CONNECTING; settled := Pending; sent := []; timer := true |}
  | inr error => {| ws := None; settled := Rejected error; sent := []; timer := false |}
  end.

Definition base64_of (read : string + string) : string :=
  match read with inl b => b | inr _ => "" end.

(** The states of a run of [processFileWithWebSocket(fileUri, fileName,
    fileType, documentType)]. *)
Inductive reachable (read : string + string) (fileName fileType documentType : string)
  : state -> Prop :=
| reach_start : reachable read fileName fileType documentType (start read)
| reach_step st ev :
    reachable read fileName fileType documentType st ->
    enabled st ev = true ->
    reachable read fileName fileType documentType
              (step (base64_of read) fileName fileType documentType st ev).

(** A run: the events are delivered in order; one that cannot be delivered
    in the current state does not happen. *)
Fixpoint deliver (base64Data fileName fileType documentType : string)
         (st : state) (evs : list event) : state :=
  match evs with
  | [] => st
  | ev :: rest =>
      deliver base64Data fileName fileType documentType
              (if enabled st ev
               then step base64Data fileName fileType documentType st ev
               else st)
              rest
  end.

(** The state of [processFileWithWebSocket(fileUri, fileName, fileType,
    documentType)] once the file read has settled as [read] and the events
    [evs] have been delivered. *)
Definition processFileWithWebSocket (read : string + string)
           (fileName fileType documentType : string) (evs : list event) : state :=
  deliver (base64_of read) fileName fileType documentType (start read) evs.

Definition socket_open_now (st : state) : bool :=
  match ws st with Some OPEN => true | _ => false end.

(** The socket is connecting or open. *)
Definition live (st : state) : bool :=
  match ws st with
  | Some (CONNECTING | OPEN) => true
  | _ => false
  end.

Definition is_settled (st : state) : bool :=
  match settled st with Pending => false | _ => true end.

(** The terminal events and what each settles a pending promise to. *)
Definition terminal (st : state) (ev : event) : option promise :=
  match ev with
  | socket_message (Some d) =>
      if bool_decide (status d = Some "complete") then Some (Resolved d)
      else if bool_decide (status d = Some "error")
           then Some (Rejected (or_else (message d) "Error processing file"))
           else None
  | socket_error _ => Some (Rejected "WebSocket error: Connection failed")
  | timer_fires =>
      if socket_open_now st
      then Some (Rejected "File processing timed out after 60 seconds")
      else None
  | _ => None
  end.

End ProgressSocket.

(** * Specification-side definitions and sample inputs *)

(** ** Score *)

Module ScoreSpec.
Import MCQAssessmentScreen.

(** The number of result records whose user answer is the same string as the
    correct answer. *)
Definition count_matches (results : list Result.t) : Z :=
  Z.of_nat (length (List.filter
    (fun r => strict_eq (Result.userAnswer r) (Result.correctAnswer r)) results)).

(** A three-question assessment: the first and the last answers are right. *)
Definition sample_mcqs : list Question.t :=
  [ Question.mk "Q1" ["Paris"; "London"; "Rome"] "Paris";
    Question.mk "Q2" ["Venus"; "Mars"] "Mars";
    Question.mk "Q3" ["Au"; "Ag"; "Fe"] "Au" ].

Definition sample_answers : gmap nat string :=
  handleAnswer (handleAnswer (handleAnswer ∅ 0 "Paris") 1 "Venus") 2 "Au".

Definition sample_results : list Result.t :=
  imap (with_userAnswer sample_answers) sample_mcqs.

(** The spec's [round(score / total * 100)] read over the rationals: the
    integer nearest to the exact ratio, a half rounded up as [Math.round]
    rounds it, that is the floor of [100 * score / total + 1/2]. *)
Definition spec_percentage (score total : Z) : Z :=
  (200 * score + total) / (2 * total).

(** A forty-question assessment with the first 23 answers right. *)
Definition forty_mcqs : list Question.t :=
  repeat (Question.mk "Q" ["a"; "b"] "a") 40.

Definition forty_answers : gmap nat string :=
  foldr (fun i sel => handleAnswer sel i (if (i <? 23)%nat then "a" else "b"))
        ∅ (seq 0 40).

End ScoreSpec.

(** ** Grade *)

Module GradeSpec.

(** The threshold mapping on an integer percentage. *)
Definition spec_grade (p : Z) : string :=
  if 90 <=? p then "A"
  else if 80 <=? p then "B"
  else if 70 <=? p then "C"
  else if 60 <=? p then "D"
  else "F".

(** [p] is an integer nearest to [100 * score / total]. *)
Definition nearest_percent (score total p : Z) : bool :=
  Z.abs (2 * total * p - 200 * score) <=? total.

(** The percentage of [s] out of [t] is a whole number between 0 and 100,
    nearest to the exact ratio. *)
Definition percentage_checked (s t : nat) : bool :=
  match JSNumber.to_Z (MCQResultScreen.percentage
                         (JSNumber.of_Z (Z.of_nat s)) (JSNumber.of_Z (Z.of_nat t))) with
  | Some p => (0 <=? p) && (p <=? 100) && nearest_percent (Z.of_nat s) (Z.of_nat t) p
  | None => false
  end.

(** The same of every score out of every total from 1 to [bound]. *)
Definition percentages_checked (bound : nat) : bool :=
  forallb (fun t => forallb (fun s => percentage_checked s t) (seq 0 (S t)))
          (seq 1 bound).

Definition grades_checked (bound : nat) : bool :=
  forallb (fun n =>
    String.eqb (MCQResultScreen.grade_of (JSNumber.of_Z (Z.of_nat n)))
               (spec_grade (Z.of_nat n)))
    (seq 0 bound).

End GradeSpec.

(** ** Exports *)

Module ExportSpec.
Import PdfGenerator.

(** The documents a run hands to the print service or writes to a file. *)
Definition document_of (e : event) : option document :=
  match e with
  | Print_printToFileAsync d => Some d
  | FileSystem_writeAsStringAsync _ d => Some d
  | _ => None
  end.

Definition documents_of (tr : list event) : list document :=
  omap document_of tr.

(** A run short-circuits with a message: it completes normally, no file is
    generated and an alert is shown. *)
Definition short_circuits {A} (r : Effect.completion A * list event) : bool :=
  match r with
  | (Effect.Normal _, tr) => forallb (fun e => negb (generates_file e)) tr && existsb is_alert tr
  | (Effect.Throw _, _) => false
  end.

(** The URI of the file a print call or a write call leaves on device [p];
    [None] when the call rejects. *)
Definition generated_file (p : platform) (e : event) : option string :=
  match e with
  | Print_printToFileAsync _ => printToFileAsync_uri p
  | FileSystem_writeAsStringAsync fileUri _ =>
      if writeAsStringAsync_ok p then Some fileUri else None
  | _ => None
  end.

(** What the catch block of [generateResultReport] does. *)
Definition report_failure : list event :=
  [ console_error "Error generating assessment report:";
    Alert_alert "Error" "Failed to generate assessment report" ].

(** A device on which every call succeeds. *)
Definition device : platform :=
  {| Date_getTime := 1700000000000;
     Date_toISOString_date := "2023-11-14";
     FileSystem_documentDirectory := "file:///documents/";
     printToFileAsync_uri := Some "file:///cache/print.pdf";
     writeAsStringAsync_ok := true;
     isAvailableAsync_result := Some true;
     shareAsync_ok := true |}.

End ExportSpec.

(** ** Options of a question *)

Module OptionsSpec.

(** How many positions of [l] hold the string [x]. *)
Definition occurrences (x : string) (l : list string) : nat :=
  count_occ string_dec l x.

(** [options.filter(option => option !== a)] *)
Definition without (a : string) (l : list string) : list string :=
  List.filter (fun option => negb (String.eqb option a)) l.

(** What a shuffled record keeps of the generated question it comes from. *)
Definition keeps (g : Generated.t) (q : Question.t) : Prop :=
  Permutation (Question.options q) (Generated.answer g :: Generated.distractors g) /\
  Question.correctAnswer q = Generated.answer g /\
  In (Question.correctAnswer q) (Question.options q) /\
  Question.question q = Generated.question g.

(** A generated question one of whose distractors repeats the answer. *)
Definition repeated_answer : Generated.t :=
  Generated.mk "2 + 2 = ?" "4" ["3"; "4"; "5"].

Definition capital_question : Generated.t :=
  Generated.mk "Capital of France?" "Paris" ["London"; "Berlin"; "Madrid"].

(** The question records of [MCQScreen]: the correct answer once, twice,
    and not at all among the options. *)
Definition preview_once : Preview.t :=
  Preview.mk "Red planet?" ["Venus"; "Mars"; "Jupiter"] "Mars".

Definition preview_twice : Preview.t :=
  Preview.mk "Red planet?" ["Mars"; "Venus"; "Mars"] "Mars".

End OptionsSpec.

(** ** API calls *)

Module ApiSpec.

Definition server_error : ApiService.race_outcome :=
  ApiService.fetch_resolves
    {| ApiService.ok := false; ApiService.status := 500;
       ApiService.text := ApiService.text_resolves "Internal Server Error";
       ApiService.json := ApiService.json_rejects "Unexpected token" |}.

Definition served (mcqs : list Generated.t) : ApiService.race_outcome :=
  ApiService.fetch_resolves
    {| ApiService.ok := true; ApiService.status := 200;
       ApiService.text := ApiService.text_resolves "";
       ApiService.json := ApiService.json_resolves (Some mcqs) |}.

(** A file that was read, and the message that ends its processing. *)
Definition file_read : string + string := inl "QUJD".

Definition complete_message : ProgressSocket.data :=
  {| ProgressSocket.status := Some "complete";
     ProgressSocket.message := None;
     ProgressSocket.body := "chapters" |}.

(** The socket has opened and the processing command is sent. *)
Definition processing : ProgressSocket.state :=
  ProgressSocket.processFileWithWebSocket file_read "book.pdf" "application/pdf" "book"
    [ProgressSocket.socket_open].

End ApiSpec.

(** * Further models

    The rest of the cited files and their callers: the remaining endpoints
    of [services/apiService.js], [ChapterSelectionScreen], the assessment
    screen as the user drives it, [NumQuestionsScreen.handleGenerateMCQs] and
    [FileUploadScreen.handleUpload]. *)

(** ** Sample runs of the progress socket *)

Module SocketSpec.

(** The command [onOpen] sends. *)
Definition process_file_command (read : string + string)
           (fileName fileType documentType : string) : ProgressSocket.command :=
  {| ProgressSocket.command_name := "process_file";
     ProgressSocket.file_content := ProgressSocket.base64_of read;
     ProgressSocket.file_name := fileName;
     ProgressSocket.file_type := fileType;
     ProgressSocket.document_type := documentType |}.

Definition error_message : ProgressSocket.data :=
  {| ProgressSocket.status := Some "error";
     ProgressSocket.message := Some "Unsupported file";
     ProgressSocket.body := "" |}.

Import ProgressSocket.

(** Where a promise state can come from when the events [evs] have been
    delivered:
    pending only after the file was read; resolved only with the data of a
    delivered [complete] message; rejected only with the error of the read
    or with the text one of the four rejecting handlers builds, the event
    that runs the handler being among [evs]. *)
Definition settled_by (read : string + string) (evs : list event) (pr : promise) : Prop :=
  match pr with
  | Pending => exists base64Data, read = inl base64Data
  | Resolved d =>
      status d = Some "complete" /\
      In socket_open evs /\ In (socket_message (Some d)) evs
  | Rejected error =>
      read = inr error \/
      (exists d, In socket_open evs /\ In (socket_message (Some d)) evs /\
                 status d = Some "error" /\
                 error = or_else (message d) "Error processing file") \/
      (exists closed, In (socket_error closed) evs /\
                      error = "WebSocket error: Connection failed") \/
      (exists code reason, In (socket_close code reason) evs /\ code <> 1000 /\
                           error = "WebSocket closed unexpectedly: "
                                   +:+ or_else reason "Unknown reason") \/
      (In socket_open evs /\ In timer_fires evs /\
       error = "File processing timed out after 60 seconds")
  end.

(** The events of [evs] that are delivered, those enabled when their turn
    comes. *)
Fixpoint delivered (base64Data fileName fileType documentType : string)
         (st : state) (evs : list event) : list event :=
  match evs with
  | [] => []
  | ev :: rest =>
      if enabled st ev
      then ev :: delivered base64Data fileName fileType documentType
                           (step base64Data fileName fileType documentType st ev) rest
      else delivered base64Data fileName fileType documentType st rest
  end.

Definition delivered_events (read : string + string)
           (fileName fileType documentType : string) (evs : list event) : list event :=
  delivered (base64_of read) fileName fileType documentType (start read) evs.

(** The invariant of a run: the promise is accounted for by the events
    delivered so far, and an open socket has been opened by one of them. *)
Definition caused (read : string + string) (pre : list event) (st : state) : Prop :=
  settled_by read pre (settled st) /\
  (ws st = Some OPEN -> In socket_open pre).

End SocketSpec.

(** ** Exports: where the file of a run is *)

Module ExportRunSpec.
Import PdfGenerator.

(** The URI of the file a print call or a write call produces on device [p]. *)
Definition generated_uri (p : platform) (e : event) : option string :=
  match e with
  | Print_printToFileAsync _ => printToFileAsync_uri p
  | FileSystem_writeAsStringAsync fileUri _ => Some fileUri
  | _ => None
  end.

(** A device without a share sheet. *)
Definition device_without_sharing : platform :=
  {| Date_getTime := 1700000000000;
     Date_toISOString_date := "2023-11-14";
     FileSystem_documentDirectory := "file:///documents/";
     printToFileAsync_uri := Some "file:///cache/print.pdf";
     writeAsStringAsync_ok := true;
     isAvailableAsync_result := Some false;
     shareAsync_ok := true |}.

End ExportRunSpec.

(** ** MCQAssessmentScreen.js: the screen as the user drives it *)

Module AssessmentFlow.
Import MCQAssessmentScreen.

(** The two pieces of state the screen keeps besides [mcqs]. *)
Record screen := {
  currentQuestion : nat;
  selectedAnswers : gmap nat string
}.

(** [useState(0)] and [useState({})]. *)
Definition initial : screen :=
  {| currentQuestion := 0; selectedAnswers := ∅ |}.

(** What the user can press.  [press_option k] is the k-th option button of
    the question on display. *)
Inductive press :=
| press_option (k : nat)
| press_previous
| press_next.

(** The [onPress] handlers.  With no questions the screen renders no button.
    Otherwise: an option button calls [handleAnswer(currentQuestion, option)];
    Previous is disabled on the first question; Next is rendered on every
    question but the last, where Submit takes its place. *)
Definition on_press (mcqs : list Question.t) (st : screen) (p : press) : screen :=
  match mcqs !! currentQuestion st with
  | None => st
  | Some mcq =>
      match p with
      | press_option k =>
          match Question.options mcq !! k with
          | Some option =>
              {| currentQuestion := currentQuestion st;
                 selectedAnswers :=
                   handleAnswer (selectedAnswers st) (currentQuestion st) option |}
          | None => st
          end
      | press_previous =>
          if (currentQuestion st =? 0)%nat then st
          else {| currentQuestion := currentQuestion st - 1;
                  selectedAnswers := selectedAnswers st |}
      | press_next =>
          if (currentQuestion st =? length mcqs - 1)%nat then st
          else {| currentQuestion := currentQuestion st + 1;
                  selectedAnswers := selectedAnswers st |}
      end
  end.

Definition after (mcqs : list Question.t) (presses : list press) : screen :=
  fold_left (on_press mcqs) presses initial.

(** Pressing Submit, which is on screen on the last question only; with no
    questions the component returns early and renders no button. *)
Definition press_submit (mcqs : list Question.t) (st : screen) : option outcome :=
  match mcqs with
  | [] => None
  | _ :: _ =>
      if (currentQuestion st =? length mcqs - 1)%nat
      then Some (handleSubmit mcqs (selectedAnswers st))
      else None
  end.

(** What the handlers keep true: the question on display exists, and every
    recorded answer is an option of the question it is recorded for. *)
Definition well_formed (mcqs : list Question.t) (st : screen) : Prop :=
  (mcqs <> [] -> (currentQuestion st < length mcqs)%nat) /\
  (forall i o, selectedAnswers st !! i = Some o ->
               exists q, mcqs !! i = Some q /\ In o (Question.options q)).

(** Answer the first option of each of the three sample questions, moving
    forward. *)
Definition sample_presses : list press :=
  [press_option 0; press_next; press_option 0; press_next; press_option 0].

End AssessmentFlow.

(** ** ChapterSelectionScreen *)

Module ChapterSelectionScreen.

Record chapter := { title : string; content : string }.

(** [selectedChapters.includes(index)] *)
Definition includes (selectedChapters : list nat) (index : nat) : bool :=
  existsb (Nat.eqb index) selectedChapters.

(** A selected chapter is dropped, an unselected one is appended. *)
Definition toggleChapterSelection (selectedChapters : list nat) (index : nat)
  : list nat :=
  if includes selectedChapters index
  then List.filter (fun i => negb (i =? index)%nat) selectedChapters
  else selectedChapters ++ [index].

(** The selection after a series of taps on chapter rows, from
    [useState([])]. *)
Definition after (taps : list nat) : list nat :=
  fold_left toggleChapterSelection taps [].

(** The line feed, and [arr.join(sep)]. *)
Definition LF : string := String (ascii_of_nat 10) EmptyString.

Definition join (sep : string) (arr : list string) : string := String.concat sep arr.

Inductive outcome :=
| Alert_select_a_chapter       (* [Alert.alert('Error', 'Please select at least one chapter')] *)
| navigate_NumQuestions (text : string)
| TypeError.                   (* [chapters[index]] is undefined *)

Definition handleContinue (chapters : list chapter) (selectedChapters : list nat)
  : outcome :=
  if (length selectedChapters =? 0)%nat then Alert_select_a_chapter
  else
    match mapM (fun index => content <$> chapters !! index) selectedChapters with
    | Some contents => navigate_NumQuestions (join (LF +:+ LF) contents)
    | None => TypeError
    end.

Definition sample_chapters : list chapter :=
  [ {| title := "One"; content := "alpha" |};
    {| title := "Two"; content := "beta" |};
    {| title := "Three"; content := "gamma" |} ].

End ChapterSelectionScreen.

(** ** services/apiService.js: the file endpoints *)

Module FileApi.
Import Effect Effect.Notations.

(** The values the request bodies hold. *)
Inductive json_value :=
| json_string (s : string)
| json_number (n : Z)
| json_bool (b : bool).

(** A response whose parsed body is a [J]; [inr] is a rejection. *)
Record response (J : Type) := {
  ok : bool;
  status : nat;
  text : string + string;
  json : J + string
}.
Arguments ok {J} r.
Arguments status {J} r.
Arguments text {J} r.
Arguments json {J} r.

Inductive fetch_outcome (J : Type) :=
| fetch_rejects (message : string)
| fetch_resolves (r : response J).
Arguments fetch_rejects {J} message.
Arguments fetch_resolves {J} r.

(** What one call meets: the file read ([inl] the base64 content, [inr] a
    rejection) and the answer to the request. *)
Record world (J : Type) := {
  read_result : string + string;
  fetch_result : fetch_outcome J
}.
Arguments read_result {J} w.
Arguments fetch_result {J} w.

Inductive event :=
| FileSystem_readAsStringAsync (fileUri : string)
| fetch_request (method url : string) (body : list (string * json_value))
| console_error (label : string).

Local Abbreviation M := (@Effect.M event).

Definition is_fetch (e : event) : bool :=
  match e with fetch_request _ _ _ => true | _ => false end.

Definition fetch_attempts (tr : list event) : nat := length (List.filter is_fetch tr).

Section WithWorld.
Context {J : Type} (w : world J).

Definition readAsStringAsync (fileUri : string) : M string :=
  emit (FileSystem_readAsStringAsync fileUri) ;;
  match read_result w with
  | inl base64Data => ret base64Data
  | inr message => throw message
  end.

Definition fetch (method url : string) (body : list (string * json_value))
  : M (response J) :=
  emit (fetch_request method url body) ;;
  match fetch_result w with
  | fetch_resolves r => ret r
  | fetch_rejects message => throw message
  end.

Definition response_text (r : response J) : M string :=
  match text r with
  | inl errorText => ret errorText
  | inr message => throw message
  end.

Definition response_json (r : response J) : M J :=
  match json r with
  | inl data => ret data
  | inr message => throw message
  end.

(** [if (!response.ok) { ...; throw new Error(`Server responded with status
    ${response.status}: ${errorText || 'Unknown error'}`) }] *)
Definition check_ok (label : string) (r : response J) : M unit :=
  if negb (ok r) then
    errorText <- response_text r ;;
    emit (console_error label) ;;
    throw ("Server responded with status " +:+ pretty (status r) +:+ ": "
           +:+ ApiService.or_else errorText "Unknown error")
  else ret tt.

(** The HTTP branch of [processFileAPI]. *)
Definition processFile_http (fileUri fileName fileType documentType : string) : M J :=
  try_catch
    (base64Data <- readAsStringAsync fileUri ;;
     r <- fetch "POST" (ApiService.getBaseUrl +:+ "/process-file")
            [ ("file_content", json_string base64Data);
              ("file_name", json_string fileName);
              ("file_type", json_string fileType);
              ("document_type", json_string documentType) ] ;;
     check_ok "API Error:" r ;;
     response_json r)
    (fun _ =>
       emit (console_error "Error processing file:") ;;
       throw "Failed to process file. Please check your file format and try again.").

(** [generateMCQsFromFileAPI]; the parsed body is the value of [data.mcqs]. *)
Definition generateMCQsFromFileAPI (fileUri fileName fileType : string)
           (numQuestions : Z) : M J :=
  try_catch
    (base64Data <- readAsStringAsync fileUri ;;
     r <- fetch "POST" (ApiService.getBaseUrl +:+ "/generate-mcqs-from-file")
            [ ("file_content", json_string base64Data);
              ("file_name", json_string fileName);
              ("file_type", json_string fileType);
              ("num_questions", json_number numQuestions) ] ;;
     check_ok "API Error:" r ;;
     response_json r)
    (fun _ =>
       emit (console_error "Error generating MCQs from file:") ;;
       throw "Failed to generate MCQs from file. Please check your connection and try again.").

(** [processFileWithOCR].  The URL is built from [API_BASE_URL], a name the
    module neither declares nor imports: [binding] is what the name resolves
    to when the template is evaluated, [None] for no binding (a
    ReferenceError). *)
Definition processFileWithOCR (binding : option string)
           (fileUri fileName fileType : string) : M J :=
  try_catch
    (base64Data <- readAsStringAsync fileUri ;;
     url <- match binding with
            | Some base => ret (base +:+ "/process-file-ocr")
            | None => throw "ReferenceError: API_BASE_URL is not defined"
            end ;;
     r <- fetch "POST" url
            [ ("file_content", json_string base64Data);
              ("file_name", json_string fileName);
              ("file_type", json_string fileType);
              ("force_ocr", json_bool true) ] ;;
     check_ok "OCR API Error:" r ;;
     response_json r)
    (fun _ =>
       emit (console_error "Error processing file with OCR:") ;;
       throw "Failed to process file with OCR. Please try again.").

(** The object [testServerConnection] returns. *)
Record connection := {
  connected : bool;
  message : string;
  error : option string
}.

Definition testServerConnection : M connection :=
  try_catch
    (r <- fetch "GET" (ApiService.getBaseUrl +:+ "/health") [] ;;
     if ok r
     then ret {| connected := true; message := "Server is reachable"; error := None |}
     else ret {| connected := false;
                 message := "Server returned status " +:+ pretty (status r);
                 error := None |})
    (fun message =>
       emit (console_error "Server connection test failed:") ;;
       ret {| connected := false; message := "Cannot connect to server";
              error := Some message |}).

End WithWorld.

(** [processFileAPI] sends PDFs, images and books over the socket. *)
Definition uses_WebSocket (fileType documentType : string) : bool :=
  ApiService.includes fileType "pdf" || ApiService.includes fileType "image"
  || String.eqb documentType "book".

(** What [processFileAPI] settles to: the promise of
    [processFileWithWebSocket], or the completion and trace of the HTTP
    branch. *)
Inductive routed (J : Type) :=
| via_WebSocket (p : ProgressSocket.promise)
| via_HTTP (c : completion J) (tr : list event).
Arguments via_WebSocket {J} p.
Arguments via_HTTP {J} c tr.

(** [processFileAPI(fileUri, fileName, fileType, documentType)]; [evs] is
    what the socket and the timer deliver if the socket is used. *)
Definition processFileAPI {J} (w : world J) (evs : list ProgressSocket.event)
           (fileUri fileName fileType documentType : string) : routed J :=
  if uses_WebSocket fileType documentType then
    via_WebSocket
      (ProgressSocket.settled
         (ProgressSocket.processFileWithWebSocket
            (read_result w) fileName fileType documentType evs))
  else
    let '(c, tr) := run (processFile_http w fileUri fileName fileType documentType) in
    via_HTTP c tr.

(** [generateAssessmentFromAPI] *)
Definition generateAssessmentFromAPI (w : ApiService.world) (content : string)
           (numQuestions : Z) :=
  ApiService.generateMCQsFromAPI w content numQuestions.

(** The text-file upload whose server answers 500. *)
Definition failing_server : world (option (list Generated.t)) :=
  {| read_result := inl "QUJD";
     fetch_result :=
       fetch_resolves {| ok := false; status := 500;
                         text := inl "Internal Server Error";
                         json := inr "Unexpected token" |} |}.

End FileApi.

(** ** NumQuestionsScreen: the caller of the generation endpoints *)

Module NumQuestionsScreen.
Import Effect Effect.Notations.

Inductive event :=
| setLoading (loading : bool)
| text_api (e : ApiService.event)
| file_api (e : FileApi.event)
| console_error (label : string)
| Alert_alert (title message : string)
| navigate_MCQScreen (mcqs : list Generated.t).

Local Abbreviation M := (@Effect.M event).

(** A call into a module with its own events: the callee's trace is carried
    over, event by event. *)
Definition call {E A} (inject : E -> event) (c : @Effect.M E A) : M A :=
  fun tr => let '(r, tr1) := Effect.run c in (r, tr ++ map inject tr1).

(** The route parameters the handler reads; [None] is [undefined]. *)
Record params := {
  content : option string;
  fileUri : option string;
  fileName : option string;
  fileType : option string
}.

(** Truthiness of a string parameter: defined and not empty. *)
Definition truthy (s : option string) : bool :=
  match s with
  | Some s => negb (String.eqb s "")
  | None => false
  end.

Definition value (s : option string) : string :=
  match s with Some s => s | None => "" end.

Section WithWorld.
Variable text_world : ApiService.world.
Variable file_world : FileApi.world (option (list Generated.t)).
(** The message of the TypeError raised by [content.substring] on a missing
    [content]. *)
Variable TypeError_message : string.

Definition handleGenerateMCQs (ps : params) (numQuestions : Z) : M unit :=
  emit (setLoading true) ;;
  try_catch
    (mcqs <-
       (if truthy (fileUri ps) && truthy (fileName ps) && truthy (fileType ps) then
          call file_api
               (FileApi.generateMCQsFromFileAPI file_world
                  (value (fileUri ps)) (value (fileName ps)) (value (fileType ps))
                  numQuestions)
        else
          match content ps with
          | None => throw TypeError_message
          | Some content =>
              l <- call text_api
                     (ApiService.generateMCQsFromAPI text_world content numQuestions) ;;
              ret (Some l)
          end) ;;
     match mcqs with
     | Some ((_ :: _) as l) => emit (navigate_MCQScreen l)
     | _ => throw "No MCQs were generated. Try with different text."
     end)
    (fun message =>
       emit (console_error "Detailed error:") ;;
       emit (Alert_alert "Error" message)) ;;
  emit (setLoading false).

End WithWorld.

Definition is_alert (e : event) : bool :=
  match e with Alert_alert _ _ => true | _ => false end.

Definition is_navigate (e : event) : bool :=
  match e with navigate_MCQScreen _ => true | _ => false end.

Definition text_params (text : string) : params :=
  {| content := Some text; fileUri := None; fileName := None; fileType := None |}.

End NumQuestionsScreen.

(** ** FileUploadScreen: the caller of [processFileAPI] *)

Module FileUploadScreen.
Import Effect Effect.Notations.

(** What the screen reads of a processing result; [chapters] may be
    missing. *)
Record processed := {
  is_book : bool;
  chapters : option (list ChapterSelectionScreen.chapter)
}.

Inductive event :=
| setIsLoading (loading : bool)
| setProcessingStatus (status : string)
| setShowBookOptions (show : bool)
| processFileAPI_called (fileUri fileName fileType documentType : string)
| console_error (label : string)
| Alert_alert (title message : string)
| navigate_ChapterSelection (chapters : list ChapterSelectionScreen.chapter)
                            (fileName : string)
| navigate_NumQuestions (content : string).

Local Abbreviation M := (@Effect.M event).

(** Whether the handler ran to its end or is still waiting for the API. *)
Inductive ended := returned | waiting.

Section WithApi.
(** What [processFileAPI] settles to: [None] when its promise never settles. *)
Variable api : option (completion processed).
(** The message of the TypeError raised by [result.chapters[0].content] when
    there is no first chapter. *)
Variable TypeError_message : string.

Definition await_processFileAPI (fileUri fileName fileType documentType : string)
  : M (option processed) :=
  emit (processFileAPI_called fileUri fileName fileType documentType) ;;
  match api with
  | Some (Normal result) => ret (Some result)
  | Some (Throw message) => throw message
  | None => ret None
  end.

(** [handleUpload], with the screen's state [fileUri], [fileName], [fileType]
    and [documentType]. *)
Definition handleUpload (fileUri fileName fileType documentType : string) : M ended :=
  if String.eqb fileUri "" then
    emit (Alert_alert "Error" "Please select a file first") ;;
    ret returned
  else
    emit (setIsLoading true) ;;
    emit (setProcessingStatus "Connecting...") ;;
    settled <-
      try_catch
        (result <- await_processFileAPI fileUri fileName fileType documentType ;;
         match result with
         | None => ret false
         | Some result =>
             (if is_book result &&
                 match chapters result with
                 | Some l => (1 <? length l)%nat
                 | None => false
                 end
              then
                if String.eqb documentType "book"
                then emit (setShowBookOptions true)
                else emit (navigate_ChapterSelection
                             (match chapters result with Some l => l | None => [] end)
                             fileName)
              else
                match chapters result with
                | Some (ch :: _) =>
                    emit (navigate_NumQuestions (ChapterSelectionScreen.content ch))
                | _ => throw TypeError_message
                end) ;;
             ret true
         end)
        (fun message =>
           emit (console_error "Error processing file:") ;;
           emit (Alert_alert "Error"
                   (ApiService.or_else message "Failed to process file")) ;;
           ret true) ;;
    if settled : bool then
      emit (setIsLoading false) ;;
      emit (setProcessingStatus "") ;;
      ret returned
    else ret waiting.

End WithApi.

(** What the user gets to see of a run. *)
Definition is_shown (e : event) : bool :=
  match e with
  | Alert_alert _ _ | navigate_ChapterSelection _ _ | navigate_NumQuestions _
  | setShowBookOptions true => true
  | _ => false
  end.

End FileUploadScreen.

(** ** The upload, end to end *)

Module UploadFlow.

Section WithDecoder.
(** What the screen reads of the 'complete' message the socket resolved
    with. *)
Variable decode : ProgressSocket.data -> FileUploadScreen.processed.

(** What awaiting [processFileAPI] gives the screen. *)
Definition awaited (r : FileApi.routed FileUploadScreen.processed)
  : option (Effect.completion FileUploadScreen.processed) :=
  match r with
  | FileApi.via_WebSocket ProgressSocket.Pending => None
  | FileApi.via_WebSocket (ProgressSocket.Resolved d) => Some (Effect.Normal (decode d))
  | FileApi.via_WebSocket (ProgressSocket.Rejected error) => Some (Effect.Throw error)
  | FileApi.via_HTTP c _ => Some c
  end.

(** [handleUpload] on top of [processFileAPI]. *)
Definition upload (w : FileApi.world FileUploadScreen.processed)
           (evs : list ProgressSocket.event) (TypeError_message : string)
           (fileUri fileName fileType documentType : string) :=
  FileUploadScreen.handleUpload
    (awaited (FileApi.processFileAPI w evs fileUri fileName fileType documentType))
    TypeError_message fileUri fileName fileType documentType.

End WithDecoder.

Definition no_chapters (d : ProgressSocket.data) : FileUploadScreen.processed :=
  {| FileUploadScreen.is_book := false; FileUploadScreen.chapters := None |}.

Definition readable : FileApi.world FileUploadScreen.processed :=
  {| FileApi.read_result := inl "QUJD";
     FileApi.fetch_result := FileApi.fetch_rejects "Network request failed" |}.

End UploadFlow.

(** ** From the chapter selection to the number of questions *)

Module ChapterToQuestions.

(** The route parameters [handleContinue] navigates with: [{ text:
    selectedContent }]. *)
Definition route_params (text : string) : gmap string string :=
  {[ "text" := text ]}.

(** [const { contentType, content, fileUri, fileName, fileType, documentType }
    = route.params || {}], as far as [handleGenerateMCQs] reads them. *)
Definition read_params (route : gmap string string) : NumQuestionsScreen.params :=
  {| NumQuestionsScreen.content := route !! "content";
     NumQuestionsScreen.fileUri := route !! "fileUri";
     NumQuestionsScreen.fileName := route !! "fileName";
     NumQuestionsScreen.fileType := route !! "fileType" |}.

(** The parameters [FileUploadScreen] navigates with: [{ contentType: 'text',
    content }]. *)
Definition upload_route_params (content : string) : gmap string string :=
  {[ "contentType" := "text"; "content" := content ]}.

End ChapterToQuestions.

(** * Properties *)

(** ** Numbers: integers below 2^53 are Numbers *)

Module NumberFacts.
Import JSNumber.

Lemma digits2_pos_iter_xO p k :
  digits2_pos (Pos.iter xO p k) = (digits2_pos p + k)%positive.
Proof.
  induction k as [|k IH] using Pos.peano_ind.
  - simpl. lia.
  - rewrite Pos.iter_succ. simpl. rewrite IH. lia.
Qed.

Lemma digits2_pos_size p : digits2_pos p = Pos.size p.
Proof. induction p; simpl; congruence. Qed.

Lemma digits2_pos_le_53 p : Z.pos p < 2 ^ 53 -> Z.pos (digits2_pos p) <= 53.
Proof.
  intros Hp. rewrite digits2_pos_size.
  destruct (Z_le_gt_dec (Z.pos (Pos.size p)) 53) as [|Hgt]; [assumption|exfalso].
  pose proof (Pos.size_le p) as Hle.
  assert (2 ^ 54 <= 2 ^ Z.pos (Pos.size p)) by (apply Z.pow_le_mono_r; lia).
  assert (Z.pos (2 ^ Pos.size p) = 2 ^ Z.pos (Pos.size p)) as E
    by (rewrite Pos2Z.inj_pow; reflexivity).
  assert (Z.pos (2 ^ Pos.size p) <= Z.pos p~0) by exact Hle.
  lia.
Qed.

(** A positive integer below 2^53 converts to a positive finite Number: the
    mantissa is the integer shifted to 53 bits, and no rounding happens. *)
Lemma of_Z_pos_finite p :
  Z.pos p < 2 ^ 53 ->
  exists m e, of_Z (Z.pos p) = S754_finite false m e.
Proof.
  intros Hp. pose proof (digits2_pos_le_53 p Hp) as Hd.
  unfold of_Z, binary_normalize, binary_round.
  set (d := digits2_pos p) in *.
  assert (Hfexp : fexp prec emax (Z.pos d + 0) = Z.pos d - 53).
  { unfold fexp, emin, prec, emax. lia. }
  rewrite Hfexp.
  assert (exists mz, shl_align p 0 (Z.pos d - 53) = (mz, Z.pos d - 53)
                     /\ digits2_pos mz = 53%positive)
    as (mz & -> & Hmz).
  { unfold shl_align. rewrite Z.sub_0_r.
    destruct (Z.pos d - 53) as [|q|q] eqn:E; try lia.
    - exists p. split; [reflexivity|]. fold d. lia.
    - exists (Pos.iter xO p q). split; [reflexivity|].
      rewrite digits2_pos_iter_xO. fold d. lia. }
  exists mz, (Z.pos d - 53).
  unfold binary_round_aux, shr_fexp.
  cbn [Zdigits2]. rewrite Hmz.
  assert (Hfexp2 : fexp prec emax (53 + (Z.pos d - 53)) = Z.pos d - 53).
  { unfold fexp, emin, prec, emax. lia. }
  rewrite Hfexp2, Z.sub_diag. cbn [shr shr_record_of_loc].
  cbn [shr_m loc_of_shr_record round_nearest_even Zdigits2].
  rewrite Hmz, Hfexp2, Z.sub_diag. cbn [shr shr_record_of_loc shr_m].
  unfold emax, prec.
  destruct (Z.leb_spec (Z.pos d - 53) (1024 - 53)); [reflexivity|lia].
Qed.

(** [n > 0] holds of the Number of a positive integer. *)
Lemma of_Z_pos_gt_zero n :
  0 < n < 2 ^ 53 -> gt (of_Z n) (of_Z 0) = true.
Proof.
  intros [Hn Hlt]. destruct n as [|p|p]; try lia.
  destruct (of_Z_pos_finite p Hlt) as (m & e & ->). reflexivity.
Qed.

(** [Math.round] on a few Numbers: ties go up, also below zero, and a
    result of zero keeps the sign. *)
Lemma Math_round_examples :
  Math_round (div (of_Z 5) (of_Z 2)) = of_Z 3 /\
  Math_round (div (of_Z (-5)) (of_Z 2)) = of_Z (-2) /\
  Math_round (div (of_Z 7) (of_Z 3)) = of_Z 2 /\
  Math_round (div (of_Z (-1)) (of_Z 4)) = S754_zero true /\
  Math_round (div (of_Z 1) (of_Z 0)) = S754_infinity false /\
  Math_round (div (of_Z 0) (of_Z 0)) = S754_nan /\
  to_Z (of_Z 100) = Some 100.
Proof. repeat split; vm_compute; reflexivity. Qed.

End NumberFacts.

(** ** Division and multiplication on Numbers against exact arithmetic

    [SpecFloat] rounds a quotient or a product by shifting the mantissa to 53
    bits and looking at what was shifted out.  The lemmas follow the exact
    value through the shift and the rounding, and bound what
    [(score / total) * 100] and [Math.round] make of it. *)

Module RoundingFacts.
Import RoundingSpec.

Lemma shr_1_located N D mrs :
  0 < D -> located N D mrs ->
  located N (2 * D) (shr_1 mrs) /\ shr_m (shr_1 mrs) = shr_m mrs / 2.
Proof.
  intros HD (Hm & HR & Hloc).
  destruct mrs as [m r s]. cbn [shr_m] in *.
  unfold located, loc_of in *. cbn [loc_of_shr_record shr_m] in *.
  assert (Hfin : forall m' (b : bool), m = 2 * m' + (if b then 1 else 0) ->
            (0 <= m' /\ 0 <= N - m' * (2 * D) < 2 * D /\
             loc_of_shr_record (Build_shr_record m' b (r || s))
             = (if N - m' * (2 * D) =? 0 then loc_Exact
                else loc_Inexact (2 * (N - m' * (2 * D)) ?= 2 * D))) /\
            m' = m / 2).
  { intros m' b Hb.
    split; [|apply (Z.div_unique m 2 m' (if b then 1 else 0)); [destruct b; lia|lia]].
    split; [destruct b; lia|].
    destruct b; (split; [lia|]);
      destruct r, s; cbn [loc_of_shr_record orb] in *;
      repeat match goal with
             | H : context [(?a =? ?b)] |- _ => destruct (Z.eqb_spec a b)
             | H : context [(?a ?= ?b)] |- _ => destruct (Z.compare_spec a b)
             end; try discriminate;
      repeat match goal with
             | |- context [(?a =? ?b)] => destruct (Z.eqb_spec a b)
             | |- context [(?a ?= ?b)] => destruct (Z.compare_spec a b)
             end; try reflexivity; try lia. }
  destruct m as [|[p|p|]|p]; try lia; cbn [shr_1 shr_m].
  - apply (Hfin 0 false). lia.
  - apply (Hfin (Z.pos p) true). lia.
  - apply (Hfin (Z.pos p) false). lia.
  - apply (Hfin 0 true). lia.
Qed.


Lemma iter_pos_nat {A} (f : A -> A) p : forall x,
  SpecFloat.iter_pos f p x = Nat.iter (Pos.to_nat p) f x.
Proof.
  induction p as [p IH|p IH|]; intros x; cbn [SpecFloat.iter_pos].
  - rewrite !IH, Pos2Nat.inj_xI.
    replace (S (2 * Pos.to_nat p)) with (Pos.to_nat p + S (Pos.to_nat p))%nat by lia.
    rewrite Nat.iter_add, Nat.iter_succ_r. reflexivity.
  - rewrite !IH, Pos2Nat.inj_xO.
    replace (2 * Pos.to_nat p)%nat with (Pos.to_nat p + Pos.to_nat p)%nat by lia.
    rewrite Nat.iter_add. reflexivity.
  - reflexivity.
Qed.

Lemma iter_located N D mrs :
  0 < D -> located N D mrs ->
  forall n : nat,
    located N (2 ^ Z.of_nat n * D) (Nat.iter n shr_1 mrs) /\
    shr_m (Nat.iter n shr_1 mrs) = shr_m mrs / 2 ^ Z.of_nat n.
Proof.
  intros HD Hl n. induction n as [|n [IH IHm]].
  - change (Nat.iter 0 shr_1 mrs) with mrs. change (2 ^ Z.of_nat 0) with 1.
    rewrite Z.mul_1_l, Z.div_1_r. split; [exact Hl|reflexivity].
  - change (Nat.iter (S n) shr_1 mrs) with (shr_1 (Nat.iter n shr_1 mrs)).
    assert (Hpow : 0 < 2 ^ Z.of_nat n) by (apply Z.pow_pos_nonneg; lia).
    destruct (shr_1_located N (2 ^ Z.of_nat n * D) _ ltac:(lia) IH) as [H1 H2].
    rewrite Nat2Z.inj_succ, Z.pow_succ_r by lia.
    split.
    + replace (2 * 2 ^ Z.of_nat n * D) with (2 * (2 ^ Z.of_nat n * D)) by ring.
      exact H1.
    + rewrite H2, IHm, Z.div_div by lia. f_equal. ring.
Qed.

Lemma digits_bounds p :
  2 ^ (Z.pos (digits2_pos p) - 1) <= Z.pos p < 2 ^ Z.pos (digits2_pos p).
Proof.
  induction p as [p IH|p IH|]; cbn [digits2_pos].
  - rewrite Pos2Z.inj_succ.
    replace (Z.succ (Z.pos (digits2_pos p)) - 1) with (Z.succ (Z.pos (digits2_pos p) - 1)) by lia.
    rewrite !Z.pow_succ_r by lia. lia.
  - rewrite Pos2Z.inj_succ.
    replace (Z.succ (Z.pos (digits2_pos p)) - 1) with (Z.succ (Z.pos (digits2_pos p) - 1)) by lia.
    rewrite !Z.pow_succ_r by lia. lia.
  - simpl. lia.
Qed.

Lemma digits_unique p d :
  2 ^ (d - 1) <= Z.pos p < 2 ^ d -> Z.pos (digits2_pos p) = d.
Proof.
  intros [Hlo Hhi]. pose proof (digits_bounds p) as [Blo Bhi].
  assert (0 < d).
  { destruct (Z_lt_le_dec 0 d); [assumption|exfalso].
    assert (2 ^ d <= 2 ^ 0) by (apply Z.pow_le_mono_r; lia). simpl in *. lia. }
  destruct (Z_lt_le_dec (Z.pos (digits2_pos p)) d) as [Hlt|Hge].
  - assert (2 ^ Z.pos (digits2_pos p) <= 2 ^ (d - 1)) by (apply Z.pow_le_mono_r; lia). lia.
  - destruct (Z_lt_le_dec d (Z.pos (digits2_pos p))) as [Hlt|Hle]; [|lia].
    assert (2 ^ d <= 2 ^ (Z.pos (digits2_pos p) - 1)) by (apply Z.pow_le_mono_r; lia). lia.
Qed.

Lemma loc_of_record m l :
  shr_m (shr_record_of_loc m l) = m /\
  loc_of_shr_record (shr_record_of_loc m l) = l.
Proof. destruct l as [|[]]; split; reflexivity. Qed.

Lemma pow2_split a b : 0 <= a -> 0 <= b -> 2 ^ (a + b) = 2 ^ a * 2 ^ b.
Proof. intros. apply Z.pow_add_r; assumption. Qed.

(** The rounding every operation ends with, on a positive value [N / D]
    whose integer part [mx] has at least 53 digits: the result is a normal
    Number [M * 2^(ex + k)] within half a unit in the last place of it. *)
Lemma binary_round_aux_spec N D mx ex :
  0 < D -> mx = N / D -> 2 ^ 52 <= mx ->
  -1074 <= ex -> Zdigits2 mx + ex <= 1023 ->
  exists M k,
    binary_round_aux JSNumber.prec JSNumber.emax false mx ex (loc_of N D mx)
    = S754_finite false M (ex + k) /\
    0 <= k /\ 2 ^ 52 <= Z.pos M < 2 ^ 53 /\
    2 * Z.abs (Z.pos M * 2 ^ k * D - N) <= 2 ^ k * D.
Proof.
  intros HD Hmx Hlo Hex Hov.
  destruct mx as [|p|p]; try lia. cbn [Zdigits2] in Hov.
  pose proof (digits_bounds p) as Hd.
  set (d := Z.pos (digits2_pos p)) in *.
  assert (Hd53 : 53 <= d).
  { destruct (Z_lt_le_dec d 53); [exfalso|assumption].
    assert (2 ^ d <= 2 ^ 52) by (apply Z.pow_le_mono_r; lia). lia. }
  set (n := d - 53) in *.
  assert (Hn : 0 <= n) by lia.
  assert (Hpn : 0 < 2 ^ n) by (apply Z.pow_pos_nonneg; lia).
  assert (Hrem : 0 <= N - Z.pos p * D < D).
  { pose proof (Z.div_mod N D ltac:(lia)). pose proof (Z.mod_pos_bound N D HD). nia. }
  assert (H0 : located N D (shr_record_of_loc (Z.pos p) (loc_of N D (Z.pos p)))).
  { destruct (loc_of_record (Z.pos p) (loc_of N D (Z.pos p))) as [E1 E2].
    unfold located. rewrite E1, E2. split; [lia|]. split; [exact Hrem|reflexivity]. }
  assert (H1 : exists mrs,
             shr_fexp JSNumber.prec JSNumber.emax (Z.pos p) ex (loc_of N D (Z.pos p))
             = (mrs, ex + n) /\
             located N (2 ^ n * D) mrs /\ shr_m mrs = Z.pos p / 2 ^ n).
  { unfold shr_fexp. cbn [Zdigits2]. fold d.
    replace (fexp JSNumber.prec JSNumber.emax (d + ex) - ex) with n
      by (unfold fexp, emin, JSNumber.prec, JSNumber.emax; lia).
    destruct n as [|q|q] eqn:En; try lia.
    - cbn [shr]. eexists. split; [rewrite Z.add_0_r; reflexivity|].
      change (2 ^ 0) with 1. rewrite Z.mul_1_l, Z.div_1_r.
      split; [exact H0|]. apply loc_of_record.
    - cbn [shr]. eexists. split; [reflexivity|].
      rewrite iter_pos_nat.
      destruct (iter_located N D _ HD H0 (Pos.to_nat q)) as [Hl Hm].
      rewrite positive_nat_Z in Hl, Hm.
      split; [exact Hl|]. rewrite Hm. f_equal. apply loc_of_record. }
  destruct H1 as (mrs & E1 & (Hm0 & HR & Hloc) & Hm).
  remember (shr_m mrs) as m' eqn:Em'.
  set (D' := 2 ^ n * D) in *.
  assert (HD' : 0 < D') by (unfold D'; lia).
  assert (Hm' : 2 ^ 52 <= m' < 2 ^ 53).
  { assert (Hsplit : 2 ^ d = 2 ^ n * 2 ^ 53)
      by (unfold n; rewrite <- pow2_split by lia; f_equal; lia).
    assert (Hsplit' : 2 ^ (d - 1) = 2 ^ n * 2 ^ 52)
      by (unfold n; rewrite <- pow2_split by lia; f_equal; lia).
    rewrite Hm. split.
    - apply Z.div_le_lower_bound; lia.
    - apply Z.div_lt_upper_bound; lia. }
  assert (HM0 : exists M0,
             round_nearest_even m' (loc_of_shr_record mrs) = M0 /\
             m' <= M0 <= m' + 1 /\ 2 * Z.abs (M0 * D' - N) <= D').
  { eexists. split; [reflexivity|].
    rewrite Hloc. unfold loc_of, round_nearest_even.
    destruct (Z.eqb_spec (N - m' * D') 0); [split; lia|].
    destruct (Z.compare_spec (2 * (N - m' * D')) D'); [destruct (Z.even m')| |];
      split; lia. }
  destruct HM0 as (M0 & EM0 & HM0 & Habs).
  unfold binary_round_aux. rewrite E1. cbv beta iota. rewrite <- Em', EM0.
  destruct (Z_lt_le_dec M0 (2 ^ 53)) as [Hlt|Hge].
  - destruct M0 as [|M|M]; try lia.
    assert (HdM : Z.pos (digits2_pos M) = 53) by (apply digits_unique; simpl; lia).
    unfold shr_fexp. cbn [Zdigits2]. rewrite HdM.
    replace (fexp JSNumber.prec JSNumber.emax (53 + (ex + n)) - (ex + n)) with 0
      by (unfold fexp, emin, JSNumber.prec, JSNumber.emax; lia).
    cbn [shr shr_record_of_loc shr_m].
    destruct (Z.leb_spec (ex + n) (JSNumber.emax - JSNumber.prec));
      [|unfold JSNumber.emax, JSNumber.prec in *; lia].
    exists M, n. split; [reflexivity|]. split; [lia|]. split; [lia|].
    unfold D' in Habs.
    replace (Z.pos M * 2 ^ n * D) with (Z.pos M * (2 ^ n * D)) by ring. exact Habs.
  - assert (EM : M0 = 2 ^ 53) by lia. clear EM0. subst M0.
    unfold shr_fexp. change (Zdigits2 (2 ^ 53)) with 54.
    replace (fexp JSNumber.prec JSNumber.emax (54 + (ex + n)) - (ex + n)) with 1
      by (unfold fexp, emin, JSNumber.prec, JSNumber.emax; lia).
    cbn [shr shr_record_of_loc SpecFloat.iter_pos].
    change (shr_1 {| shr_m := 2 ^ 53; shr_r := false; shr_s := false |})
      with {| shr_m := 2 ^ 52; shr_r := false; shr_s := false |}.
    cbn [shr_m]. change (2 ^ 52) with (Z.pos (2 ^ 52)) at 1.
    cbv iota.
    destruct (Z.leb_spec (ex + n + 1) (JSNumber.emax - JSNumber.prec));
      [|unfold JSNumber.emax, JSNumber.prec in *; lia].
    exists (2 ^ 52)%positive, (n + 1). split; [f_equal; lia|]. split; [lia|].
    split; [simpl; lia|].
    rewrite pow2_split by lia. unfold D' in Habs.
    replace (Z.pos (2 ^ 52) * (2 ^ n * 2 ^ 1) * D) with (2 ^ 53 * (2 ^ n * D))
      by (change (Z.pos (2 ^ 52)) with (2 ^ 52); change (2 ^ 53) with (2 ^ 52 * 2); change (2 ^ 1) with 2; ring).
    change (2 ^ 1) with 2. lia.
Qed.

Lemma iter_xO_value p q : Z.pos (Pos.iter xO p q) = Z.pos p * 2 ^ Z.pos q.
Proof.
  induction q as [|q IH] using Pos.peano_ind.
  - simpl. lia.
  - rewrite Pos.iter_succ, Pos2Z.inj_xO, IH, Pos2Z.inj_succ, Z.pow_succ_r by lia. ring.
Qed.

(** A positive integer below 2^53 is held exactly, on a 53-bit mantissa. *)
Lemma of_Z_pos_value p :
  Z.pos p < 2 ^ 53 ->
  exists m e, JSNumber.of_Z (Z.pos p) = S754_finite false m e /\
              -52 <= e <= 0 /\
              Z.pos m = Z.pos p * 2 ^ (- e) /\
              2 ^ 52 <= Z.pos m < 2 ^ 53.
Proof.
  intros Hp. pose proof (NumberFacts.digits2_pos_le_53 p Hp) as Hd.
  pose proof (digits_bounds p) as Hb.
  unfold JSNumber.of_Z, binary_normalize, binary_round.
  set (d := digits2_pos p) in *.
  assert (Hfexp : fexp JSNumber.prec JSNumber.emax (Z.pos d + 0) = Z.pos d - 53).
  { unfold fexp, emin, JSNumber.prec, JSNumber.emax. lia. }
  rewrite Hfexp.
  assert (exists mz, shl_align p 0 (Z.pos d - 53) = (mz, Z.pos d - 53)
                     /\ Z.pos mz = Z.pos p * 2 ^ (53 - Z.pos d))
    as (mz & -> & Hval).
  { unfold shl_align. rewrite Z.sub_0_r.
    destruct (Z.pos d - 53) as [|q|q] eqn:E; try lia.
    - exists p. split; [reflexivity|].
      replace (53 - Z.pos d) with 0 by lia. simpl. lia.
    - exists (Pos.iter xO p q). split; [reflexivity|].
      rewrite iter_xO_value. f_equal. f_equal. lia. }
  assert (Hrange : 2 ^ 52 <= Z.pos mz < 2 ^ 53).
  { rewrite Hval.
    assert (E52 : 2 ^ 52 = 2 ^ (Z.pos d - 1) * 2 ^ (53 - Z.pos d))
      by (rewrite <- pow2_split by lia; f_equal; lia).
    assert (E53 : 2 ^ 53 = 2 ^ Z.pos d * 2 ^ (53 - Z.pos d))
      by (rewrite <- pow2_split by lia; f_equal; lia).
    assert (0 < 2 ^ (53 - Z.pos d)) by (apply Z.pow_pos_nonneg; lia).
    rewrite E52 at 1. rewrite E53. split; nia. }
  assert (Hmz : Z.pos (digits2_pos mz) = 53) by (apply digits_unique; exact Hrange).
  exists mz, (Z.pos d - 53).
  split; [|split; [lia|split; [|exact Hrange]]].
  - unfold binary_round_aux, shr_fexp.
    cbn [Zdigits2]. rewrite Hmz.
    assert (Hfexp2 : fexp JSNumber.prec JSNumber.emax (53 + (Z.pos d - 53)) = Z.pos d - 53).
    { unfold fexp, emin, JSNumber.prec, JSNumber.emax. lia. }
    rewrite Hfexp2, Z.sub_diag. cbn [shr shr_record_of_loc].
    cbn [shr_m loc_of_shr_record round_nearest_even Zdigits2].
    rewrite Hmz, Hfexp2, Z.sub_diag. cbn [shr shr_record_of_loc shr_m].
    unfold JSNumber.emax, JSNumber.prec.
    destruct (Z.leb_spec (Z.pos d - 53) (1024 - 53)); [reflexivity|lia].
  - rewrite Hval. f_equal. f_equal. lia.
Qed.

Lemma new_location_loc_of N D q r :
  0 < D -> N = q * D + r -> 0 <= r < D ->
  new_location D r = loc_of N D q.
Proof.
  intros HD HN Hr. unfold loc_of.
  replace (N - q * D) with r by lia.
  unfold new_location, new_location_even, new_location_odd.
  destruct (Z.even D) eqn:Ev; [reflexivity|].
  destruct (Z.eqb_spec r 0); [reflexivity|].
  assert (Hodd : Z.odd D = true) by (rewrite <- Z.negb_even, Ev; reflexivity).
  apply Z.odd_spec in Hodd as [k Hk].
  destruct (Z.compare_spec (2 * r + 1) D), (Z.compare_spec (2 * r) D);
    try reflexivity; lia.
Qed.

Lemma div_core_spec ms es mt et :
  2 ^ 52 <= Z.pos ms < 2 ^ 53 -> 2 ^ 52 <= Z.pos mt < 2 ^ 53 ->
  -52 <= es <= 0 -> -52 <= et <= 0 ->
  exists M k,
    JSNumber.div (S754_finite false ms es) (S754_finite false mt et)
    = S754_finite false M (es - et - 53 + k) /\
    0 <= k /\ 2 ^ 52 <= Z.pos M < 2 ^ 53 /\
    2 * Z.abs (Z.pos M * 2 ^ k * Z.pos mt - Z.pos ms * 2 ^ 53) <= 2 ^ k * Z.pos mt.
Proof.
  intros Hms Hmt Hes Het.
  assert (Hds : Z.pos (digits2_pos ms) = 53) by (apply digits_unique; exact Hms).
  assert (Hdt : Z.pos (digits2_pos mt) = 53) by (apply digits_unique; exact Hmt).
  unfold JSNumber.div, SFdiv, SFdiv_core_binary. cbn [Zdigits2 xorb].
  rewrite Hds, Hdt.
  replace (Z.min (fexp JSNumber.prec JSNumber.emax (53 + es - (53 + et))) (es - et))
    with (es - et - 53)
    by (unfold fexp, emin, JSNumber.prec, JSNumber.emax; lia).
  replace (es - et - (es - et - 53)) with 53 by lia.
  cbv beta iota zeta. rewrite Z.shiftl_mul_pow2 by lia.
  set (N := Z.pos ms * 2 ^ 53).
  destruct (Z.div_eucl N (Z.pos mt)) as [q r] eqn:E.
  assert (Hq : q = N / Z.pos mt) by (unfold Z.div; rewrite E; reflexivity).
  assert (Hr : r = N mod Z.pos mt) by (unfold Z.modulo; rewrite E; reflexivity).
  pose proof (Z.div_mod N (Z.pos mt) ltac:(lia)) as Hdm.
  pose proof (Z.mod_pos_bound N (Z.pos mt) ltac:(lia)) as Hmb.
  rewrite <- Hq, <- Hr in *.
  rewrite (new_location_loc_of N (Z.pos mt) q r) by lia.
  assert (Hqlo : 2 ^ 52 <= q).
  { rewrite Hq. apply Z.div_le_lower_bound; [lia|]. unfold N. nia. }
  assert (Hqhi : q < 2 ^ 54).
  { rewrite Hq. apply Z.div_lt_upper_bound; [lia|]. unfold N.
    change (2 ^ 54) with (2 * 2 ^ 53). nia. }
  apply binary_round_aux_spec; try lia.
  destruct q as [|pq|pq]; try lia. cbn [Zdigits2].
  pose proof (digits_bounds pq) as Hb.
  assert (Z.pos (digits2_pos pq) <= 54); [|lia].
  destruct (Z_le_gt_dec (Z.pos (digits2_pos pq)) 54); [assumption|exfalso].
  assert (2 ^ 54 <= 2 ^ (Z.pos (digits2_pos pq) - 1)) by (apply Z.pow_le_mono_r; lia).
  lia.
Qed.

(** [score / total] on Numbers: a 53-bit mantissa [Mq] at the exponent
    [- a], within half a unit in the last place of the exact quotient. *)
Lemma div_spec ps pt :
  Z.pos ps <= Z.pos pt -> Z.pos pt < 2 ^ 53 ->
  exists Mq a,
    JSNumber.div (JSNumber.of_Z (Z.pos ps)) (JSNumber.of_Z (Z.pos pt))
    = S754_finite false Mq (- a) /\
    52 <= a <= 105 /\ 2 ^ 52 <= Z.pos Mq < 2 ^ 53 /\
    2 * Z.abs (Z.pos Mq * Z.pos pt - Z.pos ps * 2 ^ a) <= Z.pos pt.
Proof.
  intros Hle Hlt.
  destruct (of_Z_pos_value ps ltac:(lia)) as (ms & es & -> & Hes & Hvs & Hms).
  destruct (of_Z_pos_value pt Hlt) as (mt & et & -> & Het & Hvt & Hmt).
  destruct (div_core_spec ms es mt et Hms Hmt Hes Het) as (M & k & -> & Hk & HM & Hb).
  set (a := 53 + et - es - k).
  replace (es - et - 53 + k) with (- a) by (unfold a; lia).
  exists M, a.
  set (s := Z.pos ps) in *. set (t := Z.pos pt) in *.
  set (K := 2 ^ k) in *. set (S := 2 ^ (- es)) in *. set (T := 2 ^ (- et)) in *.
  assert (HK : 0 < K) by (apply Z.pow_pos_nonneg; lia).
  assert (HS : 0 < S) by (apply Z.pow_pos_nonneg; lia).
  assert (HT : 0 < T) by (apply Z.pow_pos_nonneg; lia).
  assert (Hs : 0 < s) by (unfold s; lia).
  rewrite Hvs, Hvt in Hb.
  set (W := K * T) in *.
  assert (HW : 0 < W) by (unfold W; nia).
  replace (Z.pos M * K * (t * T)) with (Z.pos M * (W * t)) in Hb by (unfold W; ring).
  replace (K * (t * T)) with (W * t) in Hb by (unfold W; ring).
  assert (Ha : 52 <= a).
  { destruct (Z_le_gt_dec 52 a) as [|Hgt]; [assumption|exfalso].
    assert (HW4 : 4 * S <= W).
    { unfold W, K, T, S. rewrite <- pow2_split by lia.
      change 4 with (2 ^ 2). rewrite <- pow2_split by lia.
      apply Z.pow_le_mono_r; unfold a in Hgt; lia. }
    assert (H1 : 2 ^ 52 * (W * t) <= Z.pos M * (W * t))
      by (apply Z.mul_le_mono_nonneg_r; nia).
    assert (H2 : s * S <= t * S) by (apply Z.mul_le_mono_nonneg_r; lia).
    assert (H3 : 4 * S * t <= W * t) by (apply Z.mul_le_mono_nonneg_r; lia).
    lia. }
  split; [reflexivity|]. split; [unfold a; lia|]. split; [exact HM|].
  assert (HA : 2 ^ a * W = S * 2 ^ 53).
  { unfold W, K, T, S. rewrite <- !pow2_split by lia. f_equal. unfold a. lia. }
  replace (s * S * 2 ^ 53) with (s * 2 ^ a * W) in Hb
    by (replace (s * S * 2 ^ 53) with (s * (S * 2 ^ 53)) by ring; rewrite <- HA; ring).
  replace (Z.pos M * (W * t) - s * 2 ^ a * W) with (W * (Z.pos M * t - s * 2 ^ a)) in Hb by ring.
  rewrite Z.abs_mul, (Z.abs_eq W) in Hb by lia.
  apply (Z.mul_le_mono_pos_l _ _ W); [lia|]. lia.
Qed.

(** [q * 100] on Numbers. *)
Lemma mul_100_spec Mq a :
  2 ^ 52 <= Z.pos Mq < 2 ^ 53 -> 52 <= a <= 105 ->
  exists Mx c,
    JSNumber.mul (S754_finite false Mq (- a)) (JSNumber.of_Z 100)
    = S754_finite false Mx (- (a - c)) /\
    6 <= c <= 8 /\ 2 ^ 52 <= Z.pos Mx < 2 ^ 53 /\
    2 * Z.abs (Z.pos Mx * 2 ^ c - 100 * Z.pos Mq) <= 2 ^ c.
Proof.
  intros HMq Ha.
  assert (E100 : JSNumber.of_Z 100 = S754_finite false 7036874417766400 (-46))
    by (vm_compute; reflexivity).
  rewrite E100. unfold JSNumber.mul, SFmul. cbn [xorb].
  set (N := Z.pos (Mq * 7036874417766400)).
  assert (HN : N = Z.pos Mq * (100 * 2 ^ 46)) by (unfold N; rewrite Pos2Z.inj_mul; reflexivity).
  assert (HNlo : 2 ^ 104 <= N) by (rewrite HN; change (2 ^ 104) with (2 ^ 52 * 2 ^ 52); lia).
  assert (HNhi : N < 2 ^ 106) by (rewrite HN; change (2 ^ 106) with (2 ^ 53 * 2 ^ 53); lia).
  replace loc_Exact with (loc_of N 1 N)
    by (unfold loc_of; rewrite Z.mul_1_r, Z.sub_diag; reflexivity).
  destruct (binary_round_aux_spec N 1 N (- a + -46)) as (M & k & -> & Hk & HM & Hb).
  - lia.
  - rewrite Z.div_1_r. reflexivity.
  - lia.
  - lia.
  - unfold N at 1. cbn [Zdigits2].
    pose proof (digits_bounds (Mq * 7036874417766400)) as Hd. fold N in Hd.
    assert (Z.pos (digits2_pos (Mq * 7036874417766400)) <= 106); [|lia].
    destruct (Z_le_gt_dec (Z.pos (digits2_pos (Mq * 7036874417766400))) 106);
      [assumption|exfalso].
    assert (2 ^ 106 <= 2 ^ (Z.pos (digits2_pos (Mq * 7036874417766400)) - 1))
      by (apply Z.pow_le_mono_r; lia).
    lia.
  - rewrite Z.mul_1_r in Hb.
    assert (Hk52 : 52 <= k).
    { destruct (Z_le_gt_dec 52 k); [assumption|exfalso].
      assert (2 ^ k <= 2 ^ 51) by (apply Z.pow_le_mono_r; lia).
      assert (0 < 2 ^ k) by (apply Z.pow_pos_nonneg; lia).
      assert (Z.pos M * 2 ^ k <= 2 ^ 53 * 2 ^ 51) by (apply Z.mul_le_mono_nonneg; lia).
      change (2 ^ 53 * 2 ^ 51) with (2 ^ 104) in *. lia. }
    assert (Hk54 : k <= 54).
    { destruct (Z_le_gt_dec k 54); [assumption|exfalso].
      assert (2 ^ 55 <= 2 ^ k) by (apply Z.pow_le_mono_r; lia).
      assert (2 ^ 52 * 2 ^ k <= Z.pos M * 2 ^ k) by (apply Z.mul_le_mono_nonneg_r; lia).
      lia. }
    exists M, (k - 46).
    split; [f_equal; lia|]. split; [lia|]. split; [exact HM|].
    rewrite HN in Hb.
    assert (k = 52 \/ k = 53 \/ k = 54) as [Ek|[Ek|Ek]] by lia; subst k;
      cbn [Z.sub Z.add Z.opp Z.pos_sub Pos.pred_double Z.succ_double Z.pred_double Z.double] in *;
      simpl (2 ^ _) in *; lia.
Qed.

Lemma to_Z_of_Z_pos p :
  Z.pos p < 2 ^ 53 -> JSNumber.to_Z (JSNumber.of_Z (Z.pos p)) = Some (Z.pos p).
Proof.
  intros Hp. destruct (of_Z_pos_value p Hp) as (m & e & -> & He & Hv & _).
  unfold JSNumber.to_Z. rewrite Hv.
  assert (0 < 2 ^ (- e)) by (apply Z.pow_pos_nonneg; lia).
  destruct (Z.leb_spec 0 e).
  - replace e with 0 by lia. simpl. f_equal. lia.
  - rewrite Z.mod_mul by lia. simpl. rewrite Z.div_mul by lia. reflexivity.
Qed.

(** [Math.round] of a positive Number with a negative exponent is the floor
    of the Number plus one half. *)
Lemma Math_round_spec Mx b :
  1 <= b -> 0 <= (2 * Z.pos Mx + 2 ^ b) / (2 * 2 ^ b) < 2 ^ 53 ->
  JSNumber.to_Z (JSNumber.Math_round (S754_finite false Mx (- b)))
  = Some ((2 * Z.pos Mx + 2 ^ b) / (2 * 2 ^ b)).
Proof.
  intros Hb Hr. unfold JSNumber.Math_round.
  destruct (Z.leb_spec 0 (- b)); [lia|].
  rewrite Z.opp_involutive.
  replace (2 ^ (b + 1)) with (2 * 2 ^ b) by (rewrite Z.pow_add_r by lia; simpl; ring).
  cbv zeta.
  destruct (Z.eqb_spec ((2 * Z.pos Mx + 2 ^ b) / (2 * 2 ^ b)) 0) as [->|Hne];
    [reflexivity|].
  destruct ((2 * Z.pos Mx + 2 ^ b) / (2 * 2 ^ b)) as [|r|r] eqn:E; try lia.
  apply to_Z_of_Z_pos. lia.
Qed.

(** The arithmetic of the two roundings: with the quotient within half a
    unit of [s / t] at scale [A], the product within half a unit of
    [100 * q] at scale [B = A / C], and [t] far below [A], the floor [p] of
    the product plus one half is within one half of [100 * s / t]. *)
Lemma nearest_arith s t Mq Mx A B C p :
  0 < s <= t -> t < 2 ^ 32 ->
  2 ^ 52 <= A -> 0 < B -> A = B * C ->
  C = 64 \/ C = 128 \/ C = 256 ->
  2 * Z.abs (Mq * t - s * A) <= t ->
  2 * Z.abs (Mx * C - 100 * Mq) <= C ->
  2 * B * p <= 2 * Mx + B < 2 * B * p + 2 * B ->
  Z.abs (2 * t * p - 200 * s) <= t.
Proof.
  intros Hs Ht HA HB EA HC Hq Hx Hp.
  assert (HCt : 0 < C * t) by (destruct HC as [->|[->| ->]]; lia).
  assert (HCt' : C * t <= 256 * t) by (destruct HC as [->|[->| ->]]; lia).
  assert (F2 : (200 * Mq - C) * t <= 2 * (Mx * C) * t <= (200 * Mq + C) * t)
    by (split; apply Z.mul_le_mono_nonneg_r; lia).
  destruct (Z_le_gt_dec (2 * t * p) (200 * s + t)) as [Hup|Hup].
  - destruct (Z_le_gt_dec (200 * s - t) (2 * t * p)) as [Hdown|Hdown]; [lia|exfalso].
    assert (F1 : (2 * Mx + 1) * (C * t) <= (2 * p + 1) * B * (C * t))
      by (apply Z.mul_le_mono_nonneg_r; lia).
    assert (F4 : A * 1 <= A * (200 * s - (2 * p + 1) * t))
      by (apply Z.mul_le_mono_nonneg_l; lia).
    subst A. lia.
  - exfalso.
    assert (F1 : (2 * p - 1) * B * (C * t) <= 2 * Mx * (C * t))
      by (apply Z.mul_le_mono_nonneg_r; lia).
    assert (F4 : A * 1 <= A * ((2 * p - 1) * t - 200 * s))
      by (apply Z.mul_le_mono_nonneg_l; lia).
    subst A. lia.
Qed.

(** For every total an array can have, the percentage is a whole number
    from 0 to 100 within one half of the exact [100 * score / total]. *)
Lemma percentage_nearest_general s t :
  0 < t < 2 ^ 32 -> 0 <= s <= t ->
  exists p,
    JSNumber.to_Z (MCQResultScreen.percentage (JSNumber.of_Z s) (JSNumber.of_Z t))
    = Some p /\
    0 <= p <= 100 /\
    Z.abs (2 * t * p - 200 * s) <= t.
Proof.
  intros Ht Hs. unfold MCQResultScreen.percentage.
  rewrite NumberFacts.of_Z_pos_gt_zero by lia.
  destruct t as [|pt|pt]; try lia.
  destruct s as [|ps|ps]; try lia.
  - exists 0. destruct (of_Z_pos_value pt ltac:(lia)) as (mt & et & -> & _).
    split; [reflexivity|]. lia.
  - destruct (div_spec ps pt ltac:(lia) ltac:(lia)) as (Mq & a & -> & Ha & HMq & Hq).
    destruct (mul_100_spec Mq a HMq Ha) as (Mx & c & -> & Hc & HMx & Hx).
    set (b := a - c) in *.
    assert (Hb : 44 <= b) by (unfold b; lia).
    set (A := 2 ^ a) in *. set (B := 2 ^ b). set (C := 2 ^ c) in *.
    assert (HB : 0 < B) by (apply Z.pow_pos_nonneg; lia).
    assert (HA : 2 ^ 52 <= A) by (apply Z.pow_le_mono_r; lia).
    assert (EA : A = B * C).
    { unfold A, B, C. rewrite <- pow2_split by lia. f_equal. unfold b. lia. }
    assert (HC : C = 64 \/ C = 128 \/ C = 256).
    { unfold C. assert (c = 6 \/ c = 7 \/ c = 8) as [->|[->| ->]] by lia; auto. }
    set (p := (2 * Z.pos Mx + B) / (2 * B)).
    pose proof (Z.div_mod (2 * Z.pos Mx + B) (2 * B) ltac:(lia)) as Hdm.
    pose proof (Z.mod_pos_bound (2 * Z.pos Mx + B) (2 * B) ltac:(lia)) as Hmb.
    fold p in Hdm.
    assert (Hp : 2 * B * p <= 2 * Z.pos Mx + B < 2 * B * p + 2 * B) by lia.
    pose proof (nearest_arith (Z.pos ps) (Z.pos pt) (Z.pos Mq) (Z.pos Mx) A B C p
                  ltac:(lia) ltac:(lia) HA HB EA HC Hq Hx Hp) as Hnear.
    assert (Hp0 : 0 <= p) by (apply Z.div_pos; lia).
    assert (Hp100 : p <= 100).
    { destruct (Z_le_gt_dec p 100); [assumption|exfalso].
      assert (101 * Z.pos pt <= p * Z.pos pt) by (apply Z.mul_le_mono_nonneg_r; lia).
      lia. }
    exists p. split; [|split; [lia|exact Hnear]].
    apply Math_round_spec; [lia|]. fold B. fold p. lia.
Qed.

End RoundingFacts.

(** ** Score: the reduction counts the matching answers *)

Module ScoreFacts.
Import MCQAssessmentScreen ScoreSpec.

Lemma reduce_from_count sel mcqs : forall index acc,
  JSArray.reduce_from (add_if_correct sel) index acc mcqs
  = acc + count_matches (imap (fun i => with_userAnswer sel (index + i)) mcqs).
Proof.
  induction mcqs as [|mcq rest IH]; intros index acc.
  - unfold count_matches. simpl. lia.
  - cbn [JSArray.reduce_from imap]. rewrite IH.
    unfold add_if_correct, count_matches.
    cbn [List.filter with_userAnswer Result.userAnswer Result.correctAnswer].
    replace (index + 0)%nat with index by lia.
    erewrite (imap_ext (fun i => with_userAnswer sel (S index + i))
                       ((fun i => with_userAnswer sel (index + i)) ∘ S)).
    2:{ intros i x _. simpl. f_equal. lia. }
    destruct (strict_eq (sel !! index) (Question.correctAnswer mcq));
      cbn [length]; lia.
Qed.

Lemma count_matches_bounds results :
  0 <= count_matches results <= Z.of_nat (length results).
Proof.
  unfold count_matches. split; [lia|].
  apply inj_le. apply List.filter_length_le.
Qed.

Lemma reduce_from_shift sel mcqs : forall index acc d,
  JSArray.reduce_from (add_if_correct sel) index (acc + d) mcqs
  = JSArray.reduce_from (add_if_correct sel) index acc mcqs + d.
Proof. intros. rewrite !reduce_from_count. lia. Qed.

(** Only the answers at [index] and after are read. *)
Lemma reduce_from_agree sel sel' mcqs : forall index acc,
  (forall j, (index <= j)%nat -> sel !! j = sel' !! j) ->
  JSArray.reduce_from (add_if_correct sel) index acc mcqs
  = JSArray.reduce_from (add_if_correct sel') index acc mcqs.
Proof.
  induction mcqs as [|mcq rest IH]; intros index acc Hag; [reflexivity|].
  cbn [JSArray.reduce_from]. unfold add_if_correct at 2 4.
  rewrite (Hag index) by lia. apply IH. intros j Hj. apply Hag. lia.
Qed.

(** Replacing a wrong (or missing) answer by the correct one adds exactly
    one to the reduction. *)
Lemma reduce_from_correcting sel mcqs : forall index acc i q,
  mcqs !! i = Some q ->
  sel !! (index + i)%nat <> Some (Question.correctAnswer q) ->
  JSArray.reduce_from
    (add_if_correct (handleAnswer sel (index + i) (Question.correctAnswer q)))
    index acc mcqs
  = JSArray.reduce_from (add_if_correct sel) index acc mcqs + 1.
Proof.
  unfold handleAnswer.
  induction mcqs as [|mcq rest IH]; intros index acc i q Hq Hne; [discriminate|].
  destruct i as [|i]; cbn [JSArray.reduce_from].
  - injection Hq as ->. replace (index + 0)%nat with index in * by lia.
    unfold add_if_correct at 2 4. rewrite lookup_insert_eq.
    unfold strict_eq. rewrite bool_decide_eq_true_2 by reflexivity.
    rewrite bool_decide_eq_false_2 by assumption.
    rewrite Z.add_0_r, reduce_from_shift. f_equal.
    symmetry. apply reduce_from_agree. intros j Hj.
    rewrite lookup_insert_ne by lia. reflexivity.
  - simpl in Hq. unfold add_if_correct at 2 4.
    rewrite lookup_insert_ne by lia.
    replace (index + S i)%nat with (S index + i)%nat in * by lia.
    apply IH; assumption.
Qed.

Lemma handleSubmit_navigate mcqs sel score total results :
  handleSubmit mcqs sel = navigate_MCQResult score total results ->
  (length mcqs <= size sel)%nat /\
  score = JSArray.reduce (add_if_correct sel) mcqs 0 /\
  total = length mcqs /\
  results = imap (with_userAnswer sel) mcqs.
Proof.
  unfold handleSubmit.
  destruct (Nat.ltb_spec (size sel) (length mcqs)); [discriminate|].
  intros [= <- <- <-]. auto.
Qed.

Lemma handleSubmit_complete mcqs sel :
  (length mcqs <= size sel)%nat ->
  handleSubmit mcqs sel
  = navigate_MCQResult (JSArray.reduce (add_if_correct sel) mcqs 0) (length mcqs)
                       (imap (with_userAnswer sel) mcqs).
Proof.
  intros H. unfold handleSubmit.
  destruct (Nat.ltb_spec (size sel) (length mcqs)); [lia|reflexivity].
Qed.

Lemma size_handleAnswer (sel : gmap nat string) i o :
  (size sel <= size (handleAnswer sel i o))%nat.
Proof.
  unfold handleAnswer. rewrite map_size_insert. destruct (sel !! i); simpl; lia.
Qed.

Lemma reduce_count sel mcqs :
  JSArray.reduce (add_if_correct sel) mcqs 0
  = count_matches (imap (with_userAnswer sel) mcqs).
Proof.
  unfold JSArray.reduce. rewrite reduce_from_count. simpl.
  erewrite imap_ext; [reflexivity|]. intros; reflexivity.
Qed.

End ScoreFacts.

Lemma handleSubmit_sample_example :
  MCQAssessmentScreen.handleSubmit ScoreSpec.sample_mcqs ScoreSpec.sample_answers
  = MCQAssessmentScreen.navigate_MCQResult 2 3 ScoreSpec.sample_results.
Proof. vm_compute. reflexivity. Qed.

(** An unanswered question blocks the submission: no score is computed. *)
Lemma handleSubmit_incomplete_example :
  MCQAssessmentScreen.handleSubmit ScoreSpec.sample_mcqs
    (MCQAssessmentScreen.handleAnswer ∅ 0 "Paris")
  = MCQAssessmentScreen.Alert_Incomplete.
Proof. vm_compute. reflexivity. Qed.

(** ** Percentage against exact arithmetic *)

Module PercentageFacts.
Import JSNumber GradeSpec.

Lemma percentages_checked_100 : percentages_checked 100 = true.
Proof. vm_compute. reflexivity. Qed.

Lemma percentages_checked_elim bound s t :
  percentages_checked bound = true ->
  (1 <= t <= bound)%nat -> (s <= t)%nat ->
  percentage_checked s t = true.
Proof.
  unfold percentages_checked. intros H Ht Hs.
  rewrite forallb_forall in H.
  specialize (H t ltac:(apply in_seq; lia)).
  rewrite forallb_forall in H.
  apply H. apply in_seq. lia.
Qed.

(** For up to 100 questions the percentage is a whole number between 0 and
    100 and a nearest integer to the exact ratio [100 * score / total]. *)
Lemma percentage_nearest (s t : nat) :
  (1 <= t <= 100)%nat -> (s <= t)%nat ->
  exists p,
    to_Z (MCQResultScreen.percentage (of_Z (Z.of_nat s)) (of_Z (Z.of_nat t))) = Some p /\
    0 <= p <= 100 /\
    Z.abs (2 * Z.of_nat t * p - 200 * Z.of_nat s) <= Z.of_nat t.
Proof.
  intros Ht Hs.
  pose proof (percentages_checked_elim 100 s t percentages_checked_100 Ht Hs) as H.
  unfold percentage_checked in H.
  destruct (to_Z _) as [p|]; [|discriminate].
  exists p. split; [reflexivity|].
  unfold nearest_percent in H.
  apply andb_prop in H as [H H3]. apply andb_prop in H as [H1 H2].
  apply Z.leb_le in H1, H2, H3. lia.
Qed.

(** Where the exact ratio falls half-way between two integers, the product
    computed on Numbers may fall just below the half: 23 out of 40 is exactly
    57.5 percent, the Number is 57.49999999999999 and the percentage 57. *)
Lemma percentage_23_of_40 :
  MCQResultScreen.percentage (of_Z 23) (of_Z 40) = of_Z 57.
Proof. vm_compute. reflexivity. Qed.

Lemma percentage_1_of_8 :
  MCQResultScreen.percentage (of_Z 1) (of_Z 8) = of_Z 13.
Proof. vm_compute. reflexivity. Qed.

(** An integer within one half of [100 * s / t] is the spec's rounded
    percentage, except that at an exact half it may be the integer below. *)
Lemma nearest_is_spec_percentage (s t p : Z) :
  0 < t ->
  Z.abs (2 * t * p - 200 * s) <= t ->
  (p = ScoreSpec.spec_percentage s t \/ p = ScoreSpec.spec_percentage s t - 1) /\
  ((200 * s) mod (2 * t) <> t -> p = ScoreSpec.spec_percentage s t).
Proof.
  intros Ht Hnear. unfold ScoreSpec.spec_percentage.
  pose proof (Z.div_mod (200 * s + t) (2 * t) ltac:(lia)) as Hdiv.
  pose proof (Z.mod_pos_bound (200 * s + t) (2 * t) ltac:(lia)) as Hmod.
  set (q := (200 * s + t) / (2 * t)) in *.
  set (r := (200 * s + t) mod (2 * t)) in *.
  assert (Hpq : p = q \/ p = q - 1) by nia.
  split; [exact Hpq|].
  intros Hne. destruct Hpq as [Hpq|Hpq]; [exact Hpq|].
  exfalso. apply Hne.
  symmetry. apply (Z.mod_unique_pos _ _ (q - 1)); nia.
Qed.

End PercentageFacts.

(** The spec's rounding against the code's: 23 right answers out of 40 are
    exactly 57.5 percent, which rounds to 58; the code divides first, the
    Number [(23 / 40) * 100] is 57.49999999999999, and the screen shows 57. *)
Lemma percentage_23_of_40_differs :
  exists results,
    MCQAssessmentScreen.handleSubmit ScoreSpec.forty_mcqs ScoreSpec.forty_answers
    = MCQAssessmentScreen.navigate_MCQResult 23 40 results /\
    JSNumber.to_Z (MCQResultScreen.percentage (JSNumber.of_Z 23) (JSNumber.of_Z 40))
    = Some 57 /\
    ScoreSpec.spec_percentage 23 40 = 58.
Proof. eexists. split; [|split]; vm_compute; reflexivity. Qed.

(** C1 (amended): on submission the score is the number of result records
    whose user answer is the same string as the correct answer, one record
    per question.  For every assessment with at least one question (an
    array holds fewer than 2^32 elements) the result screen's percentage is
    a whole number from 0 to 100 within one half of the exact
    [100 * score / total]: it is the spec's [round(score / total * 100)]
    whenever the exact value is not half-way between two integers, and at a
    half it is that integer or the one below. *)
Theorem score_counts_exact_matches mcqs sel score total results :
  MCQAssessmentScreen.handleSubmit mcqs sel
  = MCQAssessmentScreen.navigate_MCQResult score total results ->
  length results = length mcqs /\
  total = length results /\
  score = ScoreSpec.count_matches results /\
  (0 < Z.of_nat total < 2 ^ 32 ->
   exists p,
     JSNumber.to_Z (MCQResultScreen.percentage (JSNumber.of_Z score)
                                               (JSNumber.of_Z (Z.of_nat total)))
     = Some p /\
     0 <= p <= 100 /\
     Z.abs (2 * Z.of_nat total * p - 200 * score) <= Z.of_nat total /\
     (p = ScoreSpec.spec_percentage score (Z.of_nat total) \/
      p = ScoreSpec.spec_percentage score (Z.of_nat total) - 1) /\
     ((200 * score) mod (2 * Z.of_nat total) <> Z.of_nat total ->
      p = ScoreSpec.spec_percentage score (Z.of_nat total))).
Proof.
  intros H. apply ScoreFacts.handleSubmit_navigate in H as (_ & -> & -> & ->).
  rewrite length_imap. repeat split.
  - apply ScoreFacts.reduce_count.
  - intros Htotal. rewrite ScoreFacts.reduce_count.
    pose proof (ScoreFacts.count_matches_bounds
                  (imap (MCQAssessmentScreen.with_userAnswer sel) mcqs)) as Hb.
    rewrite length_imap in Hb.
    generalize dependent (ScoreSpec.count_matches
                            (imap (MCQAssessmentScreen.with_userAnswer sel) mcqs)).
    intros score Hb.
    destruct (RoundingFacts.percentage_nearest_general score (Z.of_nat (length mcqs))
                Htotal Hb) as (p & Hp & Hrange & Hnear).
    exists p. split; [exact Hp|]. split; [exact Hrange|]. split; [exact Hnear|].
    apply PercentageFacts.nearest_is_spec_percentage; [lia|exact Hnear].
Qed.

Lemma score_counts_exact_matches_witness :
  length ScoreSpec.sample_results = 3%nat /\
  2 = ScoreSpec.count_matches ScoreSpec.sample_results /\
  exists p,
    JSNumber.to_Z (MCQResultScreen.percentage (JSNumber.of_Z 2) (JSNumber.of_Z 3))
    = Some p /\
    p = ScoreSpec.spec_percentage 2 3.
Proof.
  destruct (score_counts_exact_matches ScoreSpec.sample_mcqs ScoreSpec.sample_answers
              2 3%nat ScoreSpec.sample_results eq_refl) as (Hlen & _ & Hscore & Hpct).
  split; [exact Hlen|]. split; [exact Hscore|].
  destruct (Hpct ltac:(simpl; lia)) as (p & Hp & _ & _ & _ & Hne).
  exists p. split; [exact Hp|]. apply Hne. vm_compute. discriminate.
Defined.

(** C3: the score computed on submission lies between 0 and the number of
    questions, and replacing one question's answer by its correct answer,
    the other answers unchanged, submits with a score that is not lower. *)
Theorem score_bounded_and_monotone mcqs sel score total results :
  MCQAssessmentScreen.handleSubmit mcqs sel
  = MCQAssessmentScreen.navigate_MCQResult score total results ->
  0 <= score <= Z.of_nat (length mcqs) /\
  forall i q,
    mcqs !! i = Some q ->
    sel !! i <> Some (Question.correctAnswer q) ->
    exists score' results',
      MCQAssessmentScreen.handleSubmit mcqs
        (MCQAssessmentScreen.handleAnswer sel i (Question.correctAnswer q))
      = MCQAssessmentScreen.navigate_MCQResult score' total results' /\
      score <= score'.
Proof.
  intros H. apply ScoreFacts.handleSubmit_navigate in H as (Hsize & -> & -> & ->).
  split.
  - rewrite ScoreFacts.reduce_count.
    pose proof (ScoreFacts.count_matches_bounds
                  (imap (MCQAssessmentScreen.with_userAnswer sel) mcqs)) as Hb.
    rewrite length_imap in Hb. exact Hb.
  - intros i q Hq Hne.
    eexists _, _. split.
    + apply ScoreFacts.handleSubmit_complete.
      pose proof (ScoreFacts.size_handleAnswer sel i (Question.correctAnswer q)). lia.
    + unfold JSArray.reduce.
      pose proof (ScoreFacts.reduce_from_correcting sel mcqs 0 0 i q Hq Hne) as E.
      simpl in E. rewrite E. lia.
Qed.

Lemma score_bounded_and_monotone_witness :
  0 <= 2 <= 3 /\
  exists score' results',
    MCQAssessmentScreen.handleSubmit ScoreSpec.sample_mcqs
      (MCQAssessmentScreen.handleAnswer ScoreSpec.sample_answers 1 "Mars")
    = MCQAssessmentScreen.navigate_MCQResult score' 3 results' /\
    2 <= score'.
Proof.
  destruct (score_bounded_and_monotone ScoreSpec.sample_mcqs ScoreSpec.sample_answers
              2 3%nat ScoreSpec.sample_results eq_refl) as [Hb Hm].
  split; [exact Hb|].
  apply (Hm 1%nat (Question.mk "Q2" ["Venus"; "Mars"] "Mars") eq_refl).
  vm_compute. discriminate.
Defined.

(** The corrected answer raises the score by exactly one. *)
Lemma score_correcting_adds_one mcqs sel i q :
  mcqs !! i = Some q ->
  sel !! i <> Some (Question.correctAnswer q) ->
  JSArray.reduce
    (MCQAssessmentScreen.add_if_correct
       (MCQAssessmentScreen.handleAnswer sel i (Question.correctAnswer q))) mcqs 0
  = JSArray.reduce (MCQAssessmentScreen.add_if_correct sel) mcqs 0 + 1.
Proof.
  intros Hq Hne. exact (ScoreFacts.reduce_from_correcting sel mcqs 0 0 i q Hq Hne).
Qed.

(** ** Grade *)

Module GradeFacts.
Import JSNumber GradeSpec.

Lemma grades_checked_101 : grades_checked 101 = true.
Proof. vm_compute. reflexivity. Qed.

Lemma grades_checked_elim bound n :
  grades_checked bound = true -> (n < bound)%nat ->
  MCQResultScreen.grade_of (of_Z (Z.of_nat n)) = spec_grade (Z.of_nat n).
Proof.
  unfold grades_checked. intros H Hn.
  rewrite forallb_forall in H.
  apply String.eqb_eq. apply H. apply in_seq. lia.
Qed.

(** On the whole percentages 0..100 the chain of comparisons on Numbers is
    the threshold mapping on integers. *)
Lemma grade_of_spec_grade p :
  0 <= p <= 100 -> MCQResultScreen.grade_of (of_Z p) = spec_grade p.
Proof.
  intros Hp.
  pose proof (grades_checked_elim 101 (Z.to_nat p) grades_checked_101
                                  ltac:(lia)) as H.
  rewrite Z2Nat.id in H by lia. exact H.
Qed.

(** The report generator repeats the result screen's computation. *)
Lemma report_grade_of_eq x : PdfGenerator.grade_of x = MCQResultScreen.grade_of x.
Proof. reflexivity. Qed.

Lemma report_percentage_eq score total :
  PdfGenerator.percentage score total = MCQResultScreen.percentage score total.
Proof. reflexivity. Qed.

End GradeFacts.

(** C2: for a whole percentage p between 0 and 100 the grade is A iff
    p >= 90, B iff 80 <= p < 90, C iff 70 <= p < 80, D iff 60 <= p < 70 and
    F iff p < 60; 89 gives B and 90 gives A; and the report generator
    assigns the grade the result screen assigns, for every score and total. *)
Theorem grade_partition (p : Z) :
  0 <= p <= 100 ->
  (MCQResultScreen.grade_of (JSNumber.of_Z p) = "A" <-> 90 <= p) /\
  (MCQResultScreen.grade_of (JSNumber.of_Z p) = "B" <-> 80 <= p < 90) /\
  (MCQResultScreen.grade_of (JSNumber.of_Z p) = "C" <-> 70 <= p < 80) /\
  (MCQResultScreen.grade_of (JSNumber.of_Z p) = "D" <-> 60 <= p < 70) /\
  (MCQResultScreen.grade_of (JSNumber.of_Z p) = "F" <-> p < 60) /\
  MCQResultScreen.grade_of (JSNumber.of_Z 89) = "B" /\
  MCQResultScreen.grade_of (JSNumber.of_Z 90) = "A" /\
  (forall score total,
     PdfGenerator.grade score total = MCQResultScreen.grade score total).
Proof.
  intros Hp. rewrite (GradeFacts.grade_of_spec_grade p Hp).
  unfold GradeSpec.spec_grade.
  repeat match goal with
         | |- context [?a <=? p] => destruct (Z.leb_spec a p)
         end;
    (repeat split; intros; try lia; try discriminate; try reflexivity).
Qed.

Lemma grade_partition_witness :
  MCQResultScreen.grade_of (JSNumber.of_Z 85) = "B" <-> 80 <= 85 < 90.
Proof.
  destruct (grade_partition 85 ltac:(lia)) as (_ & HB & _).
  exact HB.
Defined.

(** ** Exports: what each run does *)

Module ExportFacts.
Import JSNumber Effect PdfGenerator ExportSpec.

(** A missing list and an empty list take the guard of [generateMCQFile]. *)
Lemma generateMCQFile_missing p format title :
  run (generateMCQFile p None format title)
  = (Normal false, [Alert_alert "Error" "No MCQs to download"]).
Proof. reflexivity. Qed.

Lemma generateMCQFile_empty p format title :
  run (generateMCQFile p (Some []) format title)
  = (Normal false, [Alert_alert "Error" "No MCQs to download"]).
Proof. reflexivity. Qed.

(** A missing result list throws while the template is built; the catch
    block reports it. *)
Lemma generateResultReport_missing p score total format :
  run (generateResultReport p None score total format)
  = (Normal tt, [console_error "Error generating assessment report:";
                 Alert_alert "Error" "Failed to generate assessment report"]).
Proof.
  unfold run, generateResultReport, try_catch, bind.
  destruct (String.eqb format "pdf"); reflexivity.
Qed.

(** [generateResultReport] never throws to its caller. *)
Lemma generateResultReport_normal p results score total format :
  fst (run (generateResultReport p results score total format)) = Normal tt.
Proof.
  destruct p as [t d dir pr wr av sh].
  unfold run, generateResultReport, try_catch, bind, results_map,
    printToFileAsync, writeAsStringAsync, isAvailableAsync, shareAsync,
    emit, ret, throw, bind; simpl.
  destruct (String.eqb format "pdf"), results as [rs|], pr as [uri|], wr,
    av as [[]|], sh; reflexivity.
Qed.

(** With a result list, the first thing a run does is generate the file,
    whatever the length of the list. *)
Lemma generateResultReport_generates p results score total format :
  exists e rest,
    snd (run (generateResultReport p (Some results) score total format)) = e :: rest /\
    generates_file e = true.
Proof.
  destruct p as [t d dir pr wr av sh].
  unfold run, generateResultReport, try_catch, bind, results_map,
    printToFileAsync, writeAsStringAsync, isAvailableAsync, shareAsync,
    emit, ret, throw, bind; simpl.
  destruct (String.eqb format "pdf"), pr as [uri|], wr,
    av as [[]|], sh; simpl; eexists _, _; split; reflexivity.
Qed.

(** Every document a run of [generateResultReport] produces is the report
    with the percentage and the grade computed from [score] and [total]. *)
Lemma generateResultReport_documents p results score total format d :
  In d (documents_of (snd (run (generateResultReport p results score total format)))) ->
  exists r, d = Report r /\
            report_percentage r = percentage score total /\
            report_grade r = grade score total /\
            report_score r = score /\ report_total r = total.
Proof.
  destruct p as [t dt dir pr wr av sh].
  unfold run, generateResultReport, try_catch, bind, results_map,
    printToFileAsync, writeAsStringAsync, isAvailableAsync, shareAsync,
    emit, ret, throw, bind; simpl.
  destruct (String.eqb format "pdf"), results as [rs|], pr as [uri|], wr,
    av as [[]|], sh; simpl;
    intros H; repeat (destruct H as [<-|H]; [eexists; repeat split|]);
    try contradiction.
Qed.

(** With an empty list the run starts by generating the report, and goes on
    as the device answers. *)
Lemma generateResultReport_empty p score total format :
  exists e rest,
    run (generateResultReport p (Some []) score total format)
    = (Normal tt, e :: rest) /\
    ExportSpec.short_circuits
      (run (generateResultReport p (Some []) score total format)) = false /\
    generates_file e = true /\
    (exists r, document_of e = Some (Report r) /\ report_results r = []) /\
    (generated_file p e = None -> rest = report_failure) /\
    (forall fileUri,
       generated_file p e = Some fileUri ->
       exists rest',
         rest = Sharing_isAvailableAsync :: rest' /\
         (isAvailableAsync_result p = None -> rest' = report_failure) /\
         (isAvailableAsync_result p = Some false ->
          rest' = [Alert_alert "Sharing not available"
                     "Sharing is not available on your device"]) /\
         (isAvailableAsync_result p = Some true ->
          rest' = Sharing_shareAsync fileUri None
                  :: (if shareAsync_ok p then [] else report_failure))).
Proof.
  destruct p as [t dt dir pr wr av sh].
  unfold run, generateResultReport, try_catch, bind, results_map,
    printToFileAsync, writeAsStringAsync, isAvailableAsync, shareAsync,
    emit, ret, throw, bind, generated_file, report_failure; simpl.
  destruct (String.eqb format "pdf"), pr as [uri|], wr,
    av as [[]|], sh; simpl;
    eexists _, _;
    (split; [reflexivity|]); (split; [reflexivity|]); (split; [reflexivity|]);
    (split; [eexists; split; reflexivity|]);
    (split; [intros H; first [discriminate H | reflexivity]|]);
    intros fileUri H; first [discriminate H | injection H as <-];
    eexists; (split; [reflexivity|]);
    repeat split; intros H; first [discriminate H | reflexivity].
Qed.

End ExportFacts.

(** C8: with total 0 the percentage is 0 on the result screen and in the
    report generator, for every score, because the division is behind the
    test [total > 0]; an empty assessment submits total 0; and every report
    document exported with total 0 carries the percentage 0. *)
Theorem percentage_of_zero_total (score : JSNumber.number) :
  MCQResultScreen.percentage score (JSNumber.of_Z 0) = JSNumber.of_Z 0 /\
  PdfGenerator.percentage score (JSNumber.of_Z 0) = JSNumber.of_Z 0 /\
  JSNumber.to_Z (MCQResultScreen.percentage score (JSNumber.of_Z 0)) = Some 0 /\
  (forall sel,
     MCQAssessmentScreen.handleSubmit [] sel
     = MCQAssessmentScreen.navigate_MCQResult 0 0 []) /\
  (forall p results format d,
     In d (ExportSpec.documents_of
             (snd (Effect.run (PdfGenerator.generateResultReport
                                 p results score (JSNumber.of_Z 0) format)))) ->
     exists r, d = PdfGenerator.Report r /\
               PdfGenerator.report_percentage r = JSNumber.of_Z 0).
Proof.
  repeat split; try reflexivity.
  intros p results format d Hd.
  apply ExportFacts.generateResultReport_documents in Hd as (r & -> & Hp & _).
  exists r. split; [reflexivity|]. rewrite Hp. reflexivity.
Qed.

(** [generateResultReport] does not short-circuit on an empty result list:
    on a working device the report is printed and shared, and no alert is
    shown. *)
Lemma generateResultReport_empty_list_exports :
  ExportSpec.short_circuits
    (Effect.run (PdfGenerator.generateResultReport ExportSpec.device (Some [])
                   (JSNumber.of_Z 0) (JSNumber.of_Z 0) "pdf")) = false /\
  snd (Effect.run (PdfGenerator.generateResultReport ExportSpec.device (Some [])
                     (JSNumber.of_Z 0) (JSNumber.of_Z 0) "pdf"))
  = [ PdfGenerator.Print_printToFileAsync
        (PdfGenerator.Report
           {| PdfGenerator.report_grade := "F";
              PdfGenerator.report_score := JSNumber.of_Z 0;
              PdfGenerator.report_total := JSNumber.of_Z 0;
              PdfGenerator.report_percentage := JSNumber.of_Z 0;
              PdfGenerator.report_good_score := Some false;
              PdfGenerator.report_results := [] |});
      PdfGenerator.Sharing_isAvailableAsync;
      PdfGenerator.Sharing_shareAsync "file:///cache/print.pdf" None ].
Proof. split; vm_compute; reflexivity. Qed.

(** C4 (amended): [generateMCQFile] called with a missing or an empty list
    returns false after the single alert "No MCQs to download", before any
    file is generated.  [generateResultReport] never throws to its caller;
    with a missing list it generates no file and shows its failure alert.
    With an empty list it has no guard and does not short-circuit: on every
    device its first action is to generate the report file, a report with no
    result entries.  If that call rejects it shows the failure alert;
    otherwise it asks whether sharing is available, and then shares the
    generated file where it is (failure alert if the share call rejects),
    shows "Sharing not available" where it is not, and shows the failure
    alert if the question itself rejects. *)
Theorem export_on_empty_or_missing_list p format title score total :
  Effect.run (PdfGenerator.generateMCQFile p None format title)
  = (Effect.Normal false, [PdfGenerator.Alert_alert "Error" "No MCQs to download"]) /\
  Effect.run (PdfGenerator.generateMCQFile p (Some []) format title)
  = (Effect.Normal false, [PdfGenerator.Alert_alert "Error" "No MCQs to download"]) /\
  ExportSpec.short_circuits
    (Effect.run (PdfGenerator.generateMCQFile p None format title)) = true /\
  ExportSpec.short_circuits
    (Effect.run (PdfGenerator.generateMCQFile p (Some []) format title)) = true /\
  Effect.run (PdfGenerator.generateResultReport p None score total format)
  = (Effect.Normal tt,
     [PdfGenerator.console_error "Error generating assessment report:";
      PdfGenerator.Alert_alert "Error" "Failed to generate assessment report"]) /\
  ExportSpec.short_circuits
    (Effect.run (PdfGenerator.generateResultReport p None score total format)) = true /\
  exists e rest,
    Effect.run (PdfGenerator.generateResultReport p (Some []) score total format)
    = (Effect.Normal tt, e :: rest) /\
    ExportSpec.short_circuits
      (Effect.run (PdfGenerator.generateResultReport p (Some []) score total format))
    = false /\
    PdfGenerator.generates_file e = true /\
    (exists r, ExportSpec.document_of e = Some (PdfGenerator.Report r) /\
               PdfGenerator.report_results r = []) /\
    (ExportSpec.generated_file p e = None -> rest = ExportSpec.report_failure) /\
    (forall fileUri,
       ExportSpec.generated_file p e = Some fileUri ->
       exists rest',
         rest = PdfGenerator.Sharing_isAvailableAsync :: rest' /\
         (PdfGenerator.isAvailableAsync_result p = None ->
          rest' = ExportSpec.report_failure) /\
         (PdfGenerator.isAvailableAsync_result p = Some false ->
          rest' = [PdfGenerator.Alert_alert "Sharing not available"
                     "Sharing is not available on your device"]) /\
         (PdfGenerator.isAvailableAsync_result p = Some true ->
          rest' = PdfGenerator.Sharing_shareAsync fileUri None
                  :: (if PdfGenerator.shareAsync_ok p then []
                      else ExportSpec.report_failure))).
Proof.
  rewrite ExportFacts.generateResultReport_missing.
  do 6 (split; [reflexivity|]).
  apply ExportFacts.generateResultReport_empty.
Qed.

(** A non-empty list is exported: the guard of [generateMCQFile] is only
    about the empty and the missing list. *)
Lemma generateMCQFile_example :
  Effect.run (PdfGenerator.generateMCQFile ExportSpec.device
                (Some [OptionsSpec.capital_question]) "txt" "Generated MCQs")
  = (Effect.Normal true,
     [ PdfGenerator.FileSystem_writeAsStringAsync
         "file:///documents/mcq_1700000000000.txt"
         (PdfGenerator.MCQs
            {| PdfGenerator.header_title := None;
               PdfGenerator.blocks :=
                 [ {| PdfGenerator.block_number := 1;
                      PdfGenerator.block_question := "Capital of France?";
                      PdfGenerator.block_options :=
                        [ (65%nat, "Paris"); (66%nat, "London");
                          (67%nat, "Berlin"); (68%nat, "Madrid") ] |} ];
               PdfGenerator.answer_key := [ (1%nat, "Paris") ] |});
       PdfGenerator.Sharing_isAvailableAsync;
       PdfGenerator.Sharing_shareAsync
         "file:///documents/mcq_1700000000000.txt"
         (Some {| PdfGenerator.mimeType := "text/plain";
                  PdfGenerator.dialogTitle := "Download MCQ Questions (TXT)";
                  PdfGenerator.UTI := "public.text" |}) ]).
Proof. vm_compute. reflexivity. Qed.

(** ** Options: sorting permutes, filtering removes the answer *)

Module OptionsFacts.
Import OptionsSpec.

Section Sort.
Context {A St : Type} (comparefn : A -> A -> St -> JSNumber.number * St).

Lemma insert_element_perm rprefix element : forall st,
  Permutation (fst (JSArray.insert_element comparefn rprefix element st))
              (element :: rprefix).
Proof.
  induction rprefix as [|tmp rest IH]; intros st; simpl.
  - reflexivity.
  - destruct (comparefn tmp element st) as [order st1].
    destruct (JSNumber.gt order _); [|reflexivity].
    specialize (IH st1).
    destruct (JSArray.insert_element comparefn rest element st1) as [r st2].
    simpl in *. rewrite IH. apply perm_swap.
Qed.

Lemma sort_from_perm arr : forall rprefix st,
  Permutation (fst (JSArray.sort_from comparefn rprefix arr st)) (rprefix ++ arr).
Proof.
  induction arr as [|element rest IH]; intros rprefix st; simpl.
  - rewrite app_nil_r. symmetry. apply Permutation_rev.
  - pose proof (insert_element_perm rprefix element st) as Hi.
    destruct (JSArray.insert_element comparefn rprefix element st) as [rp st1].
    simpl in Hi. rewrite IH, Hi. apply Permutation_middle.
Qed.

(** Whatever the comparator answers, the sorted array is a permutation. *)
Lemma sort_perm arr st :
  Permutation (fst (JSArray.sort comparefn arr st)) arr.
Proof. unfold JSArray.sort. apply (sort_from_perm arr [] st). Qed.

End Sort.

Lemma shuffle_spec draws mcq n :
  Permutation (Question.options (fst (MCQAssessmentScreen.shuffle draws mcq n)))
              (Question.options mcq) /\
  Question.correctAnswer (fst (MCQAssessmentScreen.shuffle draws mcq n))
  = Question.correctAnswer mcq /\
  Question.question (fst (MCQAssessmentScreen.shuffle draws mcq n))
  = Question.question mcq.
Proof.
  unfold MCQAssessmentScreen.shuffle.
  pose proof (sort_perm (MCQAssessmentScreen.comparefn draws)
                        (Question.options mcq) n) as Hp.
  destruct (JSArray.sort _ _ _) as [shuffledOptions n1]. simpl in *. auto.
Qed.

Lemma occurrences_perm x l l' :
  Permutation l l' -> occurrences x l = occurrences x l'.
Proof. intros H. unfold occurrences. apply Permutation_count_occ. exact H. Qed.

Lemma occurrences_cons_eq x l : occurrences x (x :: l) = S (occurrences x l).
Proof. unfold occurrences. apply count_occ_cons_eq. reflexivity. Qed.

Lemma occurrences_zero_not_in x l : occurrences x l = 0%nat <-> ~ In x l.
Proof. unfold occurrences. symmetry. apply count_occ_not_In. Qed.

Lemma without_length a l :
  (length (without a l) + occurrences a l = length l)%nat.
Proof.
  unfold without, occurrences. induction l as [|x l IH]; simpl; [reflexivity|].
  destruct (String.eqb_spec x a) as [->|Hne]; simpl.
  - destruct (string_dec a a); [lia|congruence].
  - destruct (string_dec x a); [congruence|lia].
Qed.

Lemma without_absent a l : occurrences a l = 0%nat -> without a l = l.
Proof.
  unfold without, occurrences. induction l as [|x l IH]; simpl; [reflexivity|].
  destruct (string_dec x a) as [->|Hne]; [discriminate|].
  intros H. destruct (String.eqb_spec x a); [congruence|]. simpl.
  f_equal. apply IH. exact H.
Qed.

Lemma without_once a l :
  occurrences a l = 1%nat -> Permutation (a :: without a l) l.
Proof.
  induction l as [|x l IH]; [discriminate|].
  unfold occurrences, without in *. simpl.
  destruct (string_dec x a) as [->|Hne].
  - intros [= H]. rewrite String.eqb_refl. simpl.
    fold (without a l). rewrite without_absent by exact H. reflexivity.
  - intros H. destruct (String.eqb_spec x a); [congruence|]. simpl.
    rewrite perm_swap. apply perm_skip. apply IH. exact H.
Qed.

End OptionsFacts.

(** When a distractor repeats the answer, the assembled options hold the
    correct answer twice, in the assessment screen and in the exporter
    alike. *)
Lemma repeated_answer_occurs_twice :
  OptionsSpec.occurrences
    (Question.correctAnswer (MCQAssessmentScreen.formatMcq OptionsSpec.repeated_answer))
    (Question.options (MCQAssessmentScreen.formatMcq OptionsSpec.repeated_answer))
  = 2%nat /\
  OptionsSpec.occurrences
    (Question.correctAnswer (PdfGenerator.formatMcq OptionsSpec.repeated_answer))
    (Question.options (PdfGenerator.formatMcq OptionsSpec.repeated_answer))
  = 2%nat /\
  Question.options (MCQAssessmentScreen.formatMcq OptionsSpec.repeated_answer)
  = ["4"; "3"; "4"; "5"].
Proof. repeat split; vm_compute; reflexivity. Qed.

(** C5 (amended): in the records built by combining the answer with its
    distractors, the correct answer occurs once more than it occurs among
    the distractors, before and after the shuffle; so it occurs at least
    once, and exactly once iff no distractor equals it. *)
Theorem options_hold_answer_once_per_occurrence (mcq : Generated.t) draws n :
  OptionsSpec.occurrences
    (Question.correctAnswer (MCQAssessmentScreen.formatMcq mcq))
    (Question.options (MCQAssessmentScreen.formatMcq mcq))
  = S (OptionsSpec.occurrences (Generated.answer mcq) (Generated.distractors mcq)) /\
  OptionsSpec.occurrences
    (Question.correctAnswer (PdfGenerator.formatMcq mcq))
    (Question.options (PdfGenerator.formatMcq mcq))
  = S (OptionsSpec.occurrences (Generated.answer mcq) (Generated.distractors mcq)) /\
  OptionsSpec.occurrences
    (Question.correctAnswer
       (fst (MCQAssessmentScreen.shuffle draws (MCQAssessmentScreen.formatMcq mcq) n)))
    (Question.options
       (fst (MCQAssessmentScreen.shuffle draws (MCQAssessmentScreen.formatMcq mcq) n)))
  = S (OptionsSpec.occurrences (Generated.answer mcq) (Generated.distractors mcq)) /\
  (OptionsSpec.occurrences
     (Question.correctAnswer (MCQAssessmentScreen.formatMcq mcq))
     (Question.options (MCQAssessmentScreen.formatMcq mcq)) = 1%nat
   <-> ~ In (Generated.answer mcq) (Generated.distractors mcq)).
Proof.
  assert (Hfmt : OptionsSpec.occurrences (Generated.answer mcq)
                   (Generated.answer mcq :: Generated.distractors mcq)
                 = S (OptionsSpec.occurrences (Generated.answer mcq)
                        (Generated.distractors mcq)))
    by apply OptionsFacts.occurrences_cons_eq.
  split; [exact Hfmt|]. split; [exact Hfmt|]. split.
  - destruct (OptionsFacts.shuffle_spec draws (MCQAssessmentScreen.formatMcq mcq) n)
      as (Hperm & -> & _).
    rewrite (OptionsFacts.occurrences_perm _ _ _ Hperm). exact Hfmt.
  - cbn [MCQAssessmentScreen.formatMcq Question.correctAnswer Question.options].
    rewrite Hfmt, <- OptionsFacts.occurrences_zero_not_in. lia.
Qed.

Module ShuffleFacts.
Import OptionsSpec.

Lemma shuffle_keeps draws g n :
  keeps g (fst (MCQAssessmentScreen.shuffle draws (MCQAssessmentScreen.formatMcq g) n)).
Proof.
  destruct (OptionsFacts.shuffle_spec draws (MCQAssessmentScreen.formatMcq g) n)
    as (Hperm & Hc & Hq).
  unfold keeps. rewrite Hc, Hq. simpl in *. repeat split; try assumption.
  apply (Permutation_in _ (Permutation_sym Hperm)). left. reflexivity.
Qed.

Lemma shuffle_all_keeps draws l : forall n,
  Forall2 keeps l
    (fst (MCQAssessmentScreen.shuffle_all draws (map MCQAssessmentScreen.formatMcq l) n)).
Proof.
  induction l as [|g rest IH]; intros n; simpl; [constructor|].
  pose proof (shuffle_keeps draws g n) as Hk.
  destruct (MCQAssessmentScreen.shuffle draws (MCQAssessmentScreen.formatMcq g) n)
    as [m n1].
  specialize (IH n1).
  destruct (MCQAssessmentScreen.shuffle_all draws _ n1) as [ms n2].
  simpl in *. constructor; assumption.
Qed.

(** Without a non-empty list of generated questions the effect leaves the
    state as it is. *)
Lemma useEffect_nothing draws mcqs n :
  MCQAssessmentScreen.useEffect draws None mcqs n = (mcqs, n) /\
  MCQAssessmentScreen.useEffect draws (Some []) mcqs n = (mcqs, n).
Proof. split; reflexivity. Qed.

End ShuffleFacts.

(** C9: the records the assessment screen builds from a non-empty list of
    generated questions are, one for one, shuffled copies: the options are a
    permutation of the answer followed by the distractors, [correctAnswer]
    is the answer, and so the correct answer is among the options shown. *)
Theorem shuffle_is_permutation draws (g : Generated.t) (rest : list Generated.t)
        (mcqs : list Question.t) (n : nat) :
  Forall2
    (fun g q =>
       Permutation (Question.options q)
                   (Generated.answer g :: Generated.distractors g) /\
       Question.correctAnswer q = Generated.answer g /\
       In (Question.correctAnswer q) (Question.options q) /\
       Question.question q = Generated.question g)
    (g :: rest)
    (fst (MCQAssessmentScreen.useEffect draws (Some (g :: rest)) mcqs n)).
Proof.
  unfold MCQAssessmentScreen.useEffect.
  exact (ShuffleFacts.shuffle_all_keeps draws (g :: rest) n).
Qed.

(** C10: formatting a previewed question for download and recombining the
    answer with the distractors gives back a permutation of the options when
    the correct answer occurs exactly once among them, and a strictly
    shorter list when it occurs more than once. *)
Theorem format_then_recombine (mcq : Preview.t) :
  (OptionsSpec.occurrences (Preview.correct_answer mcq) (Preview.options mcq) = 1%nat ->
   Permutation
     (Question.options (MCQAssessmentScreen.formatMcq (MCQScreen.formatMCQ mcq)))
     (Preview.options mcq) /\
   Permutation
     (Question.options (PdfGenerator.formatMcq (MCQScreen.formatMCQ mcq)))
     (Preview.options mcq)) /\
  ((1 < OptionsSpec.occurrences (Preview.correct_answer mcq) (Preview.options mcq))%nat ->
   (length (Question.options (MCQAssessmentScreen.formatMcq (MCQScreen.formatMCQ mcq)))
    < length (Preview.options mcq))%nat /\
   (length (Question.options (PdfGenerator.formatMcq (MCQScreen.formatMCQ mcq)))
    < length (Preview.options mcq))%nat).
Proof.
  pose proof (OptionsFacts.without_length (Preview.correct_answer mcq)
                                          (Preview.options mcq)) as Hlen.
  split.
  - intros H1. split; apply (OptionsFacts.without_once _ _ H1).
  - intros H2.
    change (Question.options (MCQAssessmentScreen.formatMcq (MCQScreen.formatMCQ mcq)))
      with (Preview.correct_answer mcq
            :: OptionsSpec.without (Preview.correct_answer mcq) (Preview.options mcq)).
    change (Question.options (PdfGenerator.formatMcq (MCQScreen.formatMCQ mcq)))
      with (Preview.correct_answer mcq
            :: OptionsSpec.without (Preview.correct_answer mcq) (Preview.options mcq)).
    simpl. lia.
Qed.

Lemma recombine_once_example :
  Question.options (MCQAssessmentScreen.formatMcq
                      (MCQScreen.formatMCQ OptionsSpec.preview_once))
  = ["Mars"; "Venus"; "Jupiter"].
Proof. vm_compute. reflexivity. Qed.

Lemma recombine_twice_example :
  Question.options (MCQAssessmentScreen.formatMcq
                      (MCQScreen.formatMCQ OptionsSpec.preview_twice))
  = ["Mars"; "Venus"].
Proof. vm_compute. reflexivity. Qed.

(** ** generateMCQsFromAPI *)

Module ApiFacts.
Import Effect ApiService.

(** The catch block rethrows whatever it catches. *)
Lemma on_error_throws message :
  exists message', forall tr : list event,
    on_error message tr = (Throw message', tr ++ [console_error "Network or API error:"]).
Proof.
  unfold on_error, bind, emit, throw.
  destruct (includes message "timeout"); [eexists; reflexivity|].
  destruct (includes message "Network request failed"); eexists; reflexivity.
Qed.

(** No connection: the call throws before any request is made. *)
Lemma offline_throws content numQuestions :
  run (generateMCQsFromAPI offline content numQuestions)
  = (Throw "No internet connection. Please check your network and try again.",
     [NetInfo_fetch]).
Proof. reflexivity. Qed.

(** An ok response with a parsable body is returned, [mcqs] defaulting to
    the empty list. *)
Lemma served_returns r mcqs content numQuestions :
  ok r = true -> json r = json_resolves mcqs ->
  run (generateMCQsFromAPI (online (fetch_resolves r)) content numQuestions)
  = (Normal (match mcqs with Some l => l | None => [] end),
     [NetInfo_fetch; fetch_POST (getBaseUrl +:+ "/generate-mcqs") content numQuestions]).
Proof.
  intros Hok Hjson.
  unfold run, generateMCQsFromAPI, try_catch, bind, NetInfo_isConnected,
    fetch_race, response_json, emit, ret, throw. simpl.
  rewrite Hok, Hjson. reflexivity.
Qed.

(** A failed request: the call throws, having made that one request. *)
Lemma failure_throws o content numQuestions :
  is_failure o = true ->
  exists message tr,
    run (generateMCQsFromAPI (online o) content numQuestions) = (Throw message, tr) /\
    fetch_attempts tr = 1%nat.
Proof.
  intros Hfail.
  unfold run, generateMCQsFromAPI, try_catch, bind, NetInfo_isConnected,
    fetch_race, response_text, emit, ret, throw.
  destruct o as [|message|[k s t j]]; simpl in *.
  - destruct (on_error_throws "Request timeout after 60 seconds") as [m' ->].
    eexists _, _. split; reflexivity.
  - destruct (on_error_throws message) as [m' ->].
    eexists _, _. split; reflexivity.
  - destruct k; [discriminate|]. simpl.
    destruct t as [errorText|message]; simpl.
    + match goal with
      | |- context [on_error ?m] => destruct (on_error_throws m) as [m' ->]
      end.
      eexists _, _. split; reflexivity.
    + destruct (on_error_throws message) as [m' ->].
      eexists _, _. split; reflexivity.
Qed.

(** Whatever the network does, a call makes at most one request. *)
Lemma at_most_one_fetch w content numQuestions :
  (fetch_attempts (snd (run (generateMCQsFromAPI w content numQuestions))) <= 1)%nat.
Proof.
  destruct w as [|o]; [rewrite offline_throws; cbv; lia|].
  destruct (is_failure o) eqn:Hf.
  - destruct (failure_throws o content numQuestions Hf) as (m & tr & -> & Htr).
    simpl. rewrite Htr. lia.
  - destruct o as [|message|[k s t j]]; try discriminate.
    simpl in Hf. destruct k; [|discriminate].
    unfold run, generateMCQsFromAPI, try_catch, bind, NetInfo_isConnected,
      fetch_race, response_json, emit, ret, throw. simpl.
    destruct j as [mcqs|message]; simpl; [cbv; lia|].
    destruct (on_error_throws message) as [m' ->]. cbv. lia.
Qed.

End ApiFacts.

(** C6: a request that fails (a non-ok status, the timeout, a network
    error) makes [generateMCQsFromAPI] throw to its caller, and the trace of
    the call holds exactly one request; no call, failed or not, makes more
    than one. *)
Theorem request_failure_throws_after_one_fetch o content numQuestions :
  ApiService.is_failure o = true ->
  (exists message tr,
     Effect.run (ApiService.generateMCQsFromAPI (ApiService.online o) content numQuestions)
     = (Effect.Throw message, tr) /\
     ApiService.fetch_attempts tr = 1%nat) /\
  (forall w,
     (ApiService.fetch_attempts
        (snd (Effect.run (ApiService.generateMCQsFromAPI w content numQuestions))) <= 1)%nat).
Proof.
  intros Hfail. split.
  - apply ApiFacts.failure_throws. exact Hfail.
  - intros w. apply ApiFacts.at_most_one_fetch.
Qed.

Lemma request_failure_throws_after_one_fetch_witness :
  exists message tr,
    Effect.run (ApiService.generateMCQsFromAPI
                  (ApiService.online ApiSpec.server_error) "Some text" 5)
    = (Effect.Throw message, tr) /\
    ApiService.fetch_attempts tr = 1%nat.
Proof.
  exact (proj1 (request_failure_throws_after_one_fetch
                  ApiSpec.server_error "Some text" 5 eq_refl)).
Defined.

Lemma server_error_example :
  Effect.run (ApiService.generateMCQsFromAPI
                (ApiService.online ApiSpec.server_error) "Some text" 5)
  = (Effect.Throw "Connection error: Server error (500): Internal Server Error",
     [ ApiService.NetInfo_fetch;
       ApiService.fetch_POST "http://192.168.1.16:8000/generate-mcqs" "Some text" 5;
       ApiService.console_error "API Error:";
       ApiService.console_error "Network or API error:" ]).
Proof. vm_compute. reflexivity. Qed.

Lemma timeout_example :
  Effect.run (ApiService.generateMCQsFromAPI
                (ApiService.online ApiService.timeout_first) "Some text" 5)
  = (Effect.Throw "The server took too long to respond. Try with a shorter text or fewer questions.",
     [ ApiService.NetInfo_fetch;
       ApiService.fetch_POST "http://192.168.1.16:8000/generate-mcqs" "Some text" 5;
       ApiService.console_error "Network or API error:" ]).
Proof. vm_compute. reflexivity. Qed.

Lemma network_error_example :
  Effect.run (ApiService.generateMCQsFromAPI
                (ApiService.online (ApiService.fetch_rejects "Network request failed"))
                "Some text" 5)
  = (Effect.Throw "Cannot connect to server. Please check if the server is running and try again.",
     [ ApiService.NetInfo_fetch;
       ApiService.fetch_POST "http://192.168.1.16:8000/generate-mcqs" "Some text" 5;
       ApiService.console_error "Network or API error:" ]).
Proof. vm_compute. reflexivity. Qed.

(** ** processFileWithWebSocket *)

Module SocketFacts.
Import ProgressSocket.

(** While the socket is connecting or open, nothing has settled the
    promise. *)
Lemma live_pending read fileName fileType documentType st :
  reachable read fileName fileType documentType st ->
  live st = true -> settled st = Pending.
Proof.
  induction 1 as [|st ev Hreach IH Hen].
  - destruct read; simpl; [reflexivity|discriminate].
  - destruct st as [[[]|] pr snt tm];
      destruct ev as [|[d|]|[]|code reason|]; simpl in *;
      try discriminate; try (intros _; apply IH; reflexivity);
      unfold live, onMessage, onError, onClose, onTimeout, onOpen, sendMessage,
        resolve, reject, disconnect in *; simpl in *;
      repeat match goal with
             | |- context [bool_decide ?P] => destruct (bool_decide P)
             | |- context [negb ?b] => destruct b
             | |- context [match ?p with Pending => _ | _ => _ end] => destruct p
             end; simpl; intros; try discriminate; auto.
Qed.

(** A settled promise leaves no open socket behind. *)
Lemma settled_not_open read fileName fileType documentType st :
  reachable read fileName fileType documentType st ->
  is_settled st = true -> socket_open_now st = false.
Proof.
  intros Hreach Hs.
  destruct (socket_open_now st) eqn:Ho; [|reflexivity].
  assert (live st = true) as Hl.
  { unfold socket_open_now, live in *. destruct (ws st) as [[]|]; congruence. }
  unfold is_settled in Hs. rewrite (live_pending _ _ _ _ _ Hreach Hl) in Hs.
  discriminate.
Qed.

(** What a terminal event does to a state of a run. *)
Lemma terminal_step read fileName fileType documentType st ev outcome :
  reachable read fileName fileType documentType st ->
  enabled st ev = true ->
  terminal st ev = Some outcome ->
  socket_open_now (step (base64_of read) fileName fileType documentType st ev) = false /\
  is_settled (step (base64_of read) fileName fileType documentType st ev) = true /\
  (settled st = Pending ->
   settled (step (base64_of read) fileName fileType documentType st ev) = outcome).
Proof.
  intros Hreach Hen Hterm.
  pose proof (live_pending _ _ _ _ _ Hreach) as Hlive.
  split; [|split];
    destruct st as [[[]|] pr snt tm];
    destruct ev as [|[d|]|[]|code reason|]; simpl in *;
    try discriminate;
    unfold terminal, socket_open_now, is_settled, onMessage, onError,
      onTimeout, resolve, reject, disconnect, live in *; simpl in *;
    try (rewrite (Hlive eq_refl) in *);
    repeat match goal with
           | H : context [bool_decide ?P] |- _ => destruct (bool_decide P)
           end;
    simpl in *; try discriminate;
    try (injection Hterm as <-);
    try reflexivity;
    try (destruct pr; simpl; intros; try discriminate; reflexivity).
Qed.

Lemma deliver_reachable read fileName fileType documentType evs : forall st,
  reachable read fileName fileType documentType st ->
  reachable read fileName fileType documentType
            (deliver (base64_of read) fileName fileType documentType st evs).
Proof.
  induction evs as [|ev rest IH]; intros st Hst; simpl; [exact Hst|].
  apply IH. destruct (enabled st ev) eqn:Hen; [|exact Hst].
  apply reach_step; assumption.
Qed.

(** Every state of a run is reachable. *)
Lemma run_reachable read fileName fileType documentType evs :
  reachable read fileName fileType documentType
            (processFileWithWebSocket read fileName fileType documentType evs).
Proof. apply deliver_reachable. apply reach_start. Qed.

Lemma deliver_app b fileName fileType documentType evs evs' : forall st,
  deliver b fileName fileType documentType st (evs ++ evs')
  = deliver b fileName fileType documentType
            (deliver b fileName fileType documentType st evs) evs'.
Proof. induction evs as [|ev rest IH]; intros st; simpl; [reflexivity|apply IH]. Qed.

Lemma run_snoc read fileName fileType documentType evs ev :
  enabled (processFileWithWebSocket read fileName fileType documentType evs) ev = true ->
  processFileWithWebSocket read fileName fileType documentType (evs ++ [ev])
  = step (base64_of read) fileName fileType documentType
         (processFileWithWebSocket read fileName fileType documentType evs) ev.
Proof.
  intros Hen. unfold processFileWithWebSocket in *.
  rewrite deliver_app. simpl. rewrite Hen. reflexivity.
Qed.

End SocketFacts.

(** C7: in every run of [processFileWithWebSocket], a terminal event (a
    message with status 'complete' or 'error', a socket error, the timer
    firing on an open socket) leaves the socket not open and the promise
    settled; a promise that was pending is settled as the event says
    (resolved with the message data, or rejected with the event's error),
    and it was pending whenever the socket was connecting or open.  No
    run ends with a settled promise and an open socket. *)
Theorem socket_torn_down_on_terminal_event
        read fileName fileType documentType evs ev outcome :
  ProgressSocket.enabled
    (ProgressSocket.processFileWithWebSocket read fileName fileType documentType evs) ev
  = true ->
  ProgressSocket.terminal
    (ProgressSocket.processFileWithWebSocket read fileName fileType documentType evs) ev
  = Some outcome ->
  ProgressSocket.socket_open_now
    (ProgressSocket.processFileWithWebSocket read fileName fileType documentType
       (evs ++ [ev]))
  = false /\
  ProgressSocket.is_settled
    (ProgressSocket.processFileWithWebSocket read fileName fileType documentType
       (evs ++ [ev]))
  = true /\
  (ProgressSocket.settled
     (ProgressSocket.processFileWithWebSocket read fileName fileType documentType evs)
   = ProgressSocket.Pending ->
   ProgressSocket.settled
     (ProgressSocket.processFileWithWebSocket read fileName fileType documentType
        (evs ++ [ev]))
   = outcome) /\
  (ProgressSocket.live
     (ProgressSocket.processFileWithWebSocket read fileName fileType documentType evs)
   = true ->
   ProgressSocket.settled
     (ProgressSocket.processFileWithWebSocket read fileName fileType documentType evs)
   = ProgressSocket.Pending) /\
  (forall evs',
     ProgressSocket.is_settled
       (ProgressSocket.processFileWithWebSocket read fileName fileType documentType evs')
     = true ->
     ProgressSocket.socket_open_now
       (ProgressSocket.processFileWithWebSocket read fileName fileType documentType evs')
     = false).
Proof.
  intros Hen Hterm.
  rewrite (SocketFacts.run_snoc read fileName fileType documentType evs ev Hen).
  pose proof (SocketFacts.run_reachable read fileName fileType documentType evs) as Hreach.
  split; [|split; [|split; [|split]]].
  - exact (proj1 (SocketFacts.terminal_step _ _ _ _ _ _ _ Hreach Hen Hterm)).
  - exact (proj1 (proj2 (SocketFacts.terminal_step _ _ _ _ _ _ _ Hreach Hen Hterm))).
  - exact (proj2 (proj2 (SocketFacts.terminal_step _ _ _ _ _ _ _ Hreach Hen Hterm))).
  - exact (SocketFacts.live_pending _ _ _ _ _ Hreach).
  - intros evs' Hs.
    exact (SocketFacts.settled_not_open _ _ _ _ _
             (SocketFacts.run_reachable read fileName fileType documentType evs') Hs).
Qed.

Lemma socket_torn_down_on_terminal_event_witness :
  ProgressSocket.socket_open_now
    (ProgressSocket.processFileWithWebSocket
       ApiSpec.file_read "book.pdf" "application/pdf" "book"
       [ProgressSocket.socket_open;
        ProgressSocket.socket_message (Some ApiSpec.complete_message)])
  = false /\
  ProgressSocket.settled
    (ProgressSocket.processFileWithWebSocket
       ApiSpec.file_read "book.pdf" "application/pdf" "book"
       [ProgressSocket.socket_open;
        ProgressSocket.socket_message (Some ApiSpec.complete_message)])
  = ProgressSocket.Resolved ApiSpec.complete_message.
Proof.
  destruct (socket_torn_down_on_terminal_event
              ApiSpec.file_read "book.pdf" "application/pdf" "book"
              [ProgressSocket.socket_open]
              (ProgressSocket.socket_message (Some ApiSpec.complete_message))
              (ProgressSocket.Resolved ApiSpec.complete_message)
              eq_refl eq_refl) as (Hclosed & _ & Hsettled & _).
  split; [exact Hclosed|]. apply Hsettled. reflexivity.
Defined.

(** Once open, the socket has been sent the processing command. *)
Lemma processing_example :
  ApiSpec.processing
  = {| ProgressSocket.ws := Some ProgressSocket.OPEN;
       ProgressSocket.settled := ProgressSocket.Pending;
       ProgressSocket.sent :=
         [ {| ProgressSocket.command_name := "process_file";
              ProgressSocket.file_content := "QUJD";
              ProgressSocket.file_name := "book.pdf";
              ProgressSocket.file_type := "application/pdf";
              ProgressSocket.document_type := "book" |} ];
       ProgressSocket.timer := true |}.
Proof. reflexivity. Qed.

Lemma complete_example :
  ProgressSocket.step "QUJD" "book.pdf" "application/pdf" "book" ApiSpec.processing
    (ProgressSocket.socket_message (Some ApiSpec.complete_message))
  = {| ProgressSocket.ws := Some ProgressSocket.CLOSING;
       ProgressSocket.settled := ProgressSocket.Resolved ApiSpec.complete_message;
       ProgressSocket.sent := ProgressSocket.sent ApiSpec.processing;
       ProgressSocket.timer := true |}.
Proof. reflexivity. Qed.

Lemma timeout_on_open_socket_example :
  ProgressSocket.step "QUJD" "book.pdf" "application/pdf" "book" ApiSpec.processing
    ProgressSocket.timer_fires
  = {| ProgressSocket.ws := Some ProgressSocket.CLOSING;
       ProgressSocket.settled :=
         ProgressSocket.Rejected "File processing timed out after 60 seconds";
       ProgressSocket.sent := ProgressSocket.sent ApiSpec.processing;
       ProgressSocket.timer := false |}.
Proof. reflexivity. Qed.

(** The timer only acts on an open socket: fired while the socket is still
    connecting, it changes nothing but itself. *)
Lemma timeout_while_connecting_example :
  ProgressSocket.step "QUJD" "book.pdf" "application/pdf" "book"
    (ProgressSocket.start ApiSpec.file_read) ProgressSocket.timer_fires
  = {| ProgressSocket.ws := Some ProgressSocket.CONNECTING;
       ProgressSocket.settled := ProgressSocket.Pending;
       ProgressSocket.sent := [];
       ProgressSocket.timer := false |}.
Proof. reflexivity. Qed.

Lemma timer_delay : ProgressSocket.timeout_ms = 60000 /\ ApiService.timeout_ms = 60000.
Proof. split; reflexivity. Qed.

(** * Further properties *)

(** ** processFileWithWebSocket: what a run never does *)

Module SocketRunFacts.
Import ProgressSocket.

(** No handler changes a settled promise. *)
Lemma step_keeps_settled b fileName fileType documentType st ev :
  is_settled st = true ->
  settled (step b fileName fileType documentType st ev) = settled st.
Proof.
  unfold is_settled. intros Hs.
  destruct st as [w pr snt tm]; simpl in *.
  destruct pr as [|d0|err]; [discriminate| |];
    destruct ev as [|[d|]|[]|code reason|];
    destruct w as [[]|]; simpl;
    unfold onMessage, onError, onClose, onTimeout, onOpen, sendMessage,
      resolve, reject, disconnect; simpl;
    repeat match goal with
           | |- context [bool_decide ?P] => destruct (bool_decide P)
           | |- context [(?a =? ?c)%Z] => destruct (a =? c)%Z
           end; reflexivity.
Qed.

Lemma deliver_keeps_settled b fileName fileType documentType evs : forall st,
  is_settled st = true ->
  settled (deliver b fileName fileType documentType st evs) = settled st.
Proof.
  induction evs as [|ev rest IH]; intros st Hs; simpl; [reflexivity|].
  destruct (enabled st ev).
  - rewrite IH.
    + apply step_keeps_settled. exact Hs.
    + unfold is_settled in *. rewrite step_keeps_settled by exact Hs. exact Hs.
  - apply IH. exact Hs.
Qed.

(** Once the service has dropped its socket, nothing is delivered but the
    timer, and the timer finds no socket. *)
Lemma detached_pending_forever b fileName fileType documentType evs : forall st,
  ws st = None -> settled st = Pending ->
  settled (deliver b fileName fileType documentType st evs) = Pending.
Proof.
  induction evs as [|ev rest IH]; intros st Hw Hp; simpl; [exact Hp|].
  destruct (enabled st ev) eqn:Hen; [|apply IH; assumption].
  destruct st as [w pr snt tm]; simpl in *; subst w pr.
  destruct ev as [|[d|]|[]|code reason|]; simpl in Hen; try discriminate.
  apply IH; reflexivity.
Qed.

(** The processing command is sent when the socket opens, and a socket
    opens once. *)
Lemma sent_invariant read fileName fileType documentType st :
  reachable read fileName fileType documentType st ->
  (ws st = Some CONNECTING -> sent st = []) /\
  (sent st = [] \/
   sent st = [SocketSpec.process_file_command read fileName fileType documentType]).
Proof.
  induction 1 as [|st ev Hreach [IH1 IH2] Hen].
  - destruct read; simpl; auto.
  - destruct st as [w pr snt tm]; simpl in *.
    destruct ev as [|[d|]|[]|code reason|];
      destruct w as [[]|]; simpl in Hen; try discriminate; simpl;
      unfold onMessage, onError, onClose, onTimeout, onOpen, sendMessage,
        resolve, reject, disconnect; simpl;
      repeat match goal with
             | |- context [bool_decide ?P] => destruct (bool_decide P)
             | |- context [(?a =? ?c)%Z] => destruct (a =? c)%Z
             | |- context [match ?p with Pending => _ | _ => _ end] => destruct p
             end; simpl;
      try (split; [intros; discriminate|exact IH2]);
      try (split; [exact IH1|exact IH2]).
    rewrite (IH1 eq_refl). split; [intros; discriminate|]. right. reflexivity.
Qed.

Lemma normal_close_pending read fileName fileType documentType evs reason evs' :
  enabled (processFileWithWebSocket read fileName fileType documentType evs)
          (socket_close 1000 reason) = true ->
  settled (processFileWithWebSocket read fileName fileType documentType evs) = Pending ->
  settled (processFileWithWebSocket read fileName fileType documentType
             (evs ++ socket_close 1000 reason :: evs'))
  = Pending.
Proof.
  intros Hen Hp. unfold processFileWithWebSocket in *.
  rewrite SocketFacts.deliver_app. cbn [deliver]. rewrite Hen.
  apply detached_pending_forever.
  - reflexivity.
  - cbn [step settled]. unfold onClose. simpl. exact Hp.
Qed.

Lemma failed_read_run error fileName fileType documentType evs :
  processFileWithWebSocket (inr error) fileName fileType documentType evs
  = {| ws := None; settled := Rejected error; sent := []; timer := false |}.
Proof.
  unfold processFileWithWebSocket. simpl.
  induction evs as [|ev rest IH]; simpl; [reflexivity|].
  destruct ev as [|[d|]|[]|code reason|]; simpl; exact IH.
Qed.

Lemma settled_by_mono read pre more pr :
  SocketSpec.settled_by read pre pr -> SocketSpec.settled_by read (pre ++ more) pr.
Proof.
  destruct pr as [|d|error]; simpl.
  - auto.
  - intros (Hs & Ho & Hm). rewrite !in_app_iff. auto.
  - intros [H|[(d & Ho & Hm & Hs & He)|[(c & Hc & He)
            |[(code & reason & Hc & Hn & He)|(Ho & Ht & He)]]]].
    + auto.
    + right; left. exists d. rewrite !in_app_iff. auto.
    + right; right; left. exists c. rewrite !in_app_iff. auto.
    + right; right; right; left. exists code, reason. rewrite !in_app_iff. auto.
    + right; right; right; right. rewrite !in_app_iff. auto.
Qed.

(** Each handler settles a pending promise with what its own event brings. *)
Lemma step_caused read b fileName fileType documentType pre st ev :
  SocketSpec.caused read pre st ->
  enabled st ev = true ->
  SocketSpec.caused read (pre ++ [ev]) (step b fileName fileType documentType st ev).
Proof.
  intros [Hc Ho] Hen.
  pose proof (settled_by_mono read pre [ev] _ Hc) as Hc'.
  assert (Hev : In ev (pre ++ [ev])) by (apply in_app_iff; right; left; reflexivity).
  assert (Ho' : ws st = Some OPEN -> In socket_open (pre ++ [ev]))
    by (intros Hw; apply in_app_iff; left; auto).
  destruct st as [w pr snt tm]; simpl in *.
  destruct ev as [|[d|]|closed|code reason|];
    destruct w as [[]|]; simpl in Hen; try discriminate Hen;
    try (destruct closed; simpl in Hen; try discriminate Hen);
    unfold SocketSpec.caused, step, onMessage, onError, onClose, onTimeout, onOpen,
      sendMessage, resolve, reject, disconnect, set_readyState; simpl;
    repeat match goal with
           | |- context [bool_decide ?P] => destruct (bool_decide_reflect P)
           | |- context [(?a =? ?c)%Z] => destruct (Z.eqb_spec a c)
           end; simpl;
    destruct pr as [|d0|err]; simpl;
    (split; [|first [exact Ho' | intros; discriminate | intros; exact Hev | idtac]]);
    try exact Hc'.
  all: try solve [simpl; auto 8].
  all: try solve [simpl; right; left; eexists; eauto 8].
  all: try solve [simpl; right; right; left; eexists; eauto 8].
  all: try solve [simpl; right; right; right; left; eexists _, _; eauto 8].
  all: try solve [simpl; right; right; right; right; eauto 8].
Qed.

Lemma deliver_caused read b fileName fileType documentType evs : forall pre st,
  SocketSpec.caused read pre st ->
  SocketSpec.caused read
    (pre ++ SocketSpec.delivered b fileName fileType documentType st evs)
    (deliver b fileName fileType documentType st evs).
Proof.
  induction evs as [|ev rest IH]; intros pre st H; simpl.
  - rewrite app_nil_r. exact H.
  - destruct (enabled st ev) eqn:Hen.
    + replace (pre ++ ev :: SocketSpec.delivered b fileName fileType documentType
                             (step b fileName fileType documentType st ev) rest)
        with ((pre ++ [ev]) ++ SocketSpec.delivered b fileName fileType documentType
                                 (step b fileName fileType documentType st ev) rest)
        by (rewrite <- app_assoc; reflexivity).
      apply IH. apply step_caused; assumption.
    + apply IH. exact H.
Qed.

End SocketRunFacts.

(** X1: whatever a run of [processFileWithWebSocket] has settled its promise
    with was brought by an event delivered in that run.  It resolves only
    with the data of a delivered message whose status is [complete], the
    socket having opened.  It rejects only with the error of the file read,
    with the message of a delivered [error] message (or "Error processing
    file"), with the connection-failed text after a socket error, with the
    unexpected-close text after a close whose code is not 1000, or with the
    time-out text after the timer fired on a socket that had opened.  And it
    is pending only if the file was read. *)
Theorem settlement_comes_from_an_event read fileName fileType documentType evs :
  SocketSpec.settled_by read
    (SocketSpec.delivered_events read fileName fileType documentType evs)
    (ProgressSocket.settled
       (ProgressSocket.processFileWithWebSocket read fileName fileType documentType evs)).
Proof.
  unfold ProgressSocket.processFileWithWebSocket, SocketSpec.delivered_events.
  apply (SocketRunFacts.deliver_caused read _ fileName fileType documentType evs []
           (ProgressSocket.start read)).
  destruct read as [b|error]; split; simpl; eauto; intros; discriminate.
Qed.

(** X2: when the socket is closed normally (code 1000) while the promise is
    still pending, the promise is never settled: the close handler rejects
    only on other codes, the service drops the socket, and the timer callback
    acts only on an open socket. *)
Theorem normal_close_leaves_promise_pending
        read fileName fileType documentType evs reason evs' :
  ProgressSocket.enabled
    (ProgressSocket.processFileWithWebSocket read fileName fileType documentType evs)
    (ProgressSocket.socket_close 1000 reason) = true ->
  ProgressSocket.settled
    (ProgressSocket.processFileWithWebSocket read fileName fileType documentType evs)
  = ProgressSocket.Pending ->
  ProgressSocket.settled
    (ProgressSocket.processFileWithWebSocket read fileName fileType documentType
       (evs ++ ProgressSocket.socket_close 1000 reason :: evs'))
  = ProgressSocket.Pending.
Proof.
  exact (SocketRunFacts.normal_close_pending
           read fileName fileType documentType evs reason evs').
Qed.

Lemma normal_close_leaves_promise_pending_witness :
  ProgressSocket.settled
    (ProgressSocket.processFileWithWebSocket
       ApiSpec.file_read "book.pdf" "application/pdf" "book"
       ([ProgressSocket.socket_open]
        ++ ProgressSocket.socket_close 1000 None :: [ProgressSocket.timer_fires]))
  = ProgressSocket.Pending.
Proof.
  exact (normal_close_leaves_promise_pending
           ApiSpec.file_read "book.pdf" "application/pdf" "book"
           [ProgressSocket.socket_open] None [ProgressSocket.timer_fires]
           eq_refl eq_refl).
Defined.

(** X3: a run of [processFileWithWebSocket] sends at most one message, the
    [process_file] command carrying the file content that was read and the
    file's name and types, and sends nothing while the socket is still
    connecting. *)
Theorem process_file_command_sent_once read fileName fileType documentType evs :
  (ProgressSocket.sent
     (ProgressSocket.processFileWithWebSocket read fileName fileType documentType evs)
   = [] \/
   ProgressSocket.sent
     (ProgressSocket.processFileWithWebSocket read fileName fileType documentType evs)
   = [SocketSpec.process_file_command read fileName fileType documentType]) /\
  (ProgressSocket.ws
     (ProgressSocket.processFileWithWebSocket read fileName fileType documentType evs)
   = Some ProgressSocket.CONNECTING ->
   ProgressSocket.sent
     (ProgressSocket.processFileWithWebSocket read fileName fileType documentType evs)
   = []).
Proof.
  pose proof (SocketRunFacts.sent_invariant _ _ _ _ _
                (SocketFacts.run_reachable read fileName fileType documentType evs))
    as [H1 H2].
  split; assumption.
Qed.

(** X4: when the file cannot be read, the promise is rejected with the read
    error and stays so; no socket is created, no command is sent and no
    timer is armed, whatever is delivered later. *)
Theorem read_failure_rejects_without_socket error fileName fileType documentType evs :
  ProgressSocket.processFileWithWebSocket (inr error) fileName fileType documentType evs
  = {| ProgressSocket.ws := None;
       ProgressSocket.settled := ProgressSocket.Rejected error;
       ProgressSocket.sent := [];
       ProgressSocket.timer := false |}.
Proof. exact (SocketRunFacts.failed_read_run error fileName fileType documentType evs). Qed.

(** ** Exports: outcome of a run *)

Module ExportRunFacts.
Import JSNumber Effect PdfGenerator ExportSpec ExportRunSpec.

Ltac unfold_export :=
  unfold run, generateMCQFile, generateResultReport, try_catch, bind, results_map,
    printToFileAsync, writeAsStringAsync, isAvailableAsync, shareAsync,
    emit, ret, throw, bind; simpl.

Lemma lettered_options (l : list string) : forall k,
  map snd (imap (fun optIndex option => ((k + optIndex)%nat, option)) l) = l /\
  map fst (imap (fun optIndex option => ((k + optIndex)%nat, option)) l)
  = seq k (length l).
Proof.
  induction l as [|x l IH]; intros k; simpl; [auto|].
  destruct (IH (S k)) as [IH1 IH2].
  assert (E : imap ((fun optIndex option => ((k + optIndex)%nat, option)) ∘ S) l
              = imap (fun optIndex option => ((S k + optIndex)%nat, option)) l).
  { apply imap_ext. intros i y _. simpl. f_equal. lia. }
  rewrite E, IH1, IH2. replace (k + 0)%nat with k by lia. auto.
Qed.

(** The documents of a run of [generateMCQFile] on a non-empty list. *)
Lemma generateMCQFile_documents p g rest format title d :
  In d (documents_of (snd (run (generateMCQFile p (Some (g :: rest)) format title)))) ->
  exists t,
    d = MCQs {| header_title := t;
                blocks := imap question_block_of (map formatMcq (g :: rest));
                answer_key := imap answer_key_of (map formatMcq (g :: rest)) |}.
Proof.
  destruct p as [t dt dir pr wr av sh].
  unfold_export.
  destruct (String.eqb format "pdf"), pr as [uri|], wr,
    av as [[]|], sh; simpl;
    intros H; repeat (destruct H as [<-|H]; [eexists; reflexivity|]);
    try contradiction.
Qed.

Lemma generateResultReport_results p results score total format d :
  In d (documents_of (snd (run (generateResultReport p (Some results) score total format)))) ->
  exists r, d = Report r /\ report_results r = imap result_block_of results.
Proof.
  destruct p as [t dt dir pr wr av sh].
  unfold_export.
  destruct (String.eqb format "pdf"), pr as [uri|], wr,
    av as [[]|], sh; simpl;
    intros H; repeat (destruct H as [<-|H]; [eexists; split; reflexivity|]);
    try contradiction.
Qed.

End ExportRunFacts.

(** X5: [generateMCQFile] never throws to its caller.  It returns true
    exactly when the run was: generate the file, ask whether sharing is
    available, share that same file (as PDF for the format 'pdf', as plain
    text otherwise), with no alert.  It returns false exactly when the run
    ended in an alert, which is then the only alert shown. *)
Theorem generateMCQFile_outcome p mcqs format title :
  exists b tr,
    Effect.run (PdfGenerator.generateMCQFile p mcqs format title)
    = (Effect.Normal b, tr) /\
    if b : bool then
      exists gen uri opts,
        tr = [gen; PdfGenerator.Sharing_isAvailableAsync;
              PdfGenerator.Sharing_shareAsync uri (Some opts)] /\
        PdfGenerator.generates_file gen = true /\
        ExportRunSpec.generated_uri p gen = Some uri /\
        PdfGenerator.mimeType opts
        = (if String.eqb format "pdf" then "application/pdf" else "text/plain")
    else
      exists tr0 t m,
        tr = tr0 ++ [PdfGenerator.Alert_alert t m] /\
        existsb PdfGenerator.is_alert tr0 = false.
Proof.
  destruct p as [t dt dir pr wr av sh].
  destruct mcqs as [[|g rest]|];
    try (exists false, [PdfGenerator.Alert_alert "Error" "No MCQs to download"];
         split; [reflexivity|]; exists []; eexists _, _; split; reflexivity).
  ExportRunFacts.unfold_export.
  destruct (String.eqb format "pdf") eqn:Hf, pr as [uri|], wr,
    av as [[]|], sh; simpl;
    eexists _, _; (split; [reflexivity|]); simpl;
    first
      [ eexists _, _, _; split; [reflexivity|];
        split; [reflexivity|]; split; reflexivity
      | eexists [_; _; _; _], _, _; split; reflexivity
      | eexists [_; _; _], _, _; split; reflexivity
      | eexists [_; _], _, _; split; reflexivity
      | eexists [_], _, _; split; reflexivity ].
Qed.

(** The blocks and the answer key of an exported document. *)
Lemma exported_blocks p g rest format title d :
  In d (ExportSpec.documents_of
          (snd (Effect.run (PdfGenerator.generateMCQFile p (Some (g :: rest)) format title)))) ->
  exists md,
    d = PdfGenerator.MCQs md /\
    length (PdfGenerator.blocks md) = length (g :: rest) /\
    length (PdfGenerator.answer_key md) = length (g :: rest) /\
    forall i q,
      (g :: rest) !! i = Some q ->
      exists b,
        PdfGenerator.blocks md !! i = Some b /\
        PdfGenerator.block_number b = S i /\
        PdfGenerator.block_question b = Generated.question q /\
        map snd (PdfGenerator.block_options b)
        = Generated.answer q :: Generated.distractors q /\
        map fst (PdfGenerator.block_options b)
        = seq 65 (S (length (Generated.distractors q))) /\
        PdfGenerator.block_options b !! 0%nat = Some (65%nat, Generated.answer q) /\
        PdfGenerator.answer_key md !! i = Some (S i, Generated.answer q).
Proof.
  intros Hd.
  apply ExportRunFacts.generateMCQFile_documents in Hd as [t ->].
  eexists. split; [reflexivity|].
  cbn [PdfGenerator.blocks PdfGenerator.answer_key].
  rewrite !length_imap, !length_map. split; [reflexivity|]. split; [reflexivity|].
  intros i q Hq.
  exists (PdfGenerator.question_block_of i (PdfGenerator.formatMcq q)).
  assert (Hfmt : map PdfGenerator.formatMcq (g :: rest) !! i
                 = Some (PdfGenerator.formatMcq q)).
  { change (map PdfGenerator.formatMcq (g :: rest))
      with (PdfGenerator.formatMcq <$> (g :: rest)).
    rewrite list_lookup_fmap, Hq. reflexivity. }
  rewrite !list_lookup_imap, Hfmt.
  destruct (ExportRunFacts.lettered_options
              (Generated.answer q :: Generated.distractors q) 65) as [H1 H2].
  repeat split; try assumption.
  - simpl. lia.
  - simpl. unfold PdfGenerator.answer_key_of. simpl. do 2 f_equal. lia.
Qed.

(** X6: in the document [generateMCQFile] exports, the questions are
    numbered from 1 in the order given, the options of each question are the
    answer followed by the distractors, lettered consecutively from 'A'
    (code 65), so the correct answer is always option A; the answer key lists
    the answer of each question under the same number. *)
Theorem exported_answer_is_option_A p g rest format title d :
  In d (ExportSpec.documents_of
          (snd (Effect.run (PdfGenerator.generateMCQFile p (Some (g :: rest)) format title)))) ->
  exists md,
    d = PdfGenerator.MCQs md /\
    length (PdfGenerator.blocks md) = length (g :: rest) /\
    length (PdfGenerator.answer_key md) = length (g :: rest) /\
    forall i q,
      (g :: rest) !! i = Some q ->
      exists b,
        PdfGenerator.blocks md !! i = Some b /\
        PdfGenerator.block_number b = S i /\
        PdfGenerator.block_question b = Generated.question q /\
        map snd (PdfGenerator.block_options b)
        = Generated.answer q :: Generated.distractors q /\
        map fst (PdfGenerator.block_options b)
        = seq 65 (S (length (Generated.distractors q))) /\
        PdfGenerator.block_options b !! 0%nat = Some (65%nat, Generated.answer q) /\
        PdfGenerator.answer_key md !! i = Some (S i, Generated.answer q).
Proof. exact (exported_blocks p g rest format title d). Qed.

Lemma exported_answer_is_option_A_witness :
  exists md,
    PdfGenerator.MCQs
      {| PdfGenerator.header_title := None;
         PdfGenerator.blocks :=
           [ {| PdfGenerator.block_number := 1;
                PdfGenerator.block_question := "Capital of France?";
                PdfGenerator.block_options :=
                  [ (65%nat, "Paris"); (66%nat, "London");
                    (67%nat, "Berlin"); (68%nat, "Madrid") ] |} ];
         PdfGenerator.answer_key := [ (1%nat, "Paris") ] |}
    = PdfGenerator.MCQs md /\
    length (PdfGenerator.blocks md) = 1%nat.
Proof.
  destruct (exported_answer_is_option_A ExportSpec.device OptionsSpec.capital_question []
              "txt" "Generated MCQs" _ (or_introl eq_refl)) as (md & Hd & Hlen & _).
  exists md. split; [exact Hd|exact Hlen].
Defined.

(** X7: [generateResultReport] never throws to its caller and shows at most
    one alert; it shows none exactly when the run ended with the share call
    succeeding. *)
Theorem generateResultReport_outcome p results score total format :
  exists tr,
    Effect.run (PdfGenerator.generateResultReport p results score total format)
    = (Effect.Normal tt, tr) /\
    (length (List.filter PdfGenerator.is_alert tr) <= 1)%nat /\
    (existsb PdfGenerator.is_alert tr = false <->
     exists tr0 uri,
       tr = tr0 ++ [PdfGenerator.Sharing_shareAsync uri None] /\
       PdfGenerator.shareAsync_ok p = true).
Proof.
  destruct p as [t dt dir pr wr av sh].
  ExportRunFacts.unfold_export.
  destruct (String.eqb format "pdf"), results as [rs|], pr as [uri|], wr,
    av as [[]|], sh; simpl;
    eexists; (split; [reflexivity|]); simpl; (split; [lia|]);
    (split;
     [ intros H; try discriminate H;
       first [ eexists [_; _], _; split; reflexivity ]
     | intros (tr0 & u & Htr & Hsh); try discriminate Hsh; try reflexivity;
       exfalso;
       apply (f_equal (@rev _)) in Htr; rewrite rev_app_distr in Htr;
       simpl in Htr; discriminate Htr ]).
Qed.

Lemma filter_imap_length {A B} (P : B -> bool) (Q : A -> bool) (l : list A) :
  forall f : nat -> A -> B,
    (forall k x, P (f k x) = Q x) ->
    length (List.filter P (imap f l)) = length (List.filter Q l).
Proof.
  induction l as [|x l IH]; intros f Hf; [reflexivity|].
  cbn [imap List.filter]. rewrite Hf.
  specialize (IH (f ∘ S) (fun k y => Hf (S k) y)).
  destruct (Q x); cbn [length]; rewrite IH; reflexivity.
Qed.

(** X8: exporting what [handleSubmit] navigates with gives a report that
    lists one result per question and marks exactly [score] of them correct;
    the correct answer is printed for the others and only for them. *)
Theorem report_marks_score_results_correct
        mcqs sel score total results p format d :
  MCQAssessmentScreen.handleSubmit mcqs sel
  = MCQAssessmentScreen.navigate_MCQResult score total results ->
  In d (ExportSpec.documents_of
          (snd (Effect.run (PdfGenerator.generateResultReport p (Some results)
                              (JSNumber.of_Z score) (JSNumber.of_Z (Z.of_nat total))
                              format)))) ->
  exists r,
    d = PdfGenerator.Report r /\
    length (PdfGenerator.report_results r) = total /\
    Z.of_nat (length (List.filter PdfGenerator.result_is_correct
                                  (PdfGenerator.report_results r))) = score /\
    Forall (fun b => PdfGenerator.result_correctAnswer b = None
                     <-> PdfGenerator.result_is_correct b = true)
           (PdfGenerator.report_results r).
Proof.
  intros Hsub Hd.
  apply ScoreFacts.handleSubmit_navigate in Hsub as (_ & Hscore & Htotal & Hresults).
  apply ExportRunFacts.generateResultReport_results in Hd as (r & -> & Hr).
  exists r. split; [reflexivity|]. rewrite Hr, length_imap.
  split; [subst; apply length_imap|]. split.
  - rewrite Hscore, ScoreFacts.reduce_count, <- Hresults.
    unfold ScoreSpec.count_matches. f_equal.
    apply filter_imap_length. intros k x. reflexivity.
  - apply Forall_forall. intros b Hb.
    apply elem_of_lookup_imap in Hb as (i & x & -> & _).
    unfold PdfGenerator.result_block_of. simpl.
    destruct (bool_decide _); split; intros; congruence.
Qed.

Lemma report_marks_score_results_correct_witness :
  exists r,
    PdfGenerator.Report
      {| PdfGenerator.report_grade := "D";
         PdfGenerator.report_score := JSNumber.of_Z 2;
         PdfGenerator.report_total := JSNumber.of_Z 3;
         PdfGenerator.report_percentage := JSNumber.of_Z 67;
         PdfGenerator.report_good_score := None;
         PdfGenerator.report_results :=
           imap PdfGenerator.result_block_of ScoreSpec.sample_results |}
    = PdfGenerator.Report r /\
    Z.of_nat (length (List.filter PdfGenerator.result_is_correct
                                  (PdfGenerator.report_results r))) = 2.
Proof.
  destruct (report_marks_score_results_correct
              ScoreSpec.sample_mcqs ScoreSpec.sample_answers 2 3%nat
              ScoreSpec.sample_results ExportSpec.device "txt" _
              eq_refl (or_introl eq_refl)) as (r & Hd & _ & Hcount & _).
  exists r. split; [exact Hd|exact Hcount].
Defined.

(** ** A perfect score and a zero score *)

Module ExtremeScores.
Import JSNumber.

(** A positive integer below 2^53 is the Number with a 53-bit mantissa. *)
Lemma of_Z_pos_normal p :
  Z.pos p < 2 ^ 53 ->
  exists m e, of_Z (Z.pos p) = S754_finite false m e /\
              digits2_pos m = 53%positive /\ -52 <= e <= 0.
Proof.
  intros Hp. pose proof (NumberFacts.digits2_pos_le_53 p Hp) as Hd.
  unfold of_Z, binary_normalize, binary_round.
  set (d := digits2_pos p) in *.
  assert (Hfexp : fexp prec emax (Z.pos d + 0) = Z.pos d - 53).
  { unfold fexp, emin, prec, emax. lia. }
  rewrite Hfexp.
  assert (exists mz, shl_align p 0 (Z.pos d - 53) = (mz, Z.pos d - 53)
                     /\ digits2_pos mz = 53%positive)
    as (mz & -> & Hmz).
  { unfold shl_align. rewrite Z.sub_0_r.
    destruct (Z.pos d - 53) as [|q|q] eqn:E; try lia.
    - exists p. split; [reflexivity|]. fold d. lia.
    - exists (Pos.iter xO p q). split; [reflexivity|].
      rewrite NumberFacts.digits2_pos_iter_xO. fold d. lia. }
  exists mz, (Z.pos d - 53).
  split; [|split; [exact Hmz|lia]].
  unfold binary_round_aux, shr_fexp.
  cbn [Zdigits2]. rewrite Hmz.
  assert (Hfexp2 : fexp prec emax (53 + (Z.pos d - 53)) = Z.pos d - 53).
  { unfold fexp, emin, prec, emax. lia. }
  rewrite Hfexp2, Z.sub_diag. cbn [shr shr_record_of_loc].
  cbn [shr_m loc_of_shr_record round_nearest_even Zdigits2].
  rewrite Hmz, Hfexp2, Z.sub_diag. cbn [shr shr_record_of_loc shr_m].
  unfold emax, prec.
  destruct (Z.leb_spec (Z.pos d - 53) (1024 - 53)); [reflexivity|lia].
Qed.

(** A Number divided by itself is 1. *)
Lemma div_self m e :
  digits2_pos m = 53%positive ->
  div (S754_finite false m e) (S754_finite false m e) = of_Z 1.
Proof.
  intros Hm. unfold div, SFdiv.
  assert (Hcore : SFdiv_core_binary prec emax (Z.pos m) e (Z.pos m) e
                  = (2 ^ 53, -53, loc_Exact)).
  { unfold SFdiv_core_binary. cbn [Zdigits2]. rewrite Hm.
    replace (53 + e - (53 + e)) with 0 by lia. rewrite Z.sub_diag.
    change (Z.min (fexp prec emax 0) 0) with (-53).
    change (0 - -53) with 53. cbv beta iota zeta.
    rewrite Z.shiftl_mul_pow2 by lia.
    destruct (Z.div_eucl (Z.pos m * 2 ^ 53) (Z.pos m)) as [q r] eqn:E.
    assert (Hq : q = Z.pos m * 2 ^ 53 / Z.pos m)
      by (unfold Z.div; rewrite E; reflexivity).
    assert (Hr : r = (Z.pos m * 2 ^ 53) mod Z.pos m)
      by (unfold Z.modulo; rewrite E; reflexivity).
    rewrite Z.mul_comm, Z.div_mul in Hq by lia.
    rewrite Z.mul_comm, Z.mod_mul in Hr by lia.
    subst q r. unfold new_location.
    destruct (Z.even (Z.pos m)); reflexivity. }
  rewrite Hcore. vm_compute. reflexivity.
Qed.

Lemma percentage_all p :
  Z.pos p < 2 ^ 53 ->
  MCQResultScreen.percentage (of_Z (Z.pos p)) (of_Z (Z.pos p)) = of_Z 100.
Proof.
  intros Hp. unfold MCQResultScreen.percentage.
  rewrite NumberFacts.of_Z_pos_gt_zero by lia.
  destruct (of_Z_pos_normal p Hp) as (m & e & -> & Hm & _).
  rewrite (div_self m e Hm). vm_compute. reflexivity.
Qed.

Lemma percentage_none p :
  Z.pos p < 2 ^ 53 ->
  MCQResultScreen.percentage (of_Z 0) (of_Z (Z.pos p)) = of_Z 0.
Proof.
  intros Hp. unfold MCQResultScreen.percentage.
  rewrite NumberFacts.of_Z_pos_gt_zero by lia.
  destruct (of_Z_pos_normal p Hp) as (m & e & -> & _). reflexivity.
Qed.

End ExtremeScores.

Module SubmissionFacts.
Import MCQAssessmentScreen.

(** Answers whose keys cover the questions pass the completeness test. *)
Lemma covered_size (sel : gmap nat string) (n : nat) :
  (forall i, (i < n)%nat -> is_Some (sel !! i)) -> (n <= size sel)%nat.
Proof.
  intros Hcov.
  rewrite <- (size_dom (D:=gset nat) sel), <- (size_set_seq (C:=gset nat) 0 n).
  apply subseteq_size. intros i Hi.
  apply elem_of_set_seq in Hi. apply elem_of_dom. apply Hcov. lia.
Qed.

(** Answers whose keys are question indices and pass the completeness test
    cover the questions. *)
Lemma size_covered (sel : gmap nat string) (n : nat) :
  (forall i, is_Some (sel !! i) -> (i < n)%nat) ->
  (n <= size sel)%nat ->
  forall i, (i < n)%nat -> is_Some (sel !! i).
Proof.
  intros Hkeys Hsize i Hi.
  assert (Hsub : dom sel ⊆ (set_seq 0 n : gset nat)).
  { intros j Hj. apply elem_of_dom in Hj. apply elem_of_set_seq.
    specialize (Hkeys j Hj). lia. }
  assert (Heq : dom sel = (set_seq 0 n : gset nat)).
  { apply set_subseteq_size_eq; [exact Hsub|].
    rewrite size_set_seq, size_dom. exact Hsize. }
  apply elem_of_dom. rewrite Heq. apply elem_of_set_seq. lia.
Qed.

Lemma reduce_from_all_correct sel mcqs : forall index acc,
  (forall i q, mcqs !! i = Some q ->
               sel !! (index + i)%nat = Some (Question.correctAnswer q)) ->
  JSArray.reduce_from (add_if_correct sel) index acc mcqs
  = acc + Z.of_nat (length mcqs).
Proof.
  induction mcqs as [|mcq rest IH]; intros index acc Hall.
  - simpl. lia.
  - cbn [JSArray.reduce_from]. rewrite IH.
    + unfold add_if_correct, strict_eq.
      pose proof (Hall 0%nat mcq eq_refl) as H0.
      replace (index + 0)%nat with index in H0 by lia.
      rewrite bool_decide_eq_true_2 by exact H0. cbn [length]. lia.
    + intros i q Hq. replace (S index + i)%nat with (index + S i)%nat by lia.
      apply Hall. exact Hq.
Qed.

Lemma reduce_from_none_correct sel mcqs : forall index acc,
  (forall i q, mcqs !! i = Some q ->
               sel !! (index + i)%nat <> Some (Question.correctAnswer q)) ->
  JSArray.reduce_from (add_if_correct sel) index acc mcqs = acc.
Proof.
  induction mcqs as [|mcq rest IH]; intros index acc Hnone.
  - reflexivity.
  - cbn [JSArray.reduce_from]. rewrite IH.
    + unfold add_if_correct, strict_eq.
      pose proof (Hnone 0%nat mcq eq_refl) as H0.
      replace (index + 0)%nat with index in H0 by lia.
      rewrite bool_decide_eq_false_2 by exact H0. lia.
    + intros i q Hq. replace (S index + i)%nat with (index + S i)%nat by lia.
      apply Hnone. exact Hq.
Qed.

End SubmissionFacts.

(** X9: for any number of questions (at least one), a submission in which
    every answer is the correct answer navigates with score = total and the
    result screen shows 100 percent and grade A; a complete submission in
    which no answer is the correct answer navigates with score 0 and the
    result screen shows 0 percent and grade F. *)
Theorem perfect_and_zero_submissions mcqs sel :
  mcqs <> [] ->
  Z.of_nat (length mcqs) < 2 ^ 53 ->
  (forall i, (i < length mcqs)%nat -> is_Some (sel !! i)) ->
  ((forall i q, mcqs !! i = Some q -> sel !! i = Some (Question.correctAnswer q)) ->
   exists results,
     MCQAssessmentScreen.handleSubmit mcqs sel
     = MCQAssessmentScreen.navigate_MCQResult
         (Z.of_nat (length mcqs)) (length mcqs) results /\
     MCQResultScreen.percentage (JSNumber.of_Z (Z.of_nat (length mcqs)))
                                (JSNumber.of_Z (Z.of_nat (length mcqs)))
     = JSNumber.of_Z 100 /\
     MCQResultScreen.grade (JSNumber.of_Z (Z.of_nat (length mcqs)))
                           (JSNumber.of_Z (Z.of_nat (length mcqs))) = "A") /\
  ((forall i q, mcqs !! i = Some q -> sel !! i <> Some (Question.correctAnswer q)) ->
   exists results,
     MCQAssessmentScreen.handleSubmit mcqs sel
     = MCQAssessmentScreen.navigate_MCQResult 0 (length mcqs) results /\
     MCQResultScreen.percentage (JSNumber.of_Z 0)
                                (JSNumber.of_Z (Z.of_nat (length mcqs)))
     = JSNumber.of_Z 0 /\
     MCQResultScreen.grade (JSNumber.of_Z 0)
                           (JSNumber.of_Z (Z.of_nat (length mcqs))) = "F").
Proof.
  intros Hne Hlt Hcov.
  pose proof (SubmissionFacts.covered_size sel (length mcqs) Hcov) as Hsize.
  assert (Hpos : exists p, Z.of_nat (length mcqs) = Z.pos p).
  { destruct mcqs; [congruence|]. simpl. eexists. reflexivity. }
  destruct Hpos as [p Hp]. rewrite Hp in *.
  split; intros Hans; eexists;
    (split; [rewrite (ScoreFacts.handleSubmit_complete mcqs sel Hsize); f_equal|]).
  - unfold JSArray.reduce.
    rewrite (SubmissionFacts.reduce_from_all_correct sel mcqs 0 0 Hans). lia.
  - unfold MCQResultScreen.grade.
    rewrite (ExtremeScores.percentage_all p Hlt). split; reflexivity.
  - unfold JSArray.reduce.
    apply (SubmissionFacts.reduce_from_none_correct sel mcqs 0 0 Hans).
  - unfold MCQResultScreen.grade.
    rewrite (ExtremeScores.percentage_none p Hlt). split; reflexivity.
Qed.

Lemma perfect_and_zero_submissions_witness :
  exists results,
    MCQAssessmentScreen.handleSubmit ScoreSpec.sample_mcqs
      (MCQAssessmentScreen.handleAnswer ScoreSpec.sample_answers 1 "Mars")
    = MCQAssessmentScreen.navigate_MCQResult 3 3 results /\
    MCQResultScreen.percentage (JSNumber.of_Z 3) (JSNumber.of_Z 3) = JSNumber.of_Z 100 /\
    MCQResultScreen.grade (JSNumber.of_Z 3) (JSNumber.of_Z 3) = "A".
Proof.
  refine (proj1 (perfect_and_zero_submissions ScoreSpec.sample_mcqs
                   (MCQAssessmentScreen.handleAnswer ScoreSpec.sample_answers 1 "Mars")
                   _ _ _) _).
  - discriminate.
  - reflexivity.
  - intros [|[|[|i]]] Hi; vm_compute; eauto. simpl in Hi. lia.
  - intros [|[|[|i]]] q Hq; vm_compute in Hq; try discriminate;
      injection Hq as <-; vm_compute; reflexivity.
Defined.

(** ** The assessment screen as the user drives it *)

Module FlowFacts.
Import MCQAssessmentScreen AssessmentFlow.

Lemma initial_well_formed mcqs : well_formed mcqs initial.
Proof.
  split.
  - intros Hne. destruct mcqs; [congruence|]. simpl. lia.
  - intros i o H. simpl in H. rewrite lookup_empty in H. discriminate.
Qed.

Lemma on_press_well_formed mcqs st p :
  well_formed mcqs st -> well_formed mcqs (on_press mcqs st p).
Proof.
  intros [Hcq Hans]. unfold on_press.
  destruct (mcqs !! currentQuestion st) as [mcq|] eqn:Hm; [|split; assumption].
  pose proof (lookup_lt_Some _ _ _ Hm) as Hlt.
  destruct p as [k| |].
  - destruct (Question.options mcq !! k) as [option|] eqn:Hk; [|split; assumption].
    split; [exact Hcq|]. cbn [selectedAnswers]. unfold handleAnswer.
    intros i o Hi. destruct (decide (currentQuestion st = i)) as [<-|Hne].
    + rewrite lookup_insert_eq in Hi. injection Hi as <-.
      exists mcq. split; [exact Hm|].
      apply list_elem_of_In. apply list_elem_of_lookup. eauto.
    + rewrite lookup_insert_ne in Hi by exact Hne. apply Hans. exact Hi.
  - destruct (Nat.eqb_spec (currentQuestion st) 0); split; try assumption.
    intros _. simpl. lia.
  - destruct (Nat.eqb_spec (currentQuestion st) (length mcqs - 1));
      split; try assumption.
    intros _. simpl. lia.
Qed.

Lemma fold_well_formed mcqs presses : forall st,
  well_formed mcqs st -> well_formed mcqs (fold_left (on_press mcqs) presses st).
Proof.
  induction presses as [|p rest IH]; intros st Hst; simpl; [exact Hst|].
  apply IH. apply on_press_well_formed. exact Hst.
Qed.

Lemma after_well_formed mcqs presses : well_formed mcqs (after mcqs presses).
Proof. apply fold_well_formed. apply initial_well_formed. Qed.

End FlowFacts.

(** X10: whatever the user presses on the assessment screen, the question
    on display stays one of the questions, and every recorded answer is
    recorded under the index of a question and is one of that question's
    options. *)
Theorem assessment_state_stays_in_bounds mcqs presses :
  (mcqs <> [] ->
   (AssessmentFlow.currentQuestion (AssessmentFlow.after mcqs presses)
    < length mcqs)%nat) /\
  (forall i o,
     AssessmentFlow.selectedAnswers (AssessmentFlow.after mcqs presses) !! i = Some o ->
     exists q, mcqs !! i = Some q /\ In o (Question.options q)).
Proof. exact (FlowFacts.after_well_formed mcqs presses). Qed.

Module SubmitFacts.
Import MCQAssessmentScreen AssessmentFlow.

Lemma covered_or_missing (sel : gmap nat string) (n : nat) :
  (forall i, (i < n)%nat -> is_Some (sel !! i)) \/
  (exists i, (i < n)%nat /\ sel !! i = None).
Proof.
  induction n as [|n [IH|(i & Hi & Hnone)]].
  - left. intros i Hi. lia.
  - destruct (sel !! n) as [o|] eqn:Hn.
    + left. intros i Hi. destruct (decide (i = n)) as [->|Hne].
      * rewrite Hn. eauto.
      * apply IH. lia.
    + right. exists n. split; [lia|exact Hn].
  - right. exists i. split; [lia|exact Hnone].
Qed.

Lemma keys_in_range mcqs st :
  well_formed mcqs st ->
  forall i, is_Some (selectedAnswers st !! i) -> (i < length mcqs)%nat.
Proof.
  intros [_ Hans] i [o Ho]. destruct (Hans i o Ho) as (q & Hq & _).
  exact (lookup_lt_Some _ _ _ Hq).
Qed.

End SubmitFacts.

(** X11: on the assessment screen, submitting is refused with the
    'Incomplete' alert exactly when some question has no recorded answer;
    when it goes through, every result carries a user answer, and that
    answer is one of the options of its question. *)
Theorem submit_needs_every_answer mcqs presses :
  (MCQAssessmentScreen.handleSubmit mcqs
     (AssessmentFlow.selectedAnswers (AssessmentFlow.after mcqs presses))
   = MCQAssessmentScreen.Alert_Incomplete
   <-> exists i, (i < length mcqs)%nat /\
                 AssessmentFlow.selectedAnswers (AssessmentFlow.after mcqs presses) !! i
                 = None) /\
  (forall score total results,
     MCQAssessmentScreen.handleSubmit mcqs
       (AssessmentFlow.selectedAnswers (AssessmentFlow.after mcqs presses))
     = MCQAssessmentScreen.navigate_MCQResult score total results ->
     Forall (fun r => exists o, Result.userAnswer r = Some o /\
                                In o (Result.options r)) results).
Proof.
  pose proof (FlowFacts.after_well_formed mcqs presses) as Hwf.
  set (st := AssessmentFlow.after mcqs presses) in *.
  pose proof (SubmitFacts.keys_in_range mcqs st Hwf) as Hkeys.
  split; [split|].
  - unfold MCQAssessmentScreen.handleSubmit.
    destruct (Nat.ltb_spec (size (AssessmentFlow.selectedAnswers st)) (length mcqs))
      as [Hlt|Hge]; [|discriminate].
    intros _.
    destruct (SubmitFacts.covered_or_missing (AssessmentFlow.selectedAnswers st)
                                             (length mcqs)) as [Hcov|Hmiss];
      [|exact Hmiss].
    pose proof (SubmissionFacts.covered_size _ _ Hcov). lia.
  - intros (i & Hi & Hnone). unfold MCQAssessmentScreen.handleSubmit.
    destruct (Nat.ltb_spec (size (AssessmentFlow.selectedAnswers st)) (length mcqs))
      as [Hlt|Hge]; [reflexivity|exfalso].
    destruct (SubmissionFacts.size_covered _ _ Hkeys Hge i Hi) as [o Ho].
    congruence.
  - intros score total results Hsub.
    apply ScoreFacts.handleSubmit_navigate in Hsub as (Hsize & _ & _ & ->).
    apply Forall_forall. intros r Hr.
    apply elem_of_lookup_imap in Hr as (i & mcq & -> & Hmcq).
    pose proof (lookup_lt_Some _ _ _ Hmcq) as Hi.
    destruct (SubmissionFacts.size_covered _ _ Hkeys Hsize i Hi) as [o Ho].
    exists o. cbn [MCQAssessmentScreen.with_userAnswer Result.userAnswer Result.options].
    split; [exact Ho|].
    destruct Hwf as [_ Hans]. destruct (Hans i o Ho) as (q & Hq & Hin).
    congruence.
Qed.

(** Answering every question of the sample and submitting. *)
Lemma assessment_flow_example :
  AssessmentFlow.press_submit ScoreSpec.sample_mcqs
    (AssessmentFlow.after ScoreSpec.sample_mcqs AssessmentFlow.sample_presses)
  = Some (MCQAssessmentScreen.navigate_MCQResult 2 3
            (imap (MCQAssessmentScreen.with_userAnswer
                     (AssessmentFlow.selectedAnswers
                        (AssessmentFlow.after ScoreSpec.sample_mcqs
                                              AssessmentFlow.sample_presses)))
                  ScoreSpec.sample_mcqs)).
Proof. vm_compute. reflexivity. Qed.

(** ** From the preview screen to the assessment *)

Module PreviewFacts.
Import OptionsSpec.

Lemma occurrences_without_same a l : occurrences a (without a l) = 0%nat.
Proof.
  apply OptionsFacts.occurrences_zero_not_in. unfold without.
  intros Hin. apply filter_In in Hin as [_ Hneq].
  rewrite String.eqb_refl in Hneq. discriminate.
Qed.

Lemma occurrences_without_other a x l :
  x <> a -> occurrences x (without a l) = occurrences x l.
Proof.
  intros Hne. unfold occurrences, without.
  induction l as [|y l IH]; simpl; [reflexivity|].
  destruct (String.eqb_spec y a) as [->|Hya]; simpl.
  - destruct (string_dec a x); [congruence|exact IH].
  - destruct (string_dec y x); rewrite IH; reflexivity.
Qed.

End PreviewFacts.

(** X12: on the way from the preview screen to the assessment
    ([formatMCQsForDownload], then the assessment screen's own formatting and
    shuffle), every question ends up with its correct answer exactly once
    among the options, whatever the previewed options were: copies of the
    correct answer are collapsed, a missing one is added; every other option
    occurs as often as it did in the preview. *)
Theorem previewed_answer_occurs_once draws (m : Preview.t) (rest : list Preview.t)
        (mcqs : list Question.t) (n : nat) :
  Forall2
    (fun pm q =>
       Question.correctAnswer q = Preview.correct_answer pm /\
       OptionsSpec.occurrences (Question.correctAnswer q) (Question.options q) = 1%nat /\
       forall x, x <> Preview.correct_answer pm ->
                 OptionsSpec.occurrences x (Question.options q)
                 = OptionsSpec.occurrences x (Preview.options pm))
    (m :: rest)
    (fst (MCQAssessmentScreen.useEffect draws
            (Some (MCQScreen.formatMCQsForDownload (m :: rest))) mcqs n)).
Proof.
  pose proof (ShuffleFacts.shuffle_all_keeps draws
                (MCQScreen.formatMCQsForDownload (m :: rest)) n) as H.
  change (MCQAssessmentScreen.useEffect draws
            (Some (MCQScreen.formatMCQsForDownload (m :: rest))) mcqs n)
    with (MCQAssessmentScreen.shuffle_all draws
            (map MCQAssessmentScreen.formatMcq
                 (MCQScreen.formatMCQsForDownload (m :: rest))) n).
  unfold MCQScreen.formatMCQsForDownload in *.
  change (map MCQScreen.formatMCQ (m :: rest))
    with (MCQScreen.formatMCQ <$> (m :: rest)) in H at 1.
  apply (proj1 (Forall2_fmap_l MCQScreen.formatMCQ _ _ _)) in H.
  eapply Forall2_impl; [exact H|].
  intros pm q (Hperm & Hc & _ & _). simpl in Hperm, Hc.
  fold (OptionsSpec.without (Preview.correct_answer pm) (Preview.options pm)) in Hperm.
  split; [exact Hc|]. split.
  - rewrite Hc, (OptionsFacts.occurrences_perm _ _ _ Hperm),
      OptionsFacts.occurrences_cons_eq, PreviewFacts.occurrences_without_same.
    reflexivity.
  - intros x Hx. rewrite (OptionsFacts.occurrences_perm _ _ _ Hperm).
    unfold OptionsSpec.occurrences at 1. rewrite count_occ_cons_neq by congruence.
    apply PreviewFacts.occurrences_without_other. exact Hx.
Qed.

(** ** ChapterSelectionScreen *)

Module ChapterFacts.
Import ChapterSelectionScreen.

Lemma includes_In sel i : includes sel i = true <-> In i sel.
Proof.
  unfold includes. rewrite existsb_exists. split.
  - intros (x & Hx & Heq). apply Nat.eqb_eq in Heq. congruence.
  - intros H. exists i. split; [exact H|apply Nat.eqb_refl].
Qed.

(** One tap flips the tapped chapter and leaves the others as they were;
    no chapter is ever selected twice. *)
Lemma toggle_spec sel i :
  List.NoDup sel ->
  List.NoDup (toggleChapterSelection sel i) /\
  forall j, In j (toggleChapterSelection sel i)
            <-> (if decide (j = i) then ~ In j sel else In j sel).
Proof.
  intros Hnd. unfold toggleChapterSelection.
  destruct (includes sel i) eqn:Hinc.
  - apply includes_In in Hinc. split.
    + apply List.NoDup_filter. exact Hnd.
    + intros j. rewrite filter_In. destruct (decide (j = i)) as [->|Hne].
      * rewrite Nat.eqb_refl. simpl. split; [intros [_ H]; discriminate|tauto].
      * apply Nat.eqb_neq in Hne. rewrite Hne. simpl. tauto.
  - assert (Hnin : ~ In i sel).
    { intros H. apply includes_In in H. congruence. }
    split.
    + apply (Permutation_NoDup (Permutation_cons_append sel i)).
      constructor; assumption.
    + intros j. rewrite in_app_iff. simpl. destruct (decide (j = i)) as [->|Hne].
      * tauto.
      * split; [intros [H|[H|[]]]; [exact H|congruence]|tauto].
Qed.

Lemma after_snoc taps i : after (taps ++ [i]) = toggleChapterSelection (after taps) i.
Proof. unfold after. rewrite fold_left_app. reflexivity. Qed.

Lemma after_spec taps :
  List.NoDup (after taps) /\
  forall i, In i (after taps) <-> Nat.odd (count_occ Nat.eq_dec taps i) = true.
Proof.
  induction taps as [|p taps [IHnd IHin]] using rev_ind.
  - split; [constructor|]. intros i. simpl. split; [tauto|discriminate].
  - rewrite after_snoc. destruct (toggle_spec (after taps) p IHnd) as [Hnd Hin].
    split; [exact Hnd|]. intros i. rewrite Hin, count_occ_app. simpl.
    destruct (decide (i = p)) as [->|Hne].
    + destruct (Nat.eq_dec p p); [|congruence].
      rewrite IHin. replace (count_occ Nat.eq_dec taps p + 1)%nat
        with (S (count_occ Nat.eq_dec taps p)) by lia.
      rewrite Nat.odd_succ, <- Nat.negb_odd.
      destruct (Nat.odd (count_occ Nat.eq_dec taps p)); simpl; split;
        congruence.
    + destruct (Nat.eq_dec p i); [congruence|].
      rewrite Nat.add_0_r. apply IHin.
Qed.

End ChapterFacts.

(** X13: on the chapter selection screen, after any series of taps a chapter
    is selected exactly when it was tapped an odd number of times, and no
    chapter is in the selection twice. *)
Theorem chapter_selected_iff_tapped_odd_times (taps : list nat) :
  List.NoDup (ChapterSelectionScreen.after taps) /\
  forall i, In i (ChapterSelectionScreen.after taps)
            <-> Nat.odd (count_occ Nat.eq_dec taps i) = true.
Proof. exact (ChapterFacts.after_spec taps). Qed.

(** X14: Continue on the chapter selection screen alerts when nothing is
    selected; otherwise, the taps having been on listed chapters, it never
    fails on a missing chapter and navigates with the contents of the
    selected chapters joined by a blank line, in the order in which the
    chapters were selected. *)
Theorem continue_joins_selected_chapters chapters taps :
  Forall (fun i => (i < length chapters)%nat) taps ->
  (ChapterSelectionScreen.after taps = [] ->
   ChapterSelectionScreen.handleContinue chapters (ChapterSelectionScreen.after taps)
   = ChapterSelectionScreen.Alert_select_a_chapter) /\
  (ChapterSelectionScreen.after taps <> [] ->
   exists contents,
     Forall2 (fun i c => exists ch, chapters !! i = Some ch /\
                                    ChapterSelectionScreen.content ch = c)
             (ChapterSelectionScreen.after taps) contents /\
     ChapterSelectionScreen.handleContinue chapters (ChapterSelectionScreen.after taps)
     = ChapterSelectionScreen.navigate_NumQuestions
         (ChapterSelectionScreen.join
            (ChapterSelectionScreen.LF +:+ ChapterSelectionScreen.LF) contents)).
Proof.
  intros Htaps. split.
  - intros ->. reflexivity.
  - intros Hne. unfold ChapterSelectionScreen.handleContinue.
    destruct (Nat.eqb_spec (length (ChapterSelectionScreen.after taps)) 0) as [E|_].
    { destruct (ChapterSelectionScreen.after taps); [congruence|discriminate]. }
    assert (Hsome : is_Some (mapM (fun index =>
                       ChapterSelectionScreen.content <$> chapters !! index)
                       (ChapterSelectionScreen.after taps))).
    { apply mapM_is_Some. apply Forall_forall. intros i Hi.
      apply list_elem_of_In in Hi.
      apply (proj2 (ChapterFacts.after_spec taps)) in Hi.
      assert (Hin : In i taps).
      { apply (count_occ_In Nat.eq_dec).
        destruct (count_occ Nat.eq_dec taps i); [discriminate|lia]. }
      rewrite Forall_forall in Htaps. apply list_elem_of_In in Hin.
      specialize (Htaps i Hin). simpl.
      destruct (lookup_lt_is_Some_2 chapters i Htaps) as [ch ->]. eauto. }
    destruct Hsome as [contents Hc]. rewrite Hc. exists contents.
    split; [|reflexivity].
    apply mapM_Some in Hc. eapply Forall2_impl; [exact Hc|].
    intros i c H. simpl in H.
    destruct (chapters !! i) as [ch|]; [|discriminate].
    injection H as <-. eauto.
Qed.

Lemma continue_joins_selected_chapters_witness :
  exists contents,
    Forall2 (fun i c => exists ch, ChapterSelectionScreen.sample_chapters !! i = Some ch /\
                                   ChapterSelectionScreen.content ch = c)
            (ChapterSelectionScreen.after [2%nat; 1%nat; 0%nat; 1%nat]) contents /\
    ChapterSelectionScreen.handleContinue ChapterSelectionScreen.sample_chapters
      (ChapterSelectionScreen.after [2%nat; 1%nat; 0%nat; 1%nat])
    = ChapterSelectionScreen.navigate_NumQuestions
        (ChapterSelectionScreen.join
           (ChapterSelectionScreen.LF +:+ ChapterSelectionScreen.LF) contents).
Proof.
  refine (proj2 (continue_joins_selected_chapters
                   ChapterSelectionScreen.sample_chapters
                   [2%nat; 1%nat; 0%nat; 1%nat] _) _).
  - repeat constructor.
  - vm_compute. discriminate.
Defined.

(** Chapters tapped in the order 3, 2, 1 and 2 again: the text is the third
    chapter followed by the first. *)
Lemma continue_example :
  ChapterSelectionScreen.handleContinue ChapterSelectionScreen.sample_chapters
    (ChapterSelectionScreen.after [2%nat; 1%nat; 0%nat; 1%nat])
  = ChapterSelectionScreen.navigate_NumQuestions
      ("gamma" +:+ ChapterSelectionScreen.LF +:+ ChapterSelectionScreen.LF +:+ "alpha").
Proof. vm_compute. reflexivity. Qed.

(** ** The file endpoints *)

Module FileApiFacts.
Import Effect FileApi.

Ltac unfold_api :=
  unfold run, generateMCQsFromFileAPI, processFile_http, processFileWithOCR,
    testServerConnection, check_ok, try_catch, bind, readAsStringAsync, fetch,
    response_text, response_json, emit, ret, throw; simpl.

Ltac world_cases w :=
  destruct w as [[base|rerr] [fmsg|[k s [t|t] [j|j]]]]; try destruct k.

End FileApiFacts.

(** X15: [generateMCQsFromFileAPI] makes at most one request, and none when
    the file cannot be read.  It returns the parsed [mcqs] only when the read
    succeeded, the response was ok and its body parsed; every failure (read,
    network, non-ok status, unparsable body) reaches the caller as the one
    message 'Failed to generate MCQs from file. ...', the status and the
    server's text being logged only. *)
Theorem file_generation_failures_collapse {J : Type} (w : FileApi.world J)
        fileUri fileName fileType numQuestions :
  exists c tr,
    Effect.run (FileApi.generateMCQsFromFileAPI w fileUri fileName fileType numQuestions)
    = (c, tr) /\
    (FileApi.fetch_attempts tr <= 1)%nat /\
    (forall message, FileApi.read_result w = inr message ->
                     FileApi.fetch_attempts tr = 0%nat) /\
    (c = Effect.Throw
           "Failed to generate MCQs from file. Please check your connection and try again."
     \/ exists base64Data r data,
          FileApi.read_result w = inl base64Data /\
          FileApi.fetch_result w = FileApi.fetch_resolves r /\
          FileApi.ok r = true /\
          FileApi.json r = inl data /\
          c = Effect.Normal data /\
          FileApi.fetch_attempts tr = 1%nat).
Proof.
  FileApiFacts.world_cases w; FileApiFacts.unfold_api;
    eexists _, _; (split; [reflexivity|]);
    (split; [cbv; lia|]);
    (split; [intros message Hm; try discriminate Hm; reflexivity|]);
    first [ left; reflexivity
          | right; eexists _, _, _; repeat split; reflexivity ].
Qed.

(** X16: [processFileAPI] hands PDFs, images and books to the socket and
    settles as that promise does, so a file that cannot be read rejects with
    the read error itself.  Any other file goes over HTTP with at most one
    request, and every failure there, an unreadable file included, reaches
    the caller as the one message 'Failed to process file. ...'. *)
Theorem processFileAPI_outcome {J : Type} (w : FileApi.world J) evs
        fileUri fileName fileType documentType :
  if FileApi.uses_WebSocket fileType documentType then
    FileApi.processFileAPI w evs fileUri fileName fileType documentType
    = FileApi.via_WebSocket
        (ProgressSocket.settled
           (ProgressSocket.processFileWithWebSocket
              (FileApi.read_result w) fileName fileType documentType evs)) /\
    (forall error,
       FileApi.read_result w = inr error ->
       FileApi.processFileAPI w evs fileUri fileName fileType documentType
       = FileApi.via_WebSocket (ProgressSocket.Rejected error))
  else
    exists c tr,
      FileApi.processFileAPI w evs fileUri fileName fileType documentType
      = FileApi.via_HTTP c tr /\
      (FileApi.fetch_attempts tr <= 1)%nat /\
      (c = Effect.Throw
             "Failed to process file. Please check your file format and try again."
       \/ exists base64Data r data,
            FileApi.read_result w = inl base64Data /\
            FileApi.fetch_result w = FileApi.fetch_resolves r /\
            FileApi.ok r = true /\
            FileApi.json r = inl data /\
            c = Effect.Normal data).
Proof.
  unfold FileApi.processFileAPI.
  destruct (FileApi.uses_WebSocket fileType documentType).
  - split; [reflexivity|]. intros error ->.
    rewrite SocketRunFacts.failed_read_run. reflexivity.
  - FileApiFacts.world_cases w; FileApiFacts.unfold_api;
      eexists _, _; (split; [reflexivity|]);
      (split; [cbv; lia|]);
      first [ left; reflexivity
            | right; eexists _, _, _; repeat split; reflexivity ].
Qed.

(** X17: [processFileWithOCR], as the module stands, never sends its
    request: the URL is built from [API_BASE_URL], which the module does not
    bind, so after reading the file the call always throws 'Failed to process
    file with OCR. Please try again.'. *)
Theorem processFileWithOCR_never_requests {J : Type} (w : FileApi.world J)
        fileUri fileName fileType :
  exists tr,
    Effect.run (FileApi.processFileWithOCR w None fileUri fileName fileType)
    = (Effect.Throw "Failed to process file with OCR. Please try again.", tr) /\
    FileApi.fetch_attempts tr = 0%nat /\
    In (FileApi.FileSystem_readAsStringAsync fileUri) tr.
Proof.
  destruct w as [[base|rerr] f]; FileApiFacts.unfold_api;
    eexists; (split; [reflexivity|]); (split; [reflexivity|]); left; reflexivity.
Qed.

(** X18: [testServerConnection] never throws and makes exactly one request;
    it reports [connected] exactly when the server answered with an ok
    status, and carries the error message only when the request itself
    failed. *)
Theorem testServerConnection_total {J : Type} (w : FileApi.world J) :
  exists c tr,
    Effect.run (FileApi.testServerConnection w) = (Effect.Normal c, tr) /\
    FileApi.fetch_attempts tr = 1%nat /\
    (FileApi.connected c = true
     <-> exists r, FileApi.fetch_result w = FileApi.fetch_resolves r /\
                   FileApi.ok r = true) /\
    (FileApi.error c <> None
     <-> exists message, FileApi.fetch_result w = FileApi.fetch_rejects message).
Proof.
  destruct w as [rd [fmsg|[k s t j]]]; try destruct k; FileApiFacts.unfold_api;
    eexists _, _; (split; [reflexivity|]); (split; [reflexivity|]); simpl;
    (split; split);
    try (intros H; try discriminate H; try congruence; eauto; fail);
    try (intros (r & Hr & Hok); try discriminate Hr; injection Hr as <-;
         simpl in Hok; congruence);
    try (intros (m & Hm); discriminate Hm).
Qed.

(** ** NumQuestionsScreen *)

Module NumQuestionsFacts.
Import Effect NumQuestionsScreen.

(** The events of a callee are neither alerts nor navigations. *)
Lemma injected_quiet {E} (inject : E -> event) (tr : list E) :
  (forall e, is_alert (inject e) = false) ->
  (forall e, is_navigate (inject e) = false) ->
  List.filter is_alert (map inject tr) = [] /\
  List.filter is_navigate (map inject tr) = [].
Proof.
  intros Ha Hn. induction tr as [|e tr [IH1 IH2]]; simpl; [auto|].
  rewrite Ha, Hn. auto.
Qed.

(** What the handler does with what the endpoint settled to. *)
Lemma after_call (r : completion (option (list Generated.t))) (mid : list event) :
  List.filter is_alert mid = [] ->
  List.filter is_navigate mid = [] ->
  forall body : Effect.M (option (list Generated.t)),
    body [setLoading true] = (r, setLoading true :: mid) ->
    exists rest,
      (bind (try_catch
               (bind body (fun mcqs =>
                  match mcqs with
                  | Some ((_ :: _) as l) => emit (navigate_MCQScreen l)
                  | _ => throw "No MCQs were generated. Try with different text."
                  end))
               (fun message =>
                  bind (emit (console_error "Detailed error:"))
                       (fun _ => emit (Alert_alert "Error" message))))
            (fun _ => emit (setLoading false))) [setLoading true]
      = (Normal tt, setLoading true :: rest ++ [setLoading false]) /\
      match r with
      | Normal (Some ((_ :: _) as l)) =>
          List.filter is_navigate rest = [navigate_MCQScreen l] /\
          List.filter is_alert rest = []
      | Normal _ =>
          List.filter is_navigate rest = [] /\
          List.filter is_alert rest
          = [Alert_alert "Error" "No MCQs were generated. Try with different text."]
      | Throw message =>
          List.filter is_navigate rest = [] /\
          List.filter is_alert rest = [Alert_alert "Error" message]
      end.
Proof.
  intros Ha Hn body Hbody.
  unfold bind, try_catch, emit, throw. rewrite Hbody.
  destruct r as [[[|x l]|]|message]; simpl.
  - exists (mid ++ [console_error "Detailed error:";
                    Alert_alert "Error" "No MCQs were generated. Try with different text."]).
    split; [rewrite <- !app_assoc; reflexivity|].
    rewrite !List.filter_app, Ha, Hn. split; reflexivity.
  - exists (mid ++ [navigate_MCQScreen (x :: l)]).
    split; [reflexivity|].
    rewrite !List.filter_app, Ha, Hn. split; reflexivity.
  - exists (mid ++ [console_error "Detailed error:";
                    Alert_alert "Error" "No MCQs were generated. Try with different text."]).
    split; [rewrite <- !app_assoc; reflexivity|].
    rewrite !List.filter_app, Ha, Hn. split; reflexivity.
  - exists (mid ++ [console_error "Detailed error:"; Alert_alert "Error" message]).
    split; [rewrite <- !app_assoc; reflexivity|].
    rewrite !List.filter_app, Ha, Hn. split; reflexivity.
Qed.

End NumQuestionsFacts.

(** X19: [handleGenerateMCQs] always ends by switching the loading flag off,
    and never throws.  It navigates to the questions screen only with a
    non-empty list, and then shows no alert; in every other case (the
    endpoint threw, returned nothing or an empty list, or there was no
    content to send) it does not navigate and shows exactly one alert. *)
Theorem handleGenerateMCQs_outcome text_world file_world TypeError_message ps numQuestions :
  exists rest,
    Effect.run (NumQuestionsScreen.handleGenerateMCQs
                  text_world file_world TypeError_message ps numQuestions)
    = (Effect.Normal tt,
       NumQuestionsScreen.setLoading true :: rest ++ [NumQuestionsScreen.setLoading false]) /\
    ((exists x l,
        List.filter NumQuestionsScreen.is_navigate rest
        = [NumQuestionsScreen.navigate_MCQScreen (x :: l)] /\
        List.filter NumQuestionsScreen.is_alert rest = [])
     \/
     (List.filter NumQuestionsScreen.is_navigate rest = [] /\
      exists message,
        List.filter NumQuestionsScreen.is_alert rest
        = [NumQuestionsScreen.Alert_alert "Error" message])).
Proof.
  unfold Effect.run, NumQuestionsScreen.handleGenerateMCQs.
  match goal with
  | |- context [Effect.bind (if ?c then ?a else ?b0)] =>
      set (body := if c then a else b0)
  end.
  assert (Hbody : exists r mid,
             body [NumQuestionsScreen.setLoading true]
             = (r, NumQuestionsScreen.setLoading true :: mid) /\
             List.filter NumQuestionsScreen.is_alert mid = [] /\
             List.filter NumQuestionsScreen.is_navigate mid = []).
  { subst body.
    destruct (_ && _).
    - unfold NumQuestionsScreen.call.
      destruct (Effect.run _) as [r tr1].
      exists r, (map NumQuestionsScreen.file_api tr1). split; [reflexivity|].
      apply NumQuestionsFacts.injected_quiet; reflexivity.
    - destruct (NumQuestionsScreen.content ps) as [content|].
      + unfold Effect.bind, NumQuestionsScreen.call.
        destruct (Effect.run _) as [[l|message] tr1].
        * exists (Effect.Normal (Some l)), (map NumQuestionsScreen.text_api tr1).
          split; [reflexivity|].
          apply NumQuestionsFacts.injected_quiet; reflexivity.
        * exists (Effect.Throw message), (map NumQuestionsScreen.text_api tr1).
          split; [reflexivity|].
          apply NumQuestionsFacts.injected_quiet; reflexivity.
      + exists (Effect.Throw TypeError_message), []. repeat split. }
  destruct Hbody as (r & mid & Hbody & Ha & Hn).
  destruct (NumQuestionsFacts.after_call r mid Ha Hn body Hbody) as (rest & Hrun & Hcase).
  exists rest. split; [exact Hrun|].
  destruct r as [[[|x l]|]|message]; destruct Hcase as [Hnav Hal].
  - right. eauto.
  - left. eauto.
  - right. eauto.
  - right. eauto.
Qed.

(** Offline: the alert shows the message of [generateMCQsFromAPI]. *)
Lemma handleGenerateMCQs_offline_example :
  Effect.run (NumQuestionsScreen.handleGenerateMCQs
                ApiService.offline FileApi.failing_server "TypeError"
                (NumQuestionsScreen.text_params "Some text") 3)
  = (Effect.Normal tt,
     [ NumQuestionsScreen.setLoading true;
       NumQuestionsScreen.text_api ApiService.NetInfo_fetch;
       NumQuestionsScreen.console_error "Detailed error:";
       NumQuestionsScreen.Alert_alert "Error"
         "No internet connection. Please check your network and try again.";
       NumQuestionsScreen.setLoading false ]).
Proof. vm_compute. reflexivity. Qed.

(** A server that answers with an empty list: no navigation. *)
Lemma handleGenerateMCQs_empty_example :
  Effect.run (NumQuestionsScreen.handleGenerateMCQs
                (ApiService.online (ApiSpec.served [])) FileApi.failing_server "TypeError"
                (NumQuestionsScreen.text_params "Some text") 3)
  = (Effect.Normal tt,
     [ NumQuestionsScreen.setLoading true;
       NumQuestionsScreen.text_api ApiService.NetInfo_fetch;
       NumQuestionsScreen.text_api
         (ApiService.fetch_POST "http://192.168.1.16:8000/generate-mcqs" "Some text" 3);
       NumQuestionsScreen.console_error "Detailed error:";
       NumQuestionsScreen.Alert_alert "Error"
         "No MCQs were generated. Try with different text.";
       NumQuestionsScreen.setLoading false ]).
Proof. vm_compute. reflexivity. Qed.

(** ** FileUploadScreen *)

(** X20: [handleUpload] without a selected file only alerts and does not
    call the API.  With a file, once [processFileAPI] has settled, the
    handler shows the user exactly one thing (an alert, the book options, or
    one navigation), a result without a first chapter giving an alert, and it
    ends by switching the loading flag off; while the API call has not
    settled, nothing is shown and the loading flag stays on. *)
Theorem handleUpload_outcome api TypeError_message fileUri fileName fileType documentType :
  (fileUri = "" ->
   Effect.run (FileUploadScreen.handleUpload api TypeError_message
                 fileUri fileName fileType documentType)
   = (Effect.Normal FileUploadScreen.returned,
      [FileUploadScreen.Alert_alert "Error" "Please select a file first"])) /\
  (fileUri <> "" ->
   match api with
   | Some c =>
       exists rest,
         Effect.run (FileUploadScreen.handleUpload api TypeError_message
                       fileUri fileName fileType documentType)
         = (Effect.Normal FileUploadScreen.returned,
            [FileUploadScreen.setIsLoading true;
             FileUploadScreen.setProcessingStatus "Connecting...";
             FileUploadScreen.processFileAPI_called fileUri fileName fileType documentType]
            ++ rest
            ++ [FileUploadScreen.setIsLoading false;
                FileUploadScreen.setProcessingStatus ""]) /\
         length (List.filter FileUploadScreen.is_shown rest) = 1%nat /\
         (forall result,
            c = Effect.Normal result ->
            (FileUploadScreen.chapters result = None \/
             FileUploadScreen.chapters result = Some []) ->
            List.filter FileUploadScreen.is_shown rest
            = [FileUploadScreen.Alert_alert "Error"
                 (ApiService.or_else TypeError_message "Failed to process file")])
   | None =>
       Effect.run (FileUploadScreen.handleUpload api TypeError_message
                     fileUri fileName fileType documentType)
       = (Effect.Normal FileUploadScreen.waiting,
          [FileUploadScreen.setIsLoading true;
           FileUploadScreen.setProcessingStatus "Connecting...";
           FileUploadScreen.processFileAPI_called fileUri fileName fileType documentType])
   end).
Proof.
  split.
  - intros ->. reflexivity.
  - intros Hne. unfold FileUploadScreen.handleUpload.
    destruct (String.eqb_spec fileUri ""); [congruence|].
    destruct api as [[[book chs]|message]|]; [| |reflexivity].
    + unfold Effect.run, FileUploadScreen.await_processFileAPI, Effect.try_catch,
        Effect.bind, Effect.emit, Effect.ret, Effect.throw. simpl.
      destruct book, chs as [[|ch [|ch2 l]]|]; simpl;
        try destruct (String.eqb documentType "book"); simpl;
        (first [ eexists [_; _]; split; [reflexivity|]
               | eexists [_]; split; [reflexivity|] ]);
        (split; [reflexivity|]);
        intros result [= <-] [H|H]; simpl in H; try discriminate H; reflexivity.
    + unfold Effect.run, FileUploadScreen.await_processFileAPI, Effect.try_catch,
        Effect.bind, Effect.emit, Effect.ret, Effect.throw. simpl.
      eexists [_; _]. split; [reflexivity|]. split; [reflexivity|].
      intros result H. discriminate H.
Qed.

Lemma handleUpload_outcome_witness :
  Effect.run (FileUploadScreen.handleUpload None "TypeError" "" "" "" "document")
  = (Effect.Normal FileUploadScreen.returned,
     [FileUploadScreen.Alert_alert "Error" "Please select a file first"]) /\
  exists rest,
    Effect.run (FileUploadScreen.handleUpload
                  (Some (Effect.Normal
                           {| FileUploadScreen.is_book := false;
                              FileUploadScreen.chapters := Some [] |}))
                  "TypeError" "file:///notes.pdf" "notes.pdf" "application/pdf"
                  "document")
    = (Effect.Normal FileUploadScreen.returned,
       [FileUploadScreen.setIsLoading true;
        FileUploadScreen.setProcessingStatus "Connecting...";
        FileUploadScreen.processFileAPI_called
          "file:///notes.pdf" "notes.pdf" "application/pdf" "document"]
       ++ rest
       ++ [FileUploadScreen.setIsLoading false;
           FileUploadScreen.setProcessingStatus ""]) /\
    List.filter FileUploadScreen.is_shown rest
    = [FileUploadScreen.Alert_alert "Error" "TypeError"].
Proof.
  split.
  - exact (proj1 (handleUpload_outcome None "TypeError" "" "" "" "document") eq_refl).
  - destruct (proj2 (handleUpload_outcome
                       (Some (Effect.Normal
                                {| FileUploadScreen.is_book := false;
                                   FileUploadScreen.chapters := Some [] |}))
                       "TypeError" "file:///notes.pdf" "notes.pdf" "application/pdf"
                       "document")
                    ltac:(discriminate)) as (rest & Hrun & _ & Hshown).
    exists rest. split; [exact Hrun|].
    exact (Hshown _ eq_refl (or_intror eq_refl)).
Defined.

(** ** generateMCQsFromAPI: what the caller can get *)


(** ** The upload, end to end *)

(** X22: when a PDF, an image or a book is uploaded and the server closes
    the progress socket normally (code 1000) before any 'complete' or
    'error' message, [handleUpload] never gets past its [await]: nothing is
    shown to the user and the loading flag is never switched off, whatever
    happens afterwards. *)
Theorem upload_waits_forever_after_normal_close
        decode w evs reason evs' TypeError_message fileUri fileName fileType documentType :
  fileUri <> "" ->
  FileApi.uses_WebSocket fileType documentType = true ->
  ProgressSocket.enabled
    (ProgressSocket.processFileWithWebSocket
       (FileApi.read_result w) fileName fileType documentType evs)
    (ProgressSocket.socket_close 1000 reason) = true ->
  ProgressSocket.settled
    (ProgressSocket.processFileWithWebSocket
       (FileApi.read_result w) fileName fileType documentType evs)
  = ProgressSocket.Pending ->
  Effect.run (UploadFlow.upload decode w
                (evs ++ ProgressSocket.socket_close 1000 reason :: evs')
                TypeError_message fileUri fileName fileType documentType)
  = (Effect.Normal FileUploadScreen.waiting,
     [FileUploadScreen.setIsLoading true;
      FileUploadScreen.setProcessingStatus "Connecting...";
      FileUploadScreen.processFileAPI_called fileUri fileName fileType documentType]).
Proof.
  intros Hne Hws Hen Hp.
  unfold UploadFlow.upload, FileApi.processFileAPI. rewrite Hws.
  rewrite (SocketRunFacts.normal_close_pending _ _ _ _ _ _ _ Hen Hp).
  cbn [UploadFlow.awaited]. unfold FileUploadScreen.handleUpload.
  destruct (String.eqb_spec fileUri ""); [congruence|]. reflexivity.
Qed.

Lemma upload_waits_forever_after_normal_close_witness :
  Effect.run (UploadFlow.upload UploadFlow.no_chapters UploadFlow.readable
                ([ProgressSocket.socket_open]
                 ++ ProgressSocket.socket_close 1000 None :: [ProgressSocket.timer_fires])
                "TypeError" "file:///book.pdf" "book.pdf" "application/pdf" "document")
  = (Effect.Normal FileUploadScreen.waiting,
     [FileUploadScreen.setIsLoading true;
      FileUploadScreen.setProcessingStatus "Connecting...";
      FileUploadScreen.processFileAPI_called
        "file:///book.pdf" "book.pdf" "application/pdf" "document"]).
Proof.
  refine (upload_waits_forever_after_normal_close
            UploadFlow.no_chapters UploadFlow.readable
            [ProgressSocket.socket_open] None [ProgressSocket.timer_fires]
            "TypeError" "file:///book.pdf" "book.pdf" "application/pdf" "document"
            _ eq_refl eq_refl eq_refl).
  discriminate.
Defined.

(** X23: downloading from the preview screen ([formatMCQsForDownload], then
    [generateMCQFile]) exports, for each previewed question, the correct
    answer as option A followed by the previewed options other than the
    correct answer, in their order; the correct answer is listed once. *)
Theorem preview_download_lists_answer_first p (m : Preview.t) (rest : list Preview.t)
        format title d :
  In d (ExportSpec.documents_of
          (snd (Effect.run (PdfGenerator.generateMCQFile p
                              (Some (MCQScreen.formatMCQsForDownload (m :: rest)))
                              format title)))) ->
  exists md,
    d = PdfGenerator.MCQs md /\
    length (PdfGenerator.blocks md) = length (m :: rest) /\
    forall i pm,
      (m :: rest) !! i = Some pm ->
      exists b,
        PdfGenerator.blocks md !! i = Some b /\
        map snd (PdfGenerator.block_options b)
        = Preview.correct_answer pm
          :: OptionsSpec.without (Preview.correct_answer pm) (Preview.options pm) /\
        PdfGenerator.block_options b !! 0%nat = Some (65%nat, Preview.correct_answer pm) /\
        OptionsSpec.occurrences (Preview.correct_answer pm)
                                (map snd (PdfGenerator.block_options b)) = 1%nat /\
        PdfGenerator.answer_key md !! i = Some (S i, Preview.correct_answer pm).
Proof.
  intros Hd.
  change (MCQScreen.formatMCQsForDownload (m :: rest))
    with (MCQScreen.formatMCQ m :: map MCQScreen.formatMCQ rest) in Hd.
  apply exported_blocks in Hd as (md & -> & Hlen & _ & Hblocks).
  exists md. split; [reflexivity|]. split.
  { rewrite Hlen. simpl. rewrite length_map. reflexivity. }
  intros i pm Hpm.
  assert (Hq : (MCQScreen.formatMCQ m :: map MCQScreen.formatMCQ rest) !! i
               = Some (MCQScreen.formatMCQ pm)).
  { change (MCQScreen.formatMCQ m :: map MCQScreen.formatMCQ rest)
      with (MCQScreen.formatMCQ <$> (m :: rest)).
    rewrite list_lookup_fmap, Hpm. reflexivity. }
  destruct (Hblocks i _ Hq) as (b & Hb & _ & _ & Hopts & _ & H0 & Hkey).
  exists b. split; [exact Hb|]. split; [exact Hopts|]. split; [exact H0|].
  split; [|exact Hkey].
  rewrite Hopts.
  change (OptionsSpec.occurrences (Preview.correct_answer pm)
            (Preview.correct_answer pm
             :: OptionsSpec.without (Preview.correct_answer pm) (Preview.options pm))
          = 1%nat).
  rewrite OptionsFacts.occurrences_cons_eq, PreviewFacts.occurrences_without_same.
  reflexivity.
Qed.

Lemma preview_download_lists_answer_first_witness :
  exists md,
    PdfGenerator.MCQs
      {| PdfGenerator.header_title := None;
         PdfGenerator.blocks :=
           [ {| PdfGenerator.block_number := 1;
                PdfGenerator.block_question := "Red planet?";
                PdfGenerator.block_options := [ (65%nat, "Mars"); (66%nat, "Venus") ] |} ];
         PdfGenerator.answer_key := [ (1%nat, "Mars") ] |}
    = PdfGenerator.MCQs md /\
    length (PdfGenerator.blocks md) = 1%nat.
Proof.
  destruct (preview_download_lists_answer_first ExportSpec.device
              OptionsSpec.preview_twice [] "txt" "Generated MCQs" _
              (or_introl eq_refl)) as (md & Hd & Hlen & _).
  exists md. split; [exact Hd|exact Hlen].
Defined.

(** ** From the chapter selection to the number of questions *)

Module ApiRunFacts.
Import Effect ApiService.

(** Every call starts by asking for the network state. *)
Lemma first_event w content numQuestions :
  exists r tr1,
    run (generateMCQsFromAPI w content numQuestions) = (r, NetInfo_fetch :: tr1).
Proof.
  unfold run, generateMCQsFromAPI, try_catch, bind, NetInfo_isConnected,
    fetch_race, response_text, response_json, emit, ret, throw.
  destruct w as [|[|message|[k s t j]]]; simpl.
  - eexists _, _. reflexivity.
  - destruct (ApiFacts.on_error_throws "Request timeout after 60 seconds") as [m' ->].
    eexists _, _. reflexivity.
  - destruct (ApiFacts.on_error_throws message) as [m' ->].
    eexists _, _. reflexivity.
  - destruct k; simpl.
    + destruct j as [mcqs|message]; simpl.
      * eexists _, _. reflexivity.
      * destruct (ApiFacts.on_error_throws message) as [m' ->].
        eexists _, _. reflexivity.
    + destruct t as [errorText|message]; simpl;
        match goal with
        | |- context [on_error ?m] => destruct (ApiFacts.on_error_throws m) as [m' ->]
        end; eexists _, _; reflexivity.
Qed.

End ApiRunFacts.

(** X24: the text assembled on the chapter selection screen is passed on
    under the key [text], while the number-of-questions screen reads
    [content]: coming from the chapter selection, [handleGenerateMCQs] finds
    no content, makes no request at all and ends in the alert of the
    TypeError.  Coming from the upload screen, which passes [content], the
    text endpoint is called with that content. *)
Theorem chapter_text_never_reaches_the_endpoint
        text_world file_world TypeError_message text numQuestions :
  Effect.run (NumQuestionsScreen.handleGenerateMCQs
                text_world file_world TypeError_message
                (ChapterToQuestions.read_params (ChapterToQuestions.route_params text))
                numQuestions)
  = (Effect.Normal tt,
     [ NumQuestionsScreen.setLoading true;
       NumQuestionsScreen.console_error "Detailed error:";
       NumQuestionsScreen.Alert_alert "Error" TypeError_message;
       NumQuestionsScreen.setLoading false ]) /\
  NumQuestionsScreen.content
    (ChapterToQuestions.read_params (ChapterToQuestions.upload_route_params text))
  = Some text /\
  exists rest,
    snd (Effect.run (NumQuestionsScreen.handleGenerateMCQs
                       text_world file_world TypeError_message
                       (ChapterToQuestions.read_params
                          (ChapterToQuestions.upload_route_params text))
                       numQuestions))
    = NumQuestionsScreen.setLoading true
      :: NumQuestionsScreen.text_api ApiService.NetInfo_fetch
      :: rest.
Proof.
  split; [reflexivity|]. split; [reflexivity|].
  unfold Effect.run, NumQuestionsScreen.handleGenerateMCQs.
  cbn [ChapterToQuestions.read_params NumQuestionsScreen.content
       NumQuestionsScreen.fileUri NumQuestionsScreen.fileName NumQuestionsScreen.fileType].
  change (ChapterToQuestions.upload_route_params text !! "fileUri") with (@None string).
  change (ChapterToQuestions.upload_route_params text !! "content") with (Some text).
  cbn [NumQuestionsScreen.truthy andb].
  unfold Effect.bind at 1 2. unfold Effect.try_catch, Effect.emit at 1.
  unfold Effect.bind at 1 2. unfold NumQuestionsScreen.call.
  destruct text_world as [|o].
  - eexists. reflexivity.
  - assert (Hfirst : exists r tr1,
               Effect.run (ApiService.generateMCQsFromAPI (ApiService.online o)
                             text numQuestions)
               = (r, ApiService.NetInfo_fetch :: tr1)).
    { exact (ApiRunFacts.first_event (ApiService.online o) text numQuestions). }
    destruct Hfirst as (r & tr1 & ->).
    destruct r as [l|message]; simpl.
    + destruct l; eexists; reflexivity.
    + eexists; reflexivity.
Qed.
